(** * Enterprise Task Management Platform: backend server (src/backend/server.js)

    A shallow embedding of the Express/Mongoose backend: the authentication
    middleware, the error translator, the routing table and the handlers of
    its routes (health, registration, login, users, tasks, projects and the
    analytics dashboard), and of the part of the front end's [ApiService]
    that writes the authorization header; followed by the properties of the
    specification that concern them, and by further properties of the
    routes.

    Conventions of the model.
    - A JavaScript string is a [string]; its elements stand for the code
      units counted by [.length].  [trim] and [toLowerCase] are given on the
      ASCII range.
    - A JSON value or a stored field is a [value]; a MongoDB document is a
      finite map from path names to values; a collection is the list of its
      documents in insertion order, and [findOne] without a sort returns the
      first match in that order.
    - Everything the server obtains from its runtime or from a third-party
      package and that the source does not define (bcrypt, jsonwebtoken, the
      clock, ObjectId generation, the conversions done by Mongoose casting)
      is a field of the class [Platform]; handlers are functions over any
      platform.  [refPlatform] is a small concrete platform used to run the
      handlers on examples.
    - [await] is sequential composition: one request runs to completion on
      the store before the next one starts, and reads the clock once.
    - Inputs: the fields of the two authentication bodies are JSON strings
      or absent; query parameters are strings; the keys of a task body are
      field names (no update operators, no dotted paths).
    - Mongoose is read as version 5 or later: setters ([trim], [lowercase])
      run on query filters and on updates as they do on documents, update
      validators run before the store is consulted, and [save] of a loaded
      document validates its modified paths and the required paths it
      lacks.  Counts stay within the integers a double holds exactly, so
      [Math.ceil(total / limit)] is computed on naturals. *)

From Stdlib Require Import ZArith QArith Qround String Ascii List Lia Lqa SpecFloat.
From Stdlib Require Import Sorted Permutation.
From stdpp Require Import gmap strings list fin_maps.

#[local] Set Warnings "-register-all".
Local Open Scope string_scope.
Local Open Scope Z_scope.

(** ** JavaScript values and primitives *)

Module JS.

(** JSON values, extended with the two BSON scalars the schemas use. *)
Inductive value : Type :=
| VNull
| VBool (b : bool)
| VNum (q : Q)
| VStr (s : string)
| VDate (ms : Z)
| VId (hex : string)
| VArr (l : list value)
| VObj (kv : list (string * value)).

(** [!v] is [negb (truthy (Some v))]; [None] is [undefined]. *)
Definition truthy (o : option value) : bool :=
  match o with
  | None => false
  | Some VNull => false
  | Some (VBool b) => b
  | Some (VNum q) => negb (Qeq_bool q 0)
  | Some (VStr s) => negb (String.eqb s "")
  | Some _ => true
  end.

(** [!s] for a possibly undefined string. *)
Definition truthyStr (o : option string) : bool :=
  match o with
  | Some s => negb (String.eqb s "")
  | None => false
  end.

(** [s.split(sep)] for a one-character separator: never empty, the empty
    string splits to one empty piece. *)
Fixpoint split (sep : ascii) (s : string) : list string :=
  match s with
  | EmptyString => [EmptyString]
  | String c r =>
      if Ascii.eqb c sep then EmptyString :: split sep r
      else match split sep r with
           | h :: t => String c h :: t
           | [] => [String c EmptyString]
           end
  end.

Definition isSpace (c : ascii) : bool :=
  let n := nat_of_ascii c in
  ((9 <=? n)%nat && (n <=? 13)%nat) || (n =? 32)%nat.

Fixpoint trimStart (s : string) : string :=
  match s with
  | String c r => if isSpace c then trimStart r else s
  | EmptyString => EmptyString
  end.

(** Drops trailing white space: a character is kept when it is not a
    space or when something is kept after it. *)
Fixpoint trimEnd (s : string) : string :=
  match s with
  | EmptyString => EmptyString
  | String c r =>
      match trimEnd r with
      | EmptyString => if isSpace c then EmptyString else String c EmptyString
      | r' => String c r'
      end
  end.

Definition trim (s : string) : string := trimEnd (trimStart s).

Definition lowerChar (c : ascii) : ascii :=
  let n := nat_of_ascii c in
  if ((65 <=? n)%nat && (n <=? 90)%nat)%bool then ascii_of_nat (n + 32) else c.

Fixpoint toLowerCase (s : string) : string :=
  match s with
  | EmptyString => EmptyString
  | String c r => String (lowerChar c) (toLowerCase r)
  end.

Definition isDigit (c : ascii) : bool :=
  let n := nat_of_ascii c in ((48 <=? n)%nat && (n <=? 57)%nat)%bool.

Fixpoint digitsValue (acc : nat) (s : string) : option nat :=
  match s with
  | EmptyString => Some acc
  | String c r =>
      if isDigit c then digitsValue (10 * acc + (nat_of_ascii c - 48))%nat r
      else None
  end.

(** [Number(s)] on the strings the pagination parameters take: a
    non-empty run of decimal digits.  [None] is every other string. *)
Definition digitsToNumber (s : string) : option nat :=
  match s with
  | EmptyString => None
  | _ => digitsValue 0%nat s
  end.

(** *** Doubles: IEEE 754 binary64, from the Standard Library's
    executable specification. *)

Definition prec : Z := 53.
Definition emax : Z := 1024.

Definition ofInt (n : Z) : spec_float := binary_normalize prec emax n 0 false.
Definition fdiv (x y : spec_float) : spec_float := SFdiv prec emax x y.
Definition fmul (x y : spec_float) : spec_float := SFmul prec emax x y.

(** The rational a finite double denotes. *)
Definition toQ (x : spec_float) : option Q :=
  match x with
  | S754_zero _ => Some 0%Q
  | S754_finite s m e =>
      let mz := if s then Z.neg m else Z.pos m in
      Some (if 0 <=? e then inject_Z (mz * 2 ^ e)
            else Qmake mz (Z.to_pos (2 ^ (- e))))
  | _ => None
  end.

(** Nearest integer to [q], the larger one on a tie: the [n] of
    Number.prototype.toFixed for which [n / 10^f - x] is closest to zero. *)
Definition roundHalfUp (q : Q) : Z := Qfloor (q + (1 # 2))%Q.

Definition digitChar (d : Z) : ascii := ascii_of_nat (48 + Z.to_nat d).

Fixpoint digitsOf (fuel : nat) (n : Z) (acc : string) : string :=
  match fuel with
  | O => acc
  | S k =>
      let acc' := String (digitChar (n mod 10)) acc in
      if n <? 10 then acc' else digitsOf k (n / 10) acc'
  end.

(** Decimal numeral of a non-negative integer. *)
Definition natString (n : Z) : string :=
  digitsOf (S (Z.to_nat (Z.log2 n))) n "".

(** [n] tenths written with one fractional digit. *)
Definition tenthsString (n : Z) : string :=
  (if n <? 0 then "-" else "") ++
  natString (Z.abs n / 10) ++ "." ++ String (digitChar (Z.abs n mod 10)) "".

(** [x.toFixed(1)], for a double of magnitude below 1e21. *)
Definition toFixed1 (x : spec_float) : string :=
  match toQ x with
  | Some q => tenthsString (roundHalfUp (q * 10)%Q)
  | None =>
      match x with
      | S754_infinity false => "Infinity"
      | S754_infinity true => "-Infinity"
      | _ => "NaN"
      end
  end.

End JS.
Export JS.

(** ** What the server takes from its runtime and its packages *)

(** The identity a token carries: [{ userId, username }]. *)
Record claims : Type := { userId : string; username : string }.

(** Per request: the clock read by [new Date()] and [Date.now], the
    ObjectId the driver generates for a new document, and the salt bcrypt
    draws. *)
Record env : Type := { now : Z; freshId : string; salt : string }.

(** Mongoose schema types, as far as the three schemas use them.
    [TSubdocs] is an array of embedded documents. *)
Inductive SType : Type :=
| TString | TNumber | TBoolean | TDate | TObjectId
| TArray (elem : SType)
| TSubdocs.

(** Why a path fails validation. *)
Inductive failure : Type :=
| Required
| NotInEnum (given : string)
| BelowMin (given bound : Q)
| AboveMax (given bound : Q)
| TooShort (given : string) (bound : nat)
| CastFailed (kind : SType).

Class Platform : Type := {
  (** [bcrypt.hash(plaintext, rounds)], with the salt it drew *)
  bcrypt_hash : string -> nat -> string -> string;
  (** [bcrypt.compare(plaintext, hash)] *)
  bcrypt_compare : string -> string -> bool;
  (** [jwt.sign(payload, secret, { expiresIn: '24h' })] at a given time *)
  jwt_sign : claims -> string -> Z -> string;
  (** [jwt.verify(token, secret)] at a given time; [None] is an error *)
  jwt_verify : string -> string -> Z -> option claims;
  (** the server-held secret: [process.env.JWT_SECRET || '...'] *)
  JWT_SECRET : string;
  (** Mongoose casting of a value that is not already of the path's type
      (a hex string to an ObjectId, an ISO string to a Date, a number to a
      String, ...); [None] is a CastError *)
  convert : SType -> value -> option value;
  (** casting, defaults and validation of the elements of an array of
      embedded documents (attachments, comments) *)
  castSubdocs : string -> list value -> Z -> option (list value);
  (** the message Mongoose gives a failed path, from its templates *)
  messageOf : string -> failure -> string;
  (** [Number(s)] for a string that is not a plain run of digits; [None]
      is NaN *)
  stringToNumber : string -> option Q
}.

(** ** The Mongoose layer: schemas, documents, queries *)

Module Mongoose.

Abbreviation doc := (gmap string value).

(** What a rejected promise carries.  [ValidationError] has [name ===
    'ValidationError'] and its [errors] by path; [DuplicateKey] has [code ===
    11000] and the index's [keyPattern]; [CastError] is thrown by query and
    update casting. *)
Inductive exn : Type :=
| ValidationError (errors : list (string * failure))
| DuplicateKey (keyPattern : list string)
| CastError (path : string)
| Error (message : string).

Inductive result (A : Type) : Type :=
| Ok (a : A)
| Throw (e : exn).
Arguments Ok {A} a.
Arguments Throw {A} e.

(** [await] of a promise that may reject: [x ← r; k] runs [k] on the
    value, a rejection skips to the enclosing [catch]. *)
#[export] Instance result_bind : MBind result :=
  fun A B (k : A -> result B) (r : result A) =>
    match r with
    | Ok a => k a
    | Throw e => Throw e
    end.
#[export] Instance result_ret : MRet result := fun A a => Ok a.

Inductive Default : Type :=
| NoDefault
| DefaultValue (v : value)
| DefaultNow
| DefaultObjectId.

Record Field : Type := {
  ftype : SType;
  required : bool;
  enum : list string;
  fmin : option Q;
  fmax : option Q;
  minlength : option nat;
  ftrim : bool;
  flowercase : bool;
  unique : bool;
  fdefault : Default
}.

Definition path (t : SType) : Field :=
  {| ftype := t; required := false; enum := []; fmin := None; fmax := None;
     minlength := None; ftrim := false; flowercase := false; unique := false;
     fdefault := NoDefault |}.

Definition req (f : Field) : Field :=
  {| ftype := ftype f; required := true; enum := enum f; fmin := fmin f;
     fmax := fmax f; minlength := minlength f; ftrim := ftrim f;
     flowercase := flowercase f; unique := unique f; fdefault := fdefault f |}.
Definition withEnum (l : list string) (f : Field) : Field :=
  {| ftype := ftype f; required := required f; enum := l; fmin := fmin f;
     fmax := fmax f; minlength := minlength f; ftrim := ftrim f;
     flowercase := flowercase f; unique := unique f; fdefault := fdefault f |}.
Definition withMin (q : Q) (f : Field) : Field :=
  {| ftype := ftype f; required := required f; enum := enum f; fmin := Some q;
     fmax := fmax f; minlength := minlength f; ftrim := ftrim f;
     flowercase := flowercase f; unique := unique f; fdefault := fdefault f |}.
Definition withMax (q : Q) (f : Field) : Field :=
  {| ftype := ftype f; required := required f; enum := enum f; fmin := fmin f;
     fmax := Some q; minlength := minlength f; ftrim := ftrim f;
     flowercase := flowercase f; unique := unique f; fdefault := fdefault f |}.
Definition withMinlength (n : nat) (f : Field) : Field :=
  {| ftype := ftype f; required := required f; enum := enum f; fmin := fmin f;
     fmax := fmax f; minlength := Some n; ftrim := ftrim f;
     flowercase := flowercase f; unique := unique f; fdefault := fdefault f |}.
Definition trimmed (f : Field) : Field :=
  {| ftype := ftype f; required := required f; enum := enum f; fmin := fmin f;
     fmax := fmax f; minlength := minlength f; ftrim := true;
     flowercase := flowercase f; unique := unique f; fdefault := fdefault f |}.
Definition lowercased (f : Field) : Field :=
  {| ftype := ftype f; required := required f; enum := enum f; fmin := fmin f;
     fmax := fmax f; minlength := minlength f; ftrim := ftrim f;
     flowercase := true; unique := unique f; fdefault := fdefault f |}.
Definition uniq (f : Field) : Field :=
  {| ftype := ftype f; required := required f; enum := enum f; fmin := fmin f;
     fmax := fmax f; minlength := minlength f; ftrim := ftrim f;
     flowercase := flowercase f; unique := true; fdefault := fdefault f |}.
Definition withDefault (d : Default) (f : Field) : Field :=
  {| ftype := ftype f; required := required f; enum := enum f; fmin := fmin f;
     fmax := fmax f; minlength := minlength f; ftrim := ftrim f;
     flowercase := flowercase f; unique := unique f; fdefault := d |}.

(** A schema lists its paths in declaration order.  Every schema also has
    the implicit paths [_id] (an ObjectId, generated when absent) and [__v]
    (the version key, 0 on a new document). *)
Definition Schema : Type := list (string * Field).

Definition implicitPaths : Schema :=
  [ ("_id", uniq (withDefault DefaultObjectId (path TObjectId)));
    ("__v", withDefault (DefaultValue (VNum 0)) (path TNumber)) ].

Fixpoint lookupPath (sch : Schema) (p : string) : option Field :=
  match sch with
  | [] => None
  | (k, f) :: rest => if String.eqb k p then Some f else lookupPath rest p
  end.

(** Equality of stored values, as an equality match of a query sees it. *)
Fixpoint value_eqb (a b : value) : bool :=
  match a, b with
  | VNull, VNull => true
  | VBool x, VBool y => Bool.eqb x y
  | VNum x, VNum y => Qeq_bool x y
  | VStr x, VStr y => String.eqb x y
  | VDate x, VDate y => Z.eqb x y
  | VId x, VId y => String.eqb x y
  | VArr l, VArr m =>
      (fix all2 (l m : list value) : bool :=
         match l, m with
         | [], [] => true
         | x :: l', y :: m' => value_eqb x y && all2 l' m'
         | _, _ => false
         end) l m
  | VObj l, VObj m =>
      (fix all2 (l m : list (string * value)) : bool :=
         match l, m with
         | [], [] => true
         | (k, x) :: l', (k', y) :: m' =>
             String.eqb k k' && value_eqb x y && all2 l' m'
         | _, _ => false
         end) l m
  | _, _ => false
  end.

Section Documents.
Context {P : Platform}.

(** *** Casting and setters *)

Definition castScalar (t : SType) (p : string) (v : value) : result value :=
  match t, v with
  | _, VNull => Ok VNull
  | TString, VStr _ => Ok v
  | TNumber, VNum _ => Ok v
  | TBoolean, VBool _ => Ok v
  | TDate, VDate _ => Ok v
  | TObjectId, VId _ => Ok v
  | _, _ => match convert t v with
            | Some v' => Ok v'
            | None => Throw (CastError p)
            end
  end.

Fixpoint castAll (t : SType) (p : string) (l : list value) : result (list value) :=
  match l with
  | [] => Ok []
  | v :: rest =>
      v' ← castScalar t p v;
      rest' ← castAll t p rest;
      Ok (v' :: rest')
  end.

(** A value that is not an array is wrapped into one for an array path. *)
Definition castValue (t : SType) (p : string) (v : value) (e : env) : result value :=
  match t, v with
  | _, VNull => Ok VNull
  | TArray elem, VArr l => l' ← castAll elem p l; Ok (VArr l')
  | TArray elem, _ => v' ← castScalar elem p v; Ok (VArr [v'])
  | TSubdocs, VArr l =>
      match castSubdocs p l (now e) with
      | Some l' => Ok (VArr l')
      | None => Throw (CastError p)
      end
  | TSubdocs, _ =>
      match castSubdocs p [v] (now e) with
      | Some l' => Ok (VArr l')
      | None => Throw (CastError p)
      end
  | _, _ => castScalar t p v
  end.

(** The [trim] and [lowercase] options are setters on strings. *)
Definition setString (f : Field) (s : string) : string :=
  let s1 := if ftrim f then trim s else s in
  if flowercase f then toLowerCase s1 else s1.

Definition applySetters (f : Field) (v : value) : value :=
  match v with
  | VStr s => VStr (setString f s)
  | VArr l => VArr (map (fun x => match x with
                                   | VStr s => VStr (setString f s)
                                   | _ => x
                                   end) l)
  | _ => v
  end.

Definition setValue (f : Field) (p : string) (v : value) (e : env) : result value :=
  v' ← castValue (ftype f) p v e;
  Ok (applySetters f v').

Definition defaultOf (f : Field) (e : env) : option value :=
  match fdefault f with
  | DefaultValue v => Some v
  | DefaultNow => Some (VDate (now e))
  | DefaultObjectId => Some (VId (freshId e))
  | NoDefault =>
      match ftype f with
      | TArray _ | TSubdocs => Some (VArr [])
      | _ => None
      end
  end.

(** *** Validators *)

Definition isNullish (o : option value) : bool :=
  match o with
  | None | Some VNull => true
  | _ => false
  end.

(** [required]: present, not null and, for a string, not empty. *)
Definition checkRequired (o : option value) : bool :=
  match o with
  | None | Some VNull => false
  | Some (VStr s) => negb (String.eqb s "")
  | Some _ => true
  end.

Definition inEnum (l : list string) (s : string) : bool :=
  existsb (String.eqb s) l.

(** The first validator of the path that fails, [required] first. *)
Definition validatePath (f : Field) (o : option value) : option failure :=
  if required f && negb (checkRequired o) then Some Required
  else match o with
       | Some (VStr s) =>
           if negb (match enum f with [] => true | l => inEnum l s end)
           then Some (NotInEnum s)
           else match minlength f with
                | Some n => if (String.length s <? n)%nat
                            then Some (TooShort s n) else None
                | None => None
                end
       | Some (VNum q) =>
           match fmin f with
           | Some m => if Qle_bool m q then
                         match fmax f with
                         | Some M => if Qle_bool q M then None
                                     else Some (AboveMax q M)
                         | None => None
                         end
                       else Some (BelowMin q m)
           | None =>
               match fmax f with
               | Some M => if Qle_bool q M then None else Some (AboveMax q M)
               | None => None
               end
           end
       | _ => None
       end.

(** *** Documents of a model *)

(** [new Model(data)]: strict mode keeps the schema's paths only; each
    supplied path is cast and set, each absent one takes its default.  A
    path that fails to cast stays unset and is reported by validation. *)
Record instance : Type := { fields : doc; castErrors : list string }.

Fixpoint construct (sch : Schema) (data : doc) (e : env) : instance :=
  match sch with
  | [] => {| fields := ∅; castErrors := [] |}
  | (p, f) :: rest =>
      let i := construct rest data e in
      match data !! p with
      | Some v =>
          match setValue f p v e with
          | Ok v' => {| fields := <[p := v']> (fields i); castErrors := castErrors i |}
          | Throw _ => {| fields := fields i; castErrors := p :: castErrors i |}
          end
      | None =>
          match defaultOf f e with
          | Some v => {| fields := <[p := v]> (fields i); castErrors := castErrors i |}
          | None => i
          end
      end
  end.

Definition inb (p : string) (l : list string) : bool := existsb (String.eqb p) l.

(** [doc.validate()] on a new document: every path, in schema order. *)
Fixpoint validate (sch : Schema) (i : instance) : list (string * failure) :=
  match sch with
  | [] => []
  | (p, f) :: rest =>
      let errs := validate rest i in
      if inb p (castErrors i) then (p, CastFailed (ftype f)) :: errs
      else match validatePath f (fields i !! p) with
           | Some x => (p, x) :: errs
           | None => errs
           end
  end.

(** The unique indexes: the first indexed path on which a stored document
    already has the new document's value. *)
Fixpoint duplicateKey (sch : Schema) (coll : list doc) (d : doc) : option string :=
  match sch with
  | [] => None
  | (p, f) :: rest =>
      if unique f &&
         match d !! p with
         | Some v => existsb (fun d' => match d' !! p with
                                        | Some v' => value_eqb v' v
                                        | None => false
                                        end) coll
         | None => false
         end
      then Some p
      else duplicateKey rest coll d
  end.

(** [await doc.save()] for a new document. *)
Definition save (sch : Schema) (coll : list doc) (i : instance) : result (list doc) :=
  match validate sch i with
  | [] =>
      match duplicateKey sch coll (fields i) with
      | Some p => Throw (DuplicateKey [p])
      | None => Ok (coll ++ [fields i])%list
      end
  | errs => Throw (ValidationError errs)
  end.

(** *** Queries *)

Inductive cond : Type := Equals (p : string) (v : value).

(** [All l] is the filter object with the conditions [l] ([{}] when empty);
    [Any l] is [{ $or: l }]. *)
Inductive selector : Type :=
| All (l : list cond)
| Any (l : list cond).

(** Query casting: the value of a schema path is cast to the path's type
    (the element type for an array path) and goes through its setters. *)
Definition castCond (sch : Schema) (c : cond) : result cond :=
  match c with
  | Equals p v =>
      match lookupPath sch p with
      | Some f =>
          let t := match ftype f with TArray elem => elem | t => t end in
          v' ← castScalar t p v;
          Ok (Equals p (applySetters f v'))
      | None => Ok c
      end
  end.

Fixpoint castConds (sch : Schema) (l : list cond) : result (list cond) :=
  match l with
  | [] => Ok []
  | c :: rest =>
      c' ← castCond sch c;
      rest' ← castConds sch rest;
      Ok (c' :: rest')
  end.

Definition castFilter (sch : Schema) (f : selector) : result selector :=
  match f with
  | All l => l' ← castConds sch l; Ok (All l')
  | Any l => l' ← castConds sch l; Ok (Any l')
  end.

Definition matchesCond (d : doc) (c : cond) : bool :=
  match c with
  | Equals p v =>
      match d !! p with
      | Some v' => value_eqb v' v
      | None => match v with VNull => true | _ => false end
      end
  end.

Definition matches (f : selector) (d : doc) : bool :=
  match f with
  | All l => forallb (matchesCond d) l
  | Any l => existsb (matchesCond d) l
  end.

Definition find (sch : Schema) (coll : list doc) (f : selector) : result (list doc) :=
  f' ← castFilter sch f;
  Ok (List.filter (matches f') coll).

Definition findOne (sch : Schema) (coll : list doc) (f : selector) : result (option doc) :=
  l ← find sch coll f;
  Ok (head l).

Definition countDocuments (sch : Schema) (coll : list doc) (f : selector) : result nat :=
  l ← find sch coll f;
  Ok (List.length l).

Definition findById (sch : Schema) (coll : list doc) (id : value) : result (option doc) :=
  findOne sch coll (All [Equals "_id" id]).

(** [.sort({ createdAt: -1 })]: newest first, documents without a date
    last.  Among documents with equal keys, whose order MongoDB leaves open,
    the one stored later comes first. *)
Definition createdAt (d : doc) : option Z :=
  match d !! "createdAt" with
  | Some (VDate z) => Some z
  | _ => None
  end.

Definition notOlder (a b : doc) : bool :=
  match createdAt a, createdAt b with
  | Some x, Some y => y <=? x
  | Some _, None => true
  | None, Some _ => false
  | None, None => true
  end.

Fixpoint insertSorted (x : doc) (l : list doc) : list doc :=
  match l with
  | [] => [x]
  | y :: rest => if notOlder y x then y :: insertSorted x rest else x :: l
  end.

Fixpoint sortNewestFirst (l : list doc) : list doc :=
  match l with
  | [] => []
  | x :: rest => insertSorted x (sortNewestFirst rest)
  end.

(** [.limit(n)]: 0 is no limit. *)
Definition limit (n : nat) (l : list doc) : list doc :=
  match n with
  | O => l
  | _ => firstn n l
  end.

Definition skip (n : nat) (l : list doc) : list doc := skipn n l.

(** [$group: { _id: '$key', count: { $sum: 1 } }], groups in order of first
    appearance; a document without the key falls in the group [null]. *)
Fixpoint bump (k : value) (groups : list (value * nat)) : list (value * nat) :=
  match groups with
  | [] => [(k, 1%nat)]
  | (k', n) :: rest =>
      if value_eqb k' k then (k', S n) :: rest else (k', n) :: bump k rest
  end.

Definition groupCount (key : string) (coll : list doc) : list (value * nat) :=
  fold_left (fun acc d => bump (default VNull (d !! key)) acc) coll [].

(** The first document that matches [{ _id: id }] is replaced. *)
Fixpoint replaceById (coll : list doc) (id : value) (d : doc) : list doc :=
  match coll with
  | [] => []
  | d' :: rest =>
      if matches (All [Equals "_id" id]) d' then d :: rest
      else d' :: replaceById rest id d
  end.

(** [await doc.save()] for a document loaded from the store: the required
    paths the stored document lacks and the modified paths are validated,
    then the first document with this [_id] is replaced. *)
Fixpoint validateLoaded (sch : Schema) (modified : list string) (d : doc)
  : list (string * failure) :=
  match sch with
  | [] => []
  | (p, f) :: rest =>
      let errs := validateLoaded rest modified d in
      if inb p modified then
        match validatePath f (d !! p) with
        | Some x => (p, x) :: errs
        | None => errs
        end
      else if required f && match d !! p with None => true | Some _ => false end
           then (p, Required) :: errs
           else errs
  end.

Definition saveLoaded (sch : Schema) (coll : list doc) (modified : list string)
    (d : doc) : result (list doc) :=
  match validateLoaded sch modified d with
  | [] => Ok (replaceById coll (default VNull (d !! "_id")) d)
  | errs => Throw (ValidationError errs)
  end.

(** *** Updates *)

(** Casting of the update document: the schema's paths that the update
    names, each cast and set; other keys are dropped (strict mode). *)
Fixpoint castUpdate (sch : Schema) (upd : doc) (e : env) : result doc :=
  match sch with
  | [] => Ok ∅
  | (p, f) :: rest =>
      rest' ← castUpdate rest upd e;
      match upd !! p with
      | Some v => v' ← setValue f p v e; Ok (<[p := v']> rest')
      | None => Ok rest'
      end
  end.

(** Update validators ([runValidators: true]): the validators of every
    path the update sets, on the value it sets. *)
Fixpoint validateUpdate (sch : Schema) (upd : doc) : list (string * failure) :=
  match sch with
  | [] => []
  | (p, f) :: rest =>
      let errs := validateUpdate rest upd in
      match upd !! p with
      | Some v =>
          match validatePath f (Some v) with
          | Some x => (p, x) :: errs
          | None => errs
          end
      | None => errs
      end
  end.

(** [Model.findByIdAndUpdate(id, update, { new: true, runValidators: true })]:
    the updated document, or [None] when no document has this id.  The
    update is cast and validated before the store is consulted; [_id] is
    immutable in the store. *)
Definition findByIdAndUpdate (sch : Schema) (coll : list doc) (id : string)
    (update : doc) (e : env) : result (option doc * list doc) :=
  idv ← castScalar TObjectId "_id" (VStr id);
  upd ← castUpdate sch update e;
  match validateUpdate sch upd with
  | [] =>
      match head (List.filter (matches (All [Equals "_id" idv])) coll) with
      | None => Ok (None, coll)
      | Some d =>
          if match upd !! "_id" with
             | Some v => negb (value_eqb v idv)
             | None => false
             end
          then Throw (Error "Performing an update on the path '_id' would modify the immutable field '_id'")
          else let d' := upd ∪ d in
               Ok (Some d', replaceById coll idv d')
      end
  | errs => Throw (ValidationError errs)
  end.

(** *** Population of references *)

Fixpoint selectFields (names : list string) (u : doc) : list (string * value) :=
  match names with
  | [] => []
  | n :: rest =>
      match u !! n with
      | Some v => (n, v) :: selectFields rest u
      | None => selectFields rest u
      end
  end.

(** The referenced user reduced to [_id] and the selected fields; [null]
    when no user has this id. *)
Definition populateRef (users : list doc) (names : list string) (v : value) : value :=
  match v with
  | VId _ =>
      match head (List.filter (matches (All [Equals "_id" v])) users) with
      | Some u => VObj (selectFields ("_id" :: names) u)
      | None => VNull
      end
  | _ => v
  end.

Definition populate (users : list doc) (p : string) (names : list string) (d : doc) : doc :=
  match d !! p with
  | Some v => <[p := populateRef users names v]> d
  | None => d
  end.

(** [populate('arr.key', ...)]: the reference [key] of every element of
    the array [arr]. *)
Definition populateEach (users : list doc) (arr key : string) (names : list string)
    (d : doc) : doc :=
  match d !! arr with
  | Some (VArr l) =>
      <[arr := VArr (map (fun x =>
                 match x with
                 | VObj kv =>
                     VObj (map (fun kv' : string * value =>
                                  if String.eqb (fst kv') key
                                  then (fst kv', populateRef users names (snd kv'))
                                  else kv') kv)
                 | _ => x
                 end) l)]> d
  | _ => d
  end.

(** [populate] on an array of references: each element gives way to the
    referenced user's selected fields, and an element whose user is missing
    is dropped from the array. *)
Definition populateAll (users : list doc) (p : string) (names : list string)
    (d : doc) : doc :=
  match d !! p with
  | Some (VArr l) =>
      <[p := VArr (flat_map (fun v => match populateRef users names v with
                                      | VNull => []
                                      | v' => [v']
                                      end) l)]> d
  | Some v => <[p := populateRef users names v]> d
  | None => d
  end.

(** *** Deletion *)

(** The first document that matches [{ _id: id }] is taken out. *)
Fixpoint removeById (coll : list doc) (id : value) : option doc * list doc :=
  match coll with
  | [] => (None, [])
  | d :: rest =>
      if matches (All [Equals "_id" id]) d then (Some d, rest)
      else let (o, l) := removeById rest id in (o, d :: l)
  end.

(** [Model.findByIdAndDelete(id)]: the deleted document, or [None] when no
    document has this id. *)
Definition findByIdAndDelete (coll : list doc) (id : string)
  : result (option doc * list doc) :=
  idv ← castScalar TObjectId "_id" (VStr id);
  Ok (removeById coll idv).

(** *** Projection and ordering by a string path *)

(** [.select('-p')]: the document without the path [p]. *)
Definition exclude (p : string) (d : doc) : doc := delete p d.

Definition stringAt (key : string) (d : doc) : option string :=
  match d !! key with
  | Some (VStr s) => Some s
  | _ => None
  end.

(** [.sort({ key: 1 })] on a path the schema types as a string: ascending
    in the binary order of strings, the documents that hold no string there
    first; documents with equal keys keep their order. *)
Definition notAfter (key : string) (a b : doc) : bool :=
  match stringAt key a, stringAt key b with
  | None, _ => true
  | Some _, None => false
  | Some x, Some y => String.leb x y
  end.

Fixpoint insertBy (le : doc -> doc -> bool) (x : doc) (l : list doc) : list doc :=
  match l with
  | [] => [x]
  | y :: rest => if le x y then x :: l else y :: insertBy le x rest
  end.

Fixpoint sortBy (le : doc -> doc -> bool) (l : list doc) : list doc :=
  match l with
  | [] => []
  | x :: rest => insertBy le x (sortBy le rest)
  end.

End Documents.

End Mongoose.
Export Mongoose.

(** ** The server (src/backend/server.js) *)

Module Server.

(** *** Schemas and models *)

Definition userSchema : Schema :=
  ([ ("username", uniq (trimmed (req (path TString))));
     ("email", lowercased (uniq (req (path TString))));
     ("password", withMinlength 6 (req (path TString)));
     ("firstName", trimmed (req (path TString)));
     ("lastName", trimmed (req (path TString)));
     ("role", withDefault (DefaultValue (VStr "user"))
                (withEnum ["user"; "admin"; "manager"] (path TString)));
     ("avatar", withDefault (DefaultValue (VStr "")) (path TString));
     ("isActive", withDefault (DefaultValue (VBool true)) (path TBoolean));
     ("lastLogin", path TDate);
     ("createdAt", withDefault DefaultNow (path TDate));
     ("updatedAt", withDefault DefaultNow (path TDate)) ]
   ++ implicitPaths)%list.

Definition taskSchema : Schema :=
  ([ ("title", trimmed (req (path TString)));
     ("description", req (path TString));
     ("status", withDefault (DefaultValue (VStr "todo"))
                  (withEnum ["todo"; "in-progress"; "review"; "completed"]
                     (path TString)));
     ("priority", withDefault (DefaultValue (VStr "medium"))
                    (withEnum ["low"; "medium"; "high"; "urgent"] (path TString)));
     ("assignedTo", path TObjectId);
     ("createdBy", req (path TObjectId));
     ("project", req (path TString));
     ("tags", trimmed (path (TArray TString)));
     ("dueDate", path TDate);
     ("estimatedHours", withMin 0 (path TNumber));
     ("actualHours", withDefault (DefaultValue (VNum 0)) (withMin 0 (path TNumber)));
     ("attachments", path TSubdocs);
     ("comments", path TSubdocs);
     ("createdAt", withDefault DefaultNow (path TDate));
     ("updatedAt", withDefault DefaultNow (path TDate)) ]
   ++ implicitPaths)%list.

Definition projectSchema : Schema :=
  ([ ("name", trimmed (req (path TString)));
     ("description", req (path TString));
     ("status", withDefault (DefaultValue (VStr "planning"))
                  (withEnum ["planning"; "active"; "on-hold"; "completed"; "cancelled"]
                     (path TString)));
     ("owner", req (path TObjectId));
     ("team", path (TArray TObjectId));
     ("startDate", req (path TDate));
     ("endDate", path TDate);
     ("budget", withMin 0 (path TNumber));
     ("progress", withDefault (DefaultValue (VNum 0))
                    (withMax 100 (withMin 0 (path TNumber))));
     ("createdAt", withDefault DefaultNow (path TDate));
     ("updatedAt", withDefault DefaultNow (path TDate)) ]
   ++ implicitPaths)%list.

(** The three collections. *)
Record store : Type := { users : list doc; tasks : list doc; projects : list doc }.

Definition setUsers (l : list doc) (st : store) : store :=
  {| users := l; tasks := tasks st; projects := projects st |}.
Definition setTasks (l : list doc) (st : store) : store :=
  {| users := users st; tasks := l; projects := projects st |}.

(** *** Requests, responses and the middleware chain *)

Record request : Type := {
  authorization : option string;      (* req.headers['authorization'] *)
  params_id : string;                 (* req.params.id *)
  query : gmap string string;         (* req.query, string-valued *)
  body : gmap string value;           (* req.body, a JSON object *)
  user : option claims                (* req.user *)
}.

(** [req.user = user] *)
Definition withUser (u : claims) (rq : request) : request :=
  {| authorization := authorization rq; params_id := params_id rq;
     query := query rq; body := body rq; user := Some u |}.

Definition withBody (b : gmap string value) (rq : request) : request :=
  {| authorization := authorization rq; params_id := params_id rq;
     query := query rq; body := b; user := user rq |}.

Record summary : Type := {
  totalTasks : nat;
  completedTasks : nat;
  totalProjects : nat;
  activeProjects : nat;
  completionRate : value
}.

(** What [res.json] is given. *)
Inductive payload : Type :=
| Json (v : value)
| Document (d : option doc)
| TaskPage (tasks : list doc) (totalPages : option nat) (currentPage : value)
    (total : nat)
| Dashboard (s : summary) (tasksByStatus tasksByPriority : list (value * nat))
    (recentTasks : list doc).

Record response : Type := { status : nat; json : payload }.

Definition errorJson (code : nat) (msg : string) : response :=
  {| status := code; json := Json (VObj [("error", VStr msg)]) |}.

(** A middleware or handler answers, passes the request on ([next()]) or
    passes an error on ([next(err)]). *)
Inductive outcome : Type :=
| Respond (r : response)
| Next (rq : request)
| NextErr (err : exn).

Definition handler : Type := request -> env -> store -> outcome * store.

(** An asynchronous computation on the store that may reject; a rejection
    keeps the writes done before it. *)
Definition action (A : Type) : Type := store -> result A * store.

#[export] Instance action_bind : MBind action :=
  fun A B (k : A -> action B) (m : action A) st =>
    match m st with
    | (Ok a, st') => k a st'
    | (Throw err, st') => (Throw err, st')
    end.
#[export] Instance action_ret : MRet action := fun A a st => (Ok a, st).

Definition await {A} (q : store -> result A) : action A := fun st => (q st, st).

Definition throw {A} (err : exn) : action A := fun st => (Throw err, st).

(** A write to a collection: the new collection when the operation
    resolves, no change when it rejects. *)
Definition writeUsers (op : list doc -> result (list doc)) : action unit :=
  fun st =>
    match op (users st) with
    | Ok l => (Ok tt, setUsers l st)
    | Throw err => (Throw err, st)
    end.

Definition writeTasks {A} (op : list doc -> result (A * list doc)) : action A :=
  fun st =>
    match op (tasks st) with
    | Ok (a, l) => (Ok a, setTasks l st)
    | Throw err => (Throw err, st)
    end.

(** [try { body } catch (error) { res.status(500).json(...) }] around a
    handler body that answers. *)
Definition tryCatch (body : action response) (msg : string)
  : store -> outcome * store :=
  fun st =>
    match body st with
    | (Ok r, st') => (Respond r, st')
    | (Throw _, st') => (Respond (errorJson 500 msg), st')
    end.

(** An object literal; a property whose value is [undefined] is not
    serialised. *)
Fixpoint props (l : list (string * option value)) : list (string * value) :=
  match l with
  | [] => []
  | (k, Some v) :: rest => (k, v) :: props rest
  | (_, None) :: rest => props rest
  end.

Definition object (l : list (string * option value)) : value := VObj (props l).

(** The bodies of the two authentication routes: each field is absent or
    a JSON string. *)
Record registerBody : Type := {
  reg_username : option string;
  reg_email : option string;
  reg_password : option string;
  reg_firstName : option string;
  reg_lastName : option string
}.

Record loginBody : Type := {
  login_username : option string;
  login_password : option string
}.

Section Handlers.
Context {P : Platform}.

(** Authentication middleware (lines 137-152). *)
Definition bearerToken (rq : request) : option string :=
  match authorization rq with
  | Some authHeader =>
      if truthyStr (Some authHeader) then nth_error (split " " authHeader) 1
      else Some authHeader
  | None => None
  end.

Definition authenticateToken (rq : request) (e : env) : outcome :=
  let token := bearerToken rq in
  if negb (truthyStr token) then Respond (errorJson 401 "Access token required")
  else
    match jwt_verify (default "" token) JWT_SECRET (now e) with
    | None => Respond (errorJson 403 "Invalid or expired token")
    | Some u => Next (withUser u rq)
    end.

(** Error handling middleware (lines 155-173). *)
Definition errorHandler (err : exn) : response :=
  match err with
  | ValidationError errors =>
      {| status := 400;
         json := Json (VObj [("error", VStr "Validation Error");
                             ("details", VArr (map (fun pf : string * failure =>
                                                      VStr (messageOf (fst pf) (snd pf)))
                                                   errors))]) |}
  | DuplicateKey keyPattern =>
      {| status := 400;
         json := Json (object [("error", Some (VStr "Duplicate entry"));
                               ("field", VStr <$> head keyPattern)]) |}
  | _ => errorJson 500 "Internal server error"
  end.

(** [app.METHOD(path, authenticateToken, h)] *)
Definition protected (h : handler) : handler :=
  fun rq e st =>
    match authenticateToken rq e with
    | Next rq' => h rq' e st
    | o => (o, st)
    end.

(** The application around a route: a response ends the request, an error
    passed on reaches [errorHandler], and a request passed on by the last
    handler reaches the 404 handler. *)
Definition app (h : handler) (rq : request) (e : env) (st : store)
  : response * store :=
  match h rq e st with
  | (Respond r, st') => (r, st')
  | (NextErr err, st') => (errorHandler err, st')
  | (Next _, st') => (errorJson 404 "Route not found", st')
  end.

(** The token payload [{ userId: user._id, username: user.username }]. *)
Definition claimsOf (u : doc) : claims :=
  {| userId := match u !! "_id" with Some (VId hex) => hex | _ => "" end;
     username := match u !! "username" with Some (VStr s) => s | _ => "" end |}.

(** POST /api/auth/register (lines 188-248). *)
Definition register (b : registerBody) (e : env) : store -> outcome * store :=
  tryCatch
    (if negb (truthyStr (reg_username b)) || negb (truthyStr (reg_email b))
        || negb (truthyStr (reg_password b)) || negb (truthyStr (reg_firstName b))
        || negb (truthyStr (reg_lastName b))
     then mret (errorJson 400 "All fields are required")
     else
       let username := default "" (reg_username b) in
       let email := default "" (reg_email b) in
       let password := default "" (reg_password b) in
       let firstName := default "" (reg_firstName b) in
       let lastName := default "" (reg_lastName b) in
       if (String.length password <? 6)%nat
       then mret (errorJson 400 "Password must be at least 6 characters")
       else
         existingUser ← await (fun st =>
           findOne userSchema (users st)
             (Any [Equals "email" (VStr email); Equals "username" (VStr username)]));
         match existingUser with
         | Some _ => mret (errorJson 400 "User already exists")
         | None =>
             let hashedPassword := bcrypt_hash password 12 (salt e) in
             let user := construct userSchema
                           (list_to_map [("username", VStr username);
                                         ("email", VStr email);
                                         ("password", VStr hashedPassword);
                                         ("firstName", VStr firstName);
                                         ("lastName", VStr lastName)]) e in
             _ ← writeUsers (fun coll => save userSchema coll user);
             let token := jwt_sign (claimsOf (fields user)) JWT_SECRET (now e) in
             mret {| status := 201;
                     json := Json (object
                       [("message", Some (VStr "User created successfully"));
                        ("token", Some (VStr token));
                        ("user", Some (object
                           [("id", fields user !! "_id");
                            ("username", fields user !! "username");
                            ("email", fields user !! "email");
                            ("firstName", fields user !! "firstName");
                            ("lastName", fields user !! "lastName");
                            ("role", fields user !! "role")]))]) |}
         end)
    "Registration failed".

(** [user.isActive] on a loaded document: the stored value, the schema's
    default when the document has none. *)
Definition isActive (u : doc) : option value :=
  match u !! "isActive" with
  | Some v => Some v
  | None => Some (VBool true)
  end.

(** POST /api/auth/login (lines 250-303). *)
Definition login (b : loginBody) (e : env) : store -> outcome * store :=
  tryCatch
    (if negb (truthyStr (login_username b)) || negb (truthyStr (login_password b))
     then mret (errorJson 400 "Username and password required")
     else
       let username := default "" (login_username b) in
       let password := default "" (login_password b) in
       found ← await (fun st =>
         findOne userSchema (users st)
           (Any [Equals "username" (VStr username); Equals "email" (VStr username)]));
       match found with
       | None => mret (errorJson 401 "Invalid credentials")
       | Some user =>
           if negb (truthy (isActive user))
           then mret (errorJson 401 "Invalid credentials")
           else
             isValidPassword ← await (fun _ =>
               match user !! "password" with
               | Some (VStr hash) => Ok (bcrypt_compare password hash)
               | _ => Throw (Error "Illegal arguments")
               end);
             if negb isValidPassword
             then mret (errorJson 401 "Invalid credentials")
             else
               let user' := <["lastLogin" := VDate (now e)]> user in
               _ ← writeUsers (fun coll =>
                     saveLoaded userSchema coll ["lastLogin"] user');
               let token := jwt_sign (claimsOf user') JWT_SECRET (now e) in
               mret {| status := 200;
                       json := Json (object
                         [("message", Some (VStr "Login successful"));
                          ("token", Some (VStr token));
                          ("user", Some (object
                             [("id", user' !! "_id");
                              ("username", user' !! "username");
                              ("email", user' !! "email");
                              ("firstName", user' !! "firstName");
                              ("lastName", user' !! "lastName");
                              ("role", user' !! "role");
                              ("lastLogin", user' !! "lastLogin")]))]) |}
       end)
    "Login failed".

(** [Number(s)]: [None] is NaN. *)
Definition toNumber (s : string) : option Q :=
  match digitsToNumber s with
  | Some n => Some (inject_Z (Z.of_nat n))
  | None => stringToNumber s
  end.

(** The store takes a non-negative integer for [skip] and [limit] and
    rejects any other number. *)
Definition asCount (q : option Q) : result nat :=
  match q with
  | Some q =>
      let r := Qred q in
      if (Qden r =? 1)%positive && (0 <=? Qnum r)
      then Ok (Z.to_nat (Qnum r))
      else Throw (Error "skip and limit take a non-negative integer")
  | None => Throw (Error "skip and limit take a non-negative integer")
  end.

(** [Math.ceil(total / limit)]; [None] is the [null] that [Infinity] and
    [NaN] serialise to. *)
Definition totalPagesOf (total : nat) (limitNum : option Q) : option nat :=
  match asCount limitNum with
  | Ok (S n) => Some ((total + n) / S n)%nat
  | _ => None
  end.

Definition taskFilter (rq : request) : selector :=
  let cond (name : string) : list cond :=
    match query rq !! name with
    | Some v => if truthyStr (Some v) then [Equals name (VStr v)] else []
    | None => []
    end in
  All (cond "status" ++ cond "priority" ++ cond "project" ++ cond "assignedTo")%list.

Definition display : list string := ["firstName"; "lastName"; "username"].

(** The references expanded in a listed task: [assignedTo], [createdBy]
    and the [user] of each comment. *)
Definition expanded (us : list doc) (d : doc) : doc :=
  populateEach us "comments" "user" display
    (populate us "createdBy" display (populate us "assignedTo" display d)).

(** GET /api/tasks (lines 330-359). *)
Definition getTasks : handler := fun rq e =>
  tryCatch
    (let page := match query rq !! "page" with
                 | Some s => toNumber s
                 | None => Some 1%Q
                 end in
     let limitNum := match query rq !! "limit" with
                     | Some s => toNumber s
                     | None => Some 10%Q
                     end in
     let filter := taskFilter rq in
     found ← await (fun st =>
       n ← asCount limitNum;
       k ← asCount (match page, limitNum with
                    | Some p, Some l => Some ((p - 1) * l)%Q
                    | _, _ => None
                    end);
       l ← find taskSchema (tasks st) filter;
       Ok (map (expanded (users st)) (limit n (skip k (sortNewestFirst l)))));
     total ← await (fun st => countDocuments taskSchema (tasks st) filter);
     mret {| status := 200;
             json := TaskPage found (totalPagesOf total limitNum)
                       (match query rq !! "page" with
                        | Some s => VStr s
                        | None => VNum 1
                        end)
                       total |})
    "Failed to fetch tasks".

(** The object [{ ...req.body, createdBy: req.user.userId, updatedAt: new
    Date() }]: later properties replace earlier ones. *)
Definition taskData (rq : request) (u : claims) (e : env) : gmap string value :=
  <["updatedAt" := VDate (now e)]> (<["createdBy" := VStr (userId u)]> (body rq)).

(** POST /api/tasks (lines 361-380). *)
Definition createTask : handler := fun rq e =>
  tryCatch
    (match user rq with
     | None => throw (Error "Cannot read properties of undefined")
     | Some u =>
         let task := construct taskSchema (taskData rq u e) e in
         _ ← writeTasks (fun coll =>
               match save taskSchema coll task with
               | Ok l => Ok (tt, l)
               | Throw err => Throw err
               end);
         populatedTask ← await (fun st =>
           match findById taskSchema (tasks st) (default VNull (fields task !! "_id")) with
           | Ok d => Ok (populate (users st) "createdBy" display
                           <$> (populate (users st) "assignedTo" display <$> d))
           | Throw err => Throw err
           end);
         mret {| status := 201; json := Document populatedTask |}
     end)
    "Failed to create task".

(** PUT /api/tasks/:id (lines 382-400). *)
Definition updateTask : handler := fun rq e =>
  tryCatch
    (updated ← writeTasks (fun coll =>
       findByIdAndUpdate taskSchema coll (params_id rq)
         (<["updatedAt" := VDate (now e)]> (body rq)) e);
     task ← await (fun st =>
       Ok (populate (users st) "createdBy" display
             <$> (populate (users st) "assignedTo" display <$> updated)));
     match task with
     | None => mret (errorJson 404 "Task not found")
     | Some d => mret {| status := 200; json := Document (Some d) |}
     end)
    "Failed to update task".

(** [totalTasks > 0 ? (completedTasks / totalTasks * 100).toFixed(1) : 0] *)
Definition completionRateOf (completed total : nat) : value :=
  if (0 <? total)%nat
  then VStr (toFixed1 (fmul (fdiv (ofInt (Z.of_nat completed)) (ofInt (Z.of_nat total)))
                         (ofInt 100)))
  else VNum 0.

(** GET /api/analytics/dashboard (lines 449-493); the seven queries of
    [Promise.all] read the same store. *)
Definition dashboard : handler := fun rq e =>
  tryCatch
    (totalTasks ← await (fun st => countDocuments taskSchema (tasks st) (All []));
     completedTasks ← await (fun st =>
       countDocuments taskSchema (tasks st) (All [Equals "status" (VStr "completed")]));
     totalProjects ← await (fun st => countDocuments projectSchema (projects st) (All []));
     activeProjects ← await (fun st =>
       countDocuments projectSchema (projects st) (All [Equals "status" (VStr "active")]));
     tasksByStatus ← await (fun st => Ok (groupCount "status" (tasks st)));
     tasksByPriority ← await (fun st => Ok (groupCount "priority" (tasks st)));
     recentTasks ← await (fun st =>
       l ← find taskSchema (tasks st) (All []);
       Ok (map (populate (users st) "assignedTo" ["firstName"; "lastName"])
               (limit 5 (sortNewestFirst l))));
     mret {| status := 200;
             json := Dashboard
                       {| totalTasks := totalTasks;
                          completedTasks := completedTasks;
                          totalProjects := totalProjects;
                          activeProjects := activeProjects;
                          completionRate := completionRateOf completedTasks totalTasks |}
                       tasksByStatus tasksByPriority recentTasks |})
    "Failed to fetch analytics".

(** A document as the JSON object [res.json] writes for it. *)
Definition docJson (d : doc) : value := VObj (map_to_list d).

(** GET /api/users/profile (lines 306-316). *)
Definition getProfile : handler := fun rq e =>
  tryCatch
    (match user rq with
     | None => throw (Error "Cannot read properties of undefined")
     | Some u =>
         found ← await (fun st =>
           match findById userSchema (users st) (VStr (userId u)) with
           | Ok d => Ok (exclude "password" <$> d)
           | Throw err => Throw err
           end);
         match found with
         | None => mret (errorJson 404 "User not found")
         | Some d => mret {| status := 200; json := Document (Some d) |}
         end
     end)
    "Failed to fetch profile".

(** GET /api/users (lines 318-327). *)
Definition getUsers : handler := fun rq e =>
  tryCatch
    (found ← await (fun st =>
       l ← find userSchema (users st) (All [Equals "isActive" (VBool true)]);
       Ok (sortBy (notAfter "firstName") (map (exclude "password") l)));
     mret {| status := 200; json := Json (VArr (map docJson found)) |})
    "Failed to fetch users".

(** DELETE /api/tasks/:id (lines 402-412). *)
Definition deleteTask : handler := fun rq e =>
  tryCatch
    (task ← writeTasks (fun coll => findByIdAndDelete coll (params_id rq));
     match task with
     | None => mret (errorJson 404 "Task not found")
     | Some _ =>
         mret {| status := 200;
                 json := Json (VObj [("message", VStr "Task deleted successfully")]) |}
     end)
    "Failed to delete task".

(** The references expanded in a project: [owner] and every member of
    [team]. *)
Definition expandedProject (us : list doc) (d : doc) : doc :=
  populateAll us "team" display (populate us "owner" display d).

(** GET /api/projects (lines 415-425). *)
Definition getProjects : handler := fun rq e =>
  tryCatch
    (found ← await (fun st =>
       l ← find projectSchema (projects st) (All []);
       Ok (map (expandedProject (users st)) (sortNewestFirst l)));
     mret {| status := 200; json := Json (VArr (map docJson found)) |})
    "Failed to fetch projects".

(** The object [{ ...req.body, owner: req.user.userId, updatedAt: new
    Date() }]. *)
Definition projectData (rq : request) (u : claims) (e : env) : gmap string value :=
  <["updatedAt" := VDate (now e)]> (<["owner" := VStr (userId u)]> (body rq)).

Definition setProjects (l : list doc) (st : store) : store :=
  {| users := users st; tasks := tasks st; projects := l |}.

Definition writeProjects (op : list doc -> result (list doc)) : action unit :=
  fun st =>
    match op (projects st) with
    | Ok l => (Ok tt, setProjects l st)
    | Throw err => (Throw err, st)
    end.

(** POST /api/projects (lines 427-446). *)
Definition createProject : handler := fun rq e =>
  tryCatch
    (match user rq with
     | None => throw (Error "Cannot read properties of undefined")
     | Some u =>
         let project := construct projectSchema (projectData rq u e) e in
         _ ← writeProjects (fun coll => save projectSchema coll project);
         populatedProject ← await (fun st =>
           match findById projectSchema (projects st)
                   (default VNull (fields project !! "_id")) with
           | Ok d => Ok (expandedProject (users st) <$> d)
           | Throw err => Throw err
           end);
         mret {| status := 201; json := Document populatedProject |}
     end)
    "Failed to create project".

(** GET /api/health (lines 178-185); the time stamp is the date that
    [toISOString] writes. *)
Definition health : handler := fun rq e st =>
  (Respond {| status := 200;
              json := Json (VObj [("status", VStr "OK");
                                  ("timestamp", VDate (now e));
                                  ("service", VStr "IBM Full-Stack JavaScript Capstone API");
                                  ("version", VStr "1.0.0")]) |}, st).

(** The routing table (lines 178-493): the method and path of each route,
    and the chain of handlers registered for it.  The body of the two
    authentication routes is given in the form their handlers read it. *)
Inductive verb : Type := GET | POST | PUT | DELETE.

Inductive endpoint : Type :=
| GET_health
| POST_auth_register (b : registerBody)
| POST_auth_login (b : loginBody)
| GET_users_profile
| GET_users
| GET_tasks
| POST_tasks
| PUT_tasks_id
| DELETE_tasks_id
| GET_projects
| POST_projects
| GET_analytics_dashboard.

Definition method (ep : endpoint) : verb :=
  match ep with
  | GET_health | GET_users_profile | GET_users | GET_tasks | GET_projects
  | GET_analytics_dashboard => GET
  | POST_auth_register _ | POST_auth_login _ | POST_tasks | POST_projects => POST
  | PUT_tasks_id => PUT
  | DELETE_tasks_id => DELETE
  end.

Definition route (ep : endpoint) : handler :=
  match ep with
  | GET_health => health
  | POST_auth_register b => fun _ e => register b e
  | POST_auth_login b => fun _ e => login b e
  | GET_users_profile => protected getProfile
  | GET_users => protected getUsers
  | GET_tasks => protected getTasks
  | POST_tasks => protected createTask
  | PUT_tasks_id => protected updateTask
  | DELETE_tasks_id => protected deleteTask
  | GET_projects => protected getProjects
  | POST_projects => protected createProject
  | GET_analytics_dashboard => protected dashboard
  end.

End Handlers.

End Server.
Export Server.

(** ** The client (ApiService, lines 618-668 of the front end) *)

Module Client.

(** The [Authorization] header [ApiService.request] (lines 619-643) sends:
    the token that [localStorage] holds behind the word [Bearer], no header
    when it holds none or an empty one.  None of [get], [post], [put] and
    [delete] passes headers of its own. *)
Definition authorizationHeader (token : option string) : option string :=
  if truthyStr token then Some ("Bearer " ++ default "" token) else None.

(** The request the server sees for a call of the client. *)
Definition call (token : option string) (id : string) (q : gmap string string)
    (b : gmap string value) : request :=
  {| authorization := authorizationHeader token; params_id := id;
     query := q; body := b; user := None |}.

(** [o.k] on a JSON object. *)
Fixpoint property (k : string) (kv : list (string * value)) : option value :=
  match kv with
  | [] => None
  | (k', v) :: rest => if String.eqb k' k then Some v else property k rest
  end.


(** [response.ok]: a status from 200 to 299. *)
Definition ok (r : response) : bool :=
  (200 <=? status r)%nat && (status r <=? 299)%nat.

(** What [ApiService.request] throws on an answer that is not [ok]:
    [new Error(data.error || 'Request failed')], or the TypeError of
    reading [error] off [null]. *)
Inductive thrown : Type :=
| TypeError
| ErrorOf (message : value).

Definition orRequestFailed (o : option value) : value :=
  if truthy o then default VNull o else VStr "Request failed".

Definition raised (r : response) : option thrown :=
  if ok r then None
  else Some (match json r with
             | Json VNull | Document None => TypeError
             | Json (VObj kv) => ErrorOf (orRequestFailed (property "error" kv))
             | Document (Some d) => ErrorOf (orRequestFailed (d !! "error"))
             | _ => ErrorOf (orRequestFailed None)
             end).

End Client.
Export Client.

(** ** A reference platform

    A small executable stand-in for the packages, used to run the handlers
    on concrete requests.  Its "hash" and its "signature" are not
    cryptographic: the hash is the plaintext between markers followed by the
    salt, the token is the user id, the secret and the user name. *)

Module Reference.

Fixpoint startsWith (pre s : string) : bool :=
  match pre, s with
  | EmptyString, _ => true
  | String a pre', String b s' => Ascii.eqb a b && startsWith pre' s'
  | String _ _, EmptyString => false
  end.

Definition isHex (c : ascii) : bool :=
  let n := nat_of_ascii c in
  (((48 <=? n) && (n <=? 57)) || ((65 <=? n) && (n <=? 70))
   || ((97 <=? n) && (n <=? 102)))%nat.

Fixpoint allHex (s : string) : bool :=
  match s with
  | EmptyString => true
  | String c r => isHex c && allHex r
  end.

Definition refHash (plaintext : string) (rounds : nat) (salt : string) : string :=
  "$2a$12$" ++ plaintext ++ "$" ++ salt.

Definition refCompare (plaintext hash : string) : bool :=
  startsWith ("$2a$12$" ++ plaintext ++ "$") hash.

Definition refSign (c : claims) (secret : string) (t : Z) : string :=
  "jwt." ++ userId c ++ "." ++ secret ++ "." ++ username c.

Definition refVerify (token secret : string) (t : Z) : option claims :=
  match split "." token with
  | tag :: uid :: sig :: name :: rest =>
      if String.eqb tag "jwt" && String.eqb sig secret
      then Some {| userId := uid;
                   username := fold_left (fun acc piece => acc ++ "." ++ piece) rest name |}
      else None
  | _ => None
  end.

Definition refConvert (t : SType) (v : value) : option value :=
  match t, v with
  | TObjectId, VStr s =>
      if (String.length s =? 24)%nat && allHex s then Some (VId (toLowerCase s))
      else None
  | TDate, VNum q => Some (VDate (Qfloor q))
  | _, _ => None
  end.

Definition refSubdocs (p : string) (l : list value) (t : Z) : option (list value) :=
  if forallb (fun v => match v with VObj _ => true | _ => false end) l
  then Some l else None.

Definition refMessage (p : string) (f : failure) : string :=
  match f with
  | Required => "Path `" ++ p ++ "` is required."
  | NotInEnum s => "`" ++ s ++ "` is not a valid enum value for path `" ++ p ++ "`."
  | _ => "Validator failed for path `" ++ p ++ "`"
  end.

Definition refPlatform : Platform := {|
  bcrypt_hash := refHash;
  bcrypt_compare := refCompare;
  jwt_sign := refSign;
  jwt_verify := refVerify;
  JWT_SECRET := "ibm_fullstack_capstone_secret_2025";
  convert := refConvert;
  castSubdocs := refSubdocs;
  messageOf := refMessage;
  stringToNumber := fun _ => None
|}.

End Reference.

Import Reference.

(** ** Notions used in the properties *)

(** The user document [new User({ username, email, password, firstName,
    lastName })] holds: the setters applied, the defaults filled in. *)
Definition newUser (username email hashed firstName lastName : string) (e : env) : doc :=
  list_to_map
    [("username", VStr (trim username)); ("email", VStr (toLowerCase email));
     ("password", VStr hashed); ("firstName", VStr (trim firstName));
     ("lastName", VStr (trim lastName)); ("role", VStr "user");
     ("avatar", VStr ""); ("isActive", VBool true);
     ("createdAt", VDate (now e)); ("updatedAt", VDate (now e));
     ("_id", VId (freshId e)); ("__v", VNum 0)].

(** What the 201 answer of a registration shows of the new user. *)
Definition publicUser (username email firstName lastName : string) (e : env) : value :=
  VObj [("id", VId (freshId e)); ("username", VStr (trim username));
        ("email", VStr (toLowerCase email)); ("firstName", VStr (trim firstName));
        ("lastName", VStr (trim lastName)); ("role", VStr "user")].

(** The login lookup after query casting: the user name trimmed, the
    e-mail in lower case. *)
Definition loginFilter (ident : string) : selector :=
  Any [Equals "username" (VStr (trim ident));
       Equals "email" (VStr (toLowerCase ident))].

(** A document whose [status] is the string [s]. *)
Definition hasStatus (s : string) (d : doc) : bool :=
  match d !! "status" with
  | Some v => value_eqb v (VStr s)
  | None => false
  end.

(** The double [completed / total * 100]. *)
Definition percentage (completed total : nat) : spec_float :=
  fmul (fdiv (ofInt (Z.of_nat completed)) (ofInt (Z.of_nat total))) (ofInt 100).

(** The spec's formula read in exact arithmetic: [completed / total * 100]
    as a rational, rounded to tenths by [round], written with one decimal. *)
Definition exactRate (round : Q -> Z) (completed total : nat) : string :=
  tenthsString
    (round (inject_Z (Z.of_nat completed) / inject_Z (Z.of_nat total) * 100 * 10)%Q).

(** Ties away from the larger neighbour, and ties to the even neighbour. *)
Definition roundHalfDown (q : Q) : Z := (- roundHalfUp (- q))%Z.

Definition roundHalfEven (q : Q) : Z :=
  let f := Qfloor q in
  match (q - inject_Z f ?= 1 # 2)%Q with
  | Lt => f
  | Gt => (f + 1)%Z
  | Eq => if Z.even f then f else (f + 1)%Z
  end.

(** A stored document passes the validators of every path of the schema. *)
Definition validDoc (sch : Schema) (d : doc) : bool :=
  forallb (fun pf : string * Field =>
             match validatePath (snd pf) (d !! fst pf) with
             | None => true
             | Some _ => false
             end) sch.

(** Two index keys that a unique index takes for the same: both present
    and equal, as [duplicateKey] compares them. *)
Definition sameKey (k' k : option value) : bool :=
  match k', k with
  | Some v', Some v => value_eqb v' v
  | _, _ => false
  end.

Fixpoint distinct (l : list (option value)) : bool :=
  match l with
  | [] => true
  | k :: rest => negb (existsb (sameKey k) rest) && distinct rest
  end.

(** No two documents of the collection have the same key at [p]. *)
Definition uniqueOn (p : string) (coll : list doc) : bool :=
  distinct (map (fun d : doc => d !! p) coll).




(** The status codes each route answers with. *)
Definition statuses (ep : endpoint) : list nat :=
  match ep with
  | GET_health => [200]
  | POST_auth_register _ => [201; 400; 500]
  | POST_auth_login _ => [200; 400; 401; 500]
  | GET_users_profile => [200; 401; 403; 404; 500]
  | PUT_tasks_id | DELETE_tasks_id => [200; 401; 403; 404; 500]
  | POST_tasks | POST_projects => [201; 401; 403; 500]
  | GET_users | GET_tasks | GET_projects | GET_analytics_dashboard =>
      [200; 401; 403; 500]
  end%nat.

(** The keys of a JSON object. *)
Definition keysOf (v : value) : list string :=
  match v with
  | VObj kv => map fst kv
  | _ => []
  end.


(** The implicit [_id] path of every schema. *)
Definition idPath : Field := uniq (withDefault DefaultObjectId (path TObjectId)).

(** What casting to ObjectId yields is an ObjectId. *)
Definition objectIdCast `{P : Platform} : Prop :=
  forall v v', convert TObjectId v = Some v' -> exists h, v' = VId h.

(** The registration lookup after query casting. *)
Definition registerFilter (username email : string) : selector :=
  Any [Equals "email" (VStr (toLowerCase email));
       Equals "username" (VStr (trim username))].

(** The 201 answer of a registration. *)
Definition registerAnswer `{P : Platform} (username email firstName lastName : string)
    (e : env) : response :=
  {| status := 201;
     json := Json (VObj
       [("message", VStr "User created successfully");
        ("token", VStr (jwt_sign {| userId := freshId e; username := trim username |}
                          JWT_SECRET (now e)));
        ("user", publicUser username email firstName lastName e)]) |}.

(** The 200 answer of a login for the loaded user [u]. *)
Definition loginAnswer `{P : Platform} (u : doc) (e : env) : response :=
  {| status := 200;
     json := Json (object
       [("message", Some (VStr "Login successful"));
        ("token", Some (VStr (jwt_sign (claimsOf u) JWT_SECRET (now e))));
        ("user", Some (object
           [("id", u !! "_id"); ("username", u !! "username");
            ("email", u !! "email"); ("firstName", u !! "firstName");
            ("lastName", u !! "lastName"); ("role", u !! "role");
            ("lastLogin", u !! "lastLogin")]))]) |}.

(** A string without a blank. *)
Fixpoint noBlank (s : string) : bool :=
  match s with
  | EmptyString => true
  | String c r => negb (Ascii.eqb c " ") && noBlank r
  end.

(** A user that [{ isActive: true }] selects. *)
Definition active (d : doc) : bool :=
  match d !! "isActive" with
  | Some (VBool true) => true
  | _ => false
  end.

(** [a] comes before [b] in a listing sorted by [createdAt], newest first. *)
Definition newerFirst (a b : doc) : Prop := notOlder a b = true.

(** The page, the page size and the offset a listing request asks for. *)
Definition pageOf `{P : Platform} (rq : request) : option Q :=
  match query rq !! "page" with
  | Some s => toNumber s
  | None => Some 1%Q
  end.

Definition limitOf `{P : Platform} (rq : request) : option Q :=
  match query rq !! "limit" with
  | Some s => toNumber s
  | None => Some 10%Q
  end.

Definition offsetOf `{P : Platform} (rq : request) : option Q :=
  match pageOf rq, limitOf rq with
  | Some p, Some l => Some ((p - 1) * l)%Q
  | _, _ => None
  end.

Definition currentPageOf (rq : request) : value :=
  match query rq !! "page" with
  | Some s => VStr s
  | None => VNum 1
  end.

(** The count a grouping shows for the key [k], and the sum of its counts. *)
Fixpoint countFor (k : value) (groups : list (value * nat)) : nat :=
  match groups with
  | [] => 0
  | (k', n) :: rest => if value_eqb k' k then n else countFor k rest
  end.

Definition totalOf (groups : list (value * nat)) : nat :=
  fold_right (fun g acc => (snd g + acc)%nat) 0%nat groups.

(** What a populated reference to the id [h] shows: [null] when no user has
    this id; otherwise fields of a user with this id, among [_id] and
    [names]. *)
Definition shownOf (us : list doc) (names : list string) (h : string) (v : value) : Prop :=
  (v = VNull /\ forall u, In u us -> u !! "_id" <> Some (VId h))
  \/ (exists u kv, In u us /\ u !! "_id" = Some (VId h) /\ v = VObj kv
                   /\ incl (map fst kv) ("_id" :: names)
                   /\ forall k x, In (k, x) kv -> u !! k = Some x).

Definition isId (v : value) : bool :=
  match v with
  | VId _ => true
  | _ => false
  end.

(** What a handler does on every request: it answers, with one of the
    status codes [codes]; when the status is not 200 or 201 it has not
    changed the store, and the answer is [{ error: msg }] for a message
    that is not empty. *)
Definition behaves (codes : list nat) (h : handler) : Prop :=
  forall rq e st,
    exists r st',
      h rq e st = (Respond r, st') /\ In (status r) codes
      /\ (status r <> 200%nat -> status r <> 201%nat ->
          st' = st /\ exists msg, msg <> "" /\ r = errorJson (status r) msg).

Definition answers (codes : list nat) (h : handler) : Prop :=
  forall rq e st, exists r st', h rq e st = (Respond r, st') /\ In (status r) codes.

Definition keepsOnFailure (h : handler) : Prop :=
  forall rq e st r st',
    h rq e st = (Respond r, st') -> status r <> 200%nat -> status r <> 201%nat ->
    st' = st.

Definition plainErrors (h : handler) : Prop :=
  forall rq e st r st',
    h rq e st = (Respond r, st') -> status r <> 200%nat -> status r <> 201%nat ->
    exists msg, msg <> "" /\ r = errorJson (status r) msg.

Definition readOnly (h : handler) : Prop := forall rq e st, snd (h rq e st) = st.


(** ** A scenario on the reference platform *)

Section Scenario.
#[local] Existing Instance refPlatform.

(** Two registrations on an empty store: first a user whose user name is
    the string [bob@example.com], then a user whose e-mail is that string. *)
Definition emptyStore : store := {| users := []; tasks := []; projects := [] |}.

Definition carol : registerBody :=
  {| reg_username := Some "bob@example.com"; reg_email := Some "carol@example.com";
     reg_password := Some "carol-secret"; reg_firstName := Some "Carol";
     reg_lastName := Some "Jones" |}.

Definition bob : registerBody :=
  {| reg_username := Some "bob"; reg_email := Some "bob@example.com";
     reg_password := Some "bob-secret"; reg_firstName := Some "Bob";
     reg_lastName := Some "Smith" |}.

(** The clock, the generated ObjectId and the salt of four requests. *)
Definition env1 : env :=
  {| now := 1000; freshId := "65a000000000000000000001"; salt := "salt1" |}.

Definition env2 : env :=
  {| now := 2000; freshId := "65a000000000000000000002"; salt := "salt2" |}.

Definition env3 : env :=
  {| now := 3000; freshId := "65a000000000000000000003"; salt := "salt3" |}.

Definition env4 : env :=
  {| now := 4000; freshId := "65a000000000000000000004"; salt := "salt4" |}.

Definition afterCarol : store := snd (register carol env1 emptyStore).

Definition afterBob : store := snd (register bob env2 afterCarol).

(** The token the reference platform signs for Bob, and what it verifies to. *)
Definition bobToken : string :=
  "jwt.65a000000000000000000002.ibm_fullstack_capstone_secret_2025.bob".

Definition bobClaims : claims :=
  {| userId := "65a000000000000000000002"; username := "bob" |}.

(** A request without an authorization header. *)
Definition anonymous : request :=
  {| authorization := None; params_id := ""; query := ∅; body := ∅; user := None |}.

(** A request that carries Bob's token. *)
Definition asBob (id : string) (q : list (string * string))
    (b : list (string * value)) : request :=
  {| authorization := Some ("Bearer " ++ bobToken); params_id := id;
     query := list_to_map q; body := list_to_map b; user := None |}.

(** Bob creates a task and names Carol as its creator in the body. *)
Definition newTask : request :=
  asBob "" [] [("title", VStr "Write report"); ("description", VStr "Quarterly figures");
               ("project", VStr "Q3"); ("createdBy", VStr "65a000000000000000000001")].

(** The response of a handler that answered. *)
Definition theResponse (o : outcome * store) : response :=
  match fst o with
  | Respond r => r
  | _ => errorJson 0 ""
  end.

Definition withTask : store :=
  snd (protected createTask newTask env3 afterBob).

(** Bob then marks the task completed. *)
Definition completeTask : request :=
  asBob "65a000000000000000000003" [] [("status", VStr "completed")].

Definition afterUpdate : store :=
  snd (protected updateTask completeTask env4 withTask).

(** Carol's account switched off. *)
Definition carolInactive : store :=
  setUsers (map (fun u => match u !! "email" with
                          | Some (VStr "carol@example.com") =>
                              <["isActive" := VBool false]> u
                          | _ => u
                          end) (users afterBob)) afterBob.

(** The first page of ten of the completed tasks. *)
Definition listCompleted : request :=
  asBob "" [("status", "completed"); ("page", "1"); ("limit", "10")] [].

(** Bob's credentials, and a registration that takes his user name again,
    written with blanks around it. *)
Definition bobLogin : loginBody :=
  {| login_username := Some "bob"; login_password := Some "bob-secret" |}.


Definition afterLogin : store := snd (login bobLogin env3 afterBob).

(** Bob, authenticated, names the task he created. *)
Definition bobsTask : request :=
  withUser bobClaims (asBob "65a000000000000000000003" [] []).

Definition afterDelete : store := snd (deleteTask bobsTask env4 withTask).

(** Bob creates a project and names Carol as its owner in the body; the
    team is Carol, Bob and an id that no user has. *)
Definition newProject : request :=
  withUser bobClaims
    (asBob "" []
       [("name", VStr "Website"); ("description", VStr "Relaunch");
        ("startDate", VNum 1700000000000);
        ("owner", VStr "65a000000000000000000001");
        ("team", VArr [VStr "65a000000000000000000001";
                       VStr "65a000000000000000000002";
                       VStr "65a0000000000000000000ff"])]).

Definition withProject : store := snd (createProject newProject env4 withTask).


Definition pageZero : request := asBob "" [("page", "0"); ("limit", "10")] [].

Definition unlimited : request := asBob "" [("page", "3"); ("limit", "0")] [].

End Scenario.

(** ** Properties *)

(** *** The authentication middleware *)

Lemma truthyStr_some (s : string) : s <> "" -> truthyStr (Some s) = true.
Proof.
  intros Hne. simpl. destruct (String.eqb_spec s ""); [contradiction | reflexivity].
Qed.

Lemma truthyStr_true (o : option string) :
  truthyStr o = true -> exists s, o = Some s /\ s <> "".
Proof.
  destruct o as [s|]; simpl; [|discriminate].
  destruct (String.eqb_spec s ""); [discriminate|]. intros _. now exists s.
Qed.

Lemma bearerToken_absent (rq : request) :
  authorization rq = None -> bearerToken rq = None.
Proof. intros H. unfold bearerToken. now rewrite H. Qed.

(** The scheme word is not looked at: the token is whatever follows the
    first blank. *)
Example bearerToken_other_scheme :
  bearerToken {| authorization := Some "Basic dXNlcjpwdw"; params_id := "";
                 query := ∅; body := ∅; user := None |}
  = Some "dXNlcjpwdw".
Proof. reflexivity. Qed.

Lemma authenticateToken_none `{P : Platform} (rq : request) (e : env) :
  truthyStr (bearerToken rq) = false ->
  authenticateToken rq e = Respond (errorJson 401 "Access token required").
Proof. intros H. unfold authenticateToken. now rewrite H. Qed.


Lemma authenticateToken_valid `{P : Platform} (rq : request) (e : env) (tok : string)
    (u : claims) :
  bearerToken rq = Some tok -> tok <> "" ->
  jwt_verify tok JWT_SECRET (now e) = Some u ->
  authenticateToken rq e = Next (withUser u rq).
Proof.
  intros Htok Hne Hverify. unfold authenticateToken.
  rewrite Htok, (truthyStr_some _ Hne). cbn [negb default from_option id].
  now rewrite Hverify.
Qed.

(** A request with a token that verifies reaches the handler with the
    identity attached. *)
Lemma protected_authenticated `{P : Platform} (h : handler) (rq : request) (e : env)
    (st : store) (tok : string) (u : claims) :
  bearerToken rq = Some tok -> tok <> "" ->
  jwt_verify tok JWT_SECRET (now e) = Some u ->
  protected h rq e st = h (withUser u rq) e st.
Proof.
  intros Htok Hne Hverify. unfold protected.
  now rewrite (authenticateToken_valid rq e tok u Htok Hne Hverify).
Qed.


(** *** Registration and login: rejections *)

(** One step of a handler: the conditions already decided and the
    bindings of [const] are reduced, nothing else is unfolded. *)
Ltac step :=
  cbv beta zeta iota delta [negb orb andb default from_option id].

(** C10.  A registration request that lacks one of username, email,
    password, firstName, lastName, or whose password is shorter than 6, is
    answered 400 and leaves the store as it was. *)
Theorem register_rejects_incomplete `{P : Platform} (b : registerBody) (e : env)
    (st : store) :
  reg_username b = None \/ reg_email b = None \/ reg_password b = None
  \/ reg_firstName b = None \/ reg_lastName b = None
  \/ (exists pw, reg_password b = Some pw /\ (String.length pw < 6)%nat) ->
  exists r, register b e st = (Respond r, st) /\ status r = 400%nat.
Proof.
  intros Hbad. unfold register, tryCatch.
  destruct (negb (truthyStr (reg_username b)) || negb (truthyStr (reg_email b))
            || negb (truthyStr (reg_password b)) || negb (truthyStr (reg_firstName b))
            || negb (truthyStr (reg_lastName b))) eqn:Hmissing.
  - eexists. split; reflexivity.
  - repeat (apply orb_false_elim in Hmissing; destruct Hmissing as [Hmissing ?]).
    repeat match goal with
           | H : negb (truthyStr _) = false |- _ =>
               apply negb_false_iff, truthyStr_true in H; destruct H as (? & H & ?)
           end.
    destruct Hbad as [Hb|[Hb|[Hb|[Hb|[Hb|(pw & Hb & Hlen)]]]]]; try congruence.
    replace (reg_password b) with (Some pw). step.
    apply Nat.ltb_lt in Hlen. rewrite Hlen.
    eexists. split; reflexivity.
Qed.

(** C9.  When the record that the login lookup returns has [isActive] false,
    the answer is 401 with the message of a wrong password, it carries no
    token, and the store is as it was, whatever the password is. *)
Theorem login_rejects_inactive `{P : Platform} (b : loginBody) (e : env)
    (st : store) (name pw : string) (u : doc) :
  login_username b = Some name -> name <> "" ->
  login_password b = Some pw -> pw <> "" ->
  findOne userSchema (users st)
    (Any [Equals "username" (VStr name); Equals "email" (VStr name)]) = Ok (Some u) ->
  u !! "isActive" = Some (VBool false) ->
  login b e st = (Respond (errorJson 401 "Invalid credentials"), st).
Proof.
  intros Hname Hne Hpw Hpne Hfind Hflag.
  unfold login, tryCatch.
  rewrite Hname, Hpw, (truthyStr_some _ Hne), (truthyStr_some _ Hpne).
  step. unfold mbind, action_bind, await. rewrite Hfind.
  unfold isActive. rewrite Hflag. reflexivity.
Qed.

(** The answer to a wrong password on an active record, for comparison. *)
Lemma login_wrong_password `{P : Platform} (b : loginBody) (e : env)
    (st : store) (name pw hash : string) (u : doc) :
  login_username b = Some name -> name <> "" ->
  login_password b = Some pw -> pw <> "" ->
  findOne userSchema (users st)
    (Any [Equals "username" (VStr name); Equals "email" (VStr name)]) = Ok (Some u) ->
  truthy (isActive u) = true ->
  u !! "password" = Some (VStr hash) ->
  bcrypt_compare pw hash = false ->
  login b e st = (Respond (errorJson 401 "Invalid credentials"), st).
Proof.
  intros Hname Hne Hpw Hpne Hfind Hact Hhash Hcmp.
  unfold login, tryCatch.
  rewrite Hname, Hpw, (truthyStr_some _ Hne), (truthyStr_some _ Hpne).
  step. unfold mbind, action_bind, await. rewrite Hfind, Hact.
  step. rewrite Hhash, Hcmp. reflexivity.
Qed.

(** *** The documents the handlers build *)

Lemma construct_user `{P : Platform} (username email hashed firstName lastName : string)
    (e : env) :
  construct userSchema
    (list_to_map [("username", VStr username); ("email", VStr email);
                  ("password", VStr hashed); ("firstName", VStr firstName);
                  ("lastName", VStr lastName)]) e
  = {| fields := newUser username email hashed firstName lastName e;
       castErrors := [] |}.
Proof. vm_compute. reflexivity. Qed.

Lemma save_ok `{P : Platform} (sch : Schema) (coll l : list doc) (i : instance) :
  save sch coll i = Ok l ->
  l = (coll ++ [fields i])%list /\ validate sch i = []
  /\ duplicateKey sch coll (fields i) = None.
Proof.
  unfold save. destruct (validate sch i); [|discriminate].
  destruct (duplicateKey sch coll (fields i)); [discriminate|].
  intros [= <-]. auto.
Qed.

Lemma claimsOf_newUser (username email hashed firstName lastName : string) (e : env) :
  claimsOf (newUser username email hashed firstName lastName e)
  = {| userId := freshId e; username := trim username |}.
Proof. vm_compute. reflexivity. Qed.

Lemma publicUser_newUser (username email hashed firstName lastName : string) (e : env) :
  let d := newUser username email hashed firstName lastName e in
  object [("id", d !! "_id"); ("username", d !! "username"); ("email", d !! "email");
          ("firstName", d !! "firstName"); ("lastName", d !! "lastName");
          ("role", d !! "role")]
  = publicUser username email firstName lastName e.
Proof. vm_compute. reflexivity. Qed.

(** A registration answered 201, taken apart: the five fields were there,
    the lookup for an existing user found none, the new document passed
    validation and the unique indexes, and it was appended to the users. *)
Lemma register_created `{P : Platform} (b : registerBody) (e : env) (st st' : store)
    (r : response) :
  register b e st = (Respond r, st') -> status r = 201%nat ->
  exists username email password firstName lastName,
    let d := newUser username email (bcrypt_hash password 12 (salt e))
               firstName lastName e in
    b = {| reg_username := Some username; reg_email := Some email;
           reg_password := Some password; reg_firstName := Some firstName;
           reg_lastName := Some lastName |}
    /\ username <> "" /\ email <> "" /\ password <> ""
    /\ findOne userSchema (users st)
         (Any [Equals "email" (VStr email); Equals "username" (VStr username)])
       = Ok None
    /\ validate userSchema {| fields := d; castErrors := [] |} = []
    /\ st' = setUsers (users st ++ [d])%list st
    /\ json r = Json (VObj
         [("message", VStr "User created successfully");
          ("token", VStr (jwt_sign {| userId := freshId e; username := trim username |}
                            JWT_SECRET (now e)));
          ("user", publicUser username email firstName lastName e)]).
Proof.
  unfold register, tryCatch. intros Hrun Hstatus.
  destruct (negb (truthyStr (reg_username b)) || negb (truthyStr (reg_email b))
            || negb (truthyStr (reg_password b)) || negb (truthyStr (reg_firstName b))
            || negb (truthyStr (reg_lastName b))) eqn:Hmissing.
  { injection Hrun as <- <-. discriminate Hstatus. }
  repeat (apply orb_false_elim in Hmissing; destruct Hmissing as [Hmissing ?]).
  repeat match goal with
         | H : negb (truthyStr _) = false |- _ =>
             apply negb_false_iff, truthyStr_true in H; destruct H as (? & H & ?)
         end.
  destruct b as [bu be bp bf bl]. cbn [reg_username reg_email reg_password
    reg_firstName reg_lastName] in *. subst bu be bp bf bl.
  revert Hrun. step.
  match goal with |- context [(String.length ?pw <? 6)%nat] =>
    destruct (String.length pw <? 6)%nat end.
  { intros [= <- <-]. discriminate Hstatus. }
  unfold mbind, action_bind, await.
  match goal with |- context [findOne ?s ?c ?f] =>
    destruct (findOne s c f) as [[existing|]|err] eqn:Hfind end.
  { intros [= <- <-]. discriminate Hstatus. }
  2:{ intros [= <- <-]. discriminate Hstatus. }
  rewrite construct_user. unfold writeUsers.
  match goal with |- context [save ?s ?c ?i] =>
    destruct (save s c i) as [l|err] eqn:Hsave end.
  2:{ intros [= <- <-]. discriminate Hstatus. }
  apply save_ok in Hsave. destruct Hsave as (-> & Hvalid & _).
  cbn [fields] in *.
  rewrite claimsOf_newUser, publicUser_newUser.
  intros [= <- <-].
  do 5 eexists. cbn zeta. repeat split; try reflexivity; assumption.
Qed.

(** C6.  A registration answered 201 returns a user object whose keys are
    id, username, email, firstName, lastName and role, so it has no
    password field; the record appended to the store holds, as its
    password, the bcrypt hash (cost 12, fresh salt) of the plaintext, and so
    holds the plaintext only if bcrypt returned its own input. *)
Theorem register_password_not_exposed `{P : Platform} (b : registerBody) (e : env)
    (st st' : store) (r : response) :
  register b e st = (Respond r, st') -> status r = 201%nat ->
  exists pw token shown d,
    reg_password b = Some pw
    /\ json r = Json (VObj [("message", VStr "User created successfully");
                            ("token", VStr token); ("user", VObj shown)])
    /\ map fst shown = ["id"; "username"; "email"; "firstName"; "lastName"; "role"]
    /\ users st' = (users st ++ [d])%list
    /\ d !! "password" = Some (VStr (bcrypt_hash pw 12 (salt e)))
    /\ (d !! "password" = Some (VStr pw) -> bcrypt_hash pw 12 (salt e) = pw).
Proof.
  intros Hrun Hstatus.
  destruct (register_created b e st st' r Hrun Hstatus)
    as (u & em & pw & fn & ln & -> & _ & _ & _ & _ & _ & -> & ->).
  exists pw. do 3 eexists. split; [reflexivity|]. split; [reflexivity|].
  split; [reflexivity|]. split; [reflexivity|].
  assert (Hpw : newUser u em (bcrypt_hash pw 12 (salt e)) fn ln e !! "password"
                = Some (VStr (bcrypt_hash pw 12 (salt e)))) by (vm_compute; reflexivity).
  split; [exact Hpw|]. rewrite Hpw. intros [= ->]. reflexivity.
Qed.

(** *** Login after registration *)

Lemma castFilter_login `{P : Platform} (ident : string) :
  castFilter userSchema
    (Any [Equals "username" (VStr ident); Equals "email" (VStr ident)])
  = Ok (loginFilter ident).
Proof. vm_compute. reflexivity. Qed.


Lemma filter_none {A} (f : A -> bool) (l : list A) :
  (forall x, In x l -> f x = false) -> List.filter f l = [].
Proof.
  induction l as [|x l IH]; intros H; [reflexivity|]. simpl.
  rewrite (H x (or_introl eq_refl)). apply IH. intros y Hy. apply H. now right.
Qed.







(** *** Documents built from a schema *)

Section Construction.
Context `{P : Platform}.

Lemma lookupPath_None (sch : Schema) (p : string) :
  ~ In p (map fst sch) -> lookupPath sch p = None.
Proof.
  induction sch as [|[k f] rest IH]; intros Hnot; [reflexivity|]. simpl in *.
  destruct (String.eqb_spec k p) as [->|Hne]; [tauto|]. apply IH. tauto.
Qed.

Lemma lookupPath_In (sch : Schema) (p : string) (f : Field) :
  lookupPath sch p = Some f -> In (p, f) sch.
Proof.
  induction sch as [|[k f0] rest IH]; simpl; [discriminate|].
  destruct (String.eqb_spec k p) as [->|Hne].
  - intros [= ->]. now left.
  - intros H. right. now apply IH.
Qed.

(** Strict mode: a path the schema does not declare is not stored. *)
Lemma construct_strict (sch : Schema) (data : doc) (e : env) (p : string) :
  lookupPath sch p = None -> fields (construct sch data e) !! p = None.
Proof.
  induction sch as [|[k f] rest IH]; simpl; [intros _; apply lookup_empty|].
  destruct (String.eqb_spec k p) as [->|Hne]; [discriminate|]. intros Hrest.
  destruct (data !! k) as [v|].
  - destruct (setValue f k v e); simpl; [rewrite lookup_insert_ne by done|]; auto.
  - destruct (defaultOf f e); simpl; [rewrite lookup_insert_ne by done|]; auto.
Qed.

(** A declared path holds the supplied value, cast and set, or else the
    default. *)
Lemma construct_path (sch : Schema) (data : doc) (e : env) (p : string) (f : Field) :
  NoDup (map fst sch) -> lookupPath sch p = Some f ->
  fields (construct sch data e) !! p
  = match data !! p with
    | Some v => match setValue f p v e with
                | Ok v' => Some v'
                | Throw _ => None
                end
    | None => defaultOf f e
    end.
Proof.
  induction sch as [|[k f0] rest IH]; simpl; [discriminate|].
  intros Hnodup. apply NoDup_cons in Hnodup as [Hfresh Hnodup].
  destruct (String.eqb_spec k p) as [->|Hne].
  - intros [= ->].
    assert (Hrest : fields (construct rest data e) !! p = None).
    { apply construct_strict, lookupPath_None. intros Hin. apply Hfresh.
      now apply list_elem_of_In. }
    destruct (data !! p) as [v|].
    + destruct (setValue f p v e); simpl; [apply lookup_insert_eq | exact Hrest].
    + destruct (defaultOf f e); simpl; [apply lookup_insert_eq | exact Hrest].
  - intros Hrest. specialize (IH Hnodup Hrest).
    destruct (data !! k) as [v|].
    + destruct (setValue f0 k v e); simpl; [rewrite lookup_insert_ne by done|]; exact IH.
    + destruct (defaultOf f0 e); simpl; [rewrite lookup_insert_ne by done|]; exact IH.
Qed.

(** Only supplied paths can fail to cast. *)
Lemma construct_castErrors (sch : Schema) (data : doc) (e : env) (p : string) :
  In p (castErrors (construct sch data e)) -> exists v, data !! p = Some v.
Proof.
  induction sch as [|[k f] rest IH]; simpl; [tauto|].
  destruct (data !! k) as [v|] eqn:Hk.
  - destruct (setValue f k v e); simpl; [exact IH|].
    intros [<-|Hin]; [eauto | auto].
  - destruct (defaultOf f e); simpl; exact IH.
Qed.

Lemma inb_In (p : string) (l : list string) : inb p l = true <-> In p l.
Proof.
  unfold inb. rewrite existsb_exists. split.
  - intros (x & Hin & Heq). apply String.eqb_eq in Heq. now subst.
  - intros Hin. exists p. split; [assumption | apply String.eqb_refl].
Qed.

(** Validation passes exactly when no declared path failed to cast and
    every declared path passes its validators. *)
Lemma validate_nil (sch : Schema) (i : instance) :
  validate sch i = [] ->
  forall p f, In (p, f) sch ->
    inb p (castErrors i) = false /\ validatePath f (fields i !! p) = None.
Proof.
  induction sch as [|[k f0] rest IH]; simpl; [tauto|].
  destruct (inb k (castErrors i)) eqn:Hcast; [discriminate|].
  destruct (validatePath f0 (fields i !! k)) eqn:Hval; [discriminate|].
  intros Hrest p f [[= <- <-]|Hin]; [auto | now apply IH].
Qed.

Lemma validate_reports (sch : Schema) (i : instance) (p : string) (f : Field)
    (x : failure) :
  In (p, f) sch -> inb p (castErrors i) = false ->
  validatePath f (fields i !! p) = Some x ->
  In (p, x) (validate sch i).
Proof.
  induction sch as [|[k f0] rest IH]; simpl; [tauto|].
  intros [[= -> ->]|Hin] Hcast Hval.
  - rewrite Hcast, Hval. now left.
  - specialize (IH Hin Hcast Hval).
    destruct (inb k (castErrors i)); [now right|].
    destruct (validatePath f0 (fields i !! k)); [now right | assumption].
Qed.

(** Without [trim] and [lowercase] the setters leave a value as it is. *)
Lemma applySetters_plain (f : Field) (v : value) :
  ftrim f = false -> flowercase f = false -> applySetters f v = v.
Proof.
  intros Ht Hl. destruct v; try reflexivity; simpl.
  - unfold setString. now rewrite Ht, Hl.
  - f_equal. induction l as [|x l IH]; [reflexivity|]. simpl. rewrite IH.
    destruct x; try reflexivity. unfold setString. now rewrite Ht, Hl.
Qed.

End Construction.

Lemma taskSchema_NoDup : NoDup (map fst taskSchema).
Proof. apply (bool_decide_unpack _). vm_compute. exact I. Qed.

(** *** Task creation *)

Lemma taskData_createdBy (rq : request) (u : claims) (e : env) :
  taskData rq u e !! "createdBy" = Some (VStr (userId u)).
Proof.
  unfold taskData. rewrite lookup_insert_ne by done. apply lookup_insert_eq.
Qed.

Lemma taskData_ignores_createdBy (rq : request) (u : claims) (e : env) (x : value) :
  taskData (withBody (<["createdBy" := x]> (body rq)) rq) u e = taskData rq u e.
Proof. unfold taskData, withBody. cbn [body]. now rewrite insert_insert_eq. Qed.

Lemma createTask_ignores_createdBy `{P : Platform} (rq : request) (e : env)
    (st : store) (u : claims) (x : value) :
  createTask (withUser u (withBody (<["createdBy" := x]> (body rq)) rq)) e st
  = createTask (withUser u rq) e st.
Proof.
  unfold createTask. cbn [user withUser].
  change (taskData (withUser u (withBody (<["createdBy" := x]> (body rq)) rq)) u e)
    with (taskData (withBody (<["createdBy" := x]> (body rq)) rq) u e).
  change (taskData (withUser u rq) u e) with (taskData rq u e).
  now rewrite taskData_ignores_createdBy.
Qed.

(** A branch that answers something else than the status assumed. *)
Ltac reject :=
  let Heq := fresh in let Hs := fresh in let Hr := fresh in
  intros Heq Hs; exfalso; injection Heq as Hr _; rewrite <- Hr in Hs;
  discriminate Hs.

(** A task creation answered 201, taken apart. *)
Lemma createTask_created `{P : Platform} (rq : request) (e : env) (st st' : store)
    (u : claims) (r : response) :
  user rq = Some u ->
  createTask rq e st = (Respond r, st') -> status r = 201%nat ->
  let task := construct taskSchema (taskData rq u e) e in
  validate taskSchema task = []
  /\ st' = setTasks (tasks st ++ [fields task])%list st.
Proof.
  intros Huser. unfold createTask, tryCatch. rewrite Huser.
  unfold mbind, action_bind, writeTasks, await. cbv beta zeta.
  destruct (save taskSchema (tasks st) (construct taskSchema (taskData rq u e) e))
    as [l|err] eqn:Hsave.
  2:{ reject. }
  apply save_ok in Hsave as (Hl & Hvalid & _).
  match goal with |- context [findById ?s ?c ?i] => destruct (findById s c i) end.
  2:{ reject. }
  intros Heq _. injection Heq as _ Hst. subst st' l. split; [assumption | reflexivity].
Qed.

(** C1.  On POST /api/tasks with a token that verifies to the identity
    [u]: a [createdBy] in the request body has no effect at all on what the
    route does, and when the task is created (201) the stored task's
    [createdBy] is the ObjectId that the token's [userId] denotes. *)
Theorem create_task_creator `{P : Platform} (rq : request) (e : env) (st : store)
    (tok : string) (u : claims) :
  bearerToken rq = Some tok -> tok <> "" ->
  jwt_verify tok JWT_SECRET (now e) = Some u ->
  (forall x, protected createTask (withBody (<["createdBy" := x]> (body rq)) rq) e st
             = protected createTask rq e st)
  /\ (forall r st',
        protected createTask rq e st = (Respond r, st') -> status r = 201%nat ->
        exists d v,
          convert TObjectId (VStr (userId u)) = Some v
          /\ tasks st' = (tasks st ++ [d])%list
          /\ d !! "createdBy" = Some v).
Proof.
  intros Htok Hne Hverify.
  assert (Hgate : forall rq', bearerToken rq' = Some tok ->
            protected createTask rq' e st = createTask (withUser u rq') e st).
  { intros rq' Htok'. now apply protected_authenticated with (tok := tok). }
  split.
  - intros x. rewrite (Hgate rq Htok),
      (Hgate (withBody (<["createdBy" := x]> (body rq)) rq) Htok).
    apply createTask_ignores_createdBy.
  - intros r st' Hrun Hstatus. rewrite (Hgate rq Htok) in Hrun.
    destruct (createTask_created (withUser u rq) e st st' u r eq_refl Hrun Hstatus)
      as [Hvalid Hst].
    pose (f := req (path TObjectId)).
    assert (Hpath : lookupPath taskSchema "createdBy" = Some f) by reflexivity.
    destruct (validate_nil _ _ Hvalid "createdBy" f (lookupPath_In _ _ _ Hpath))
      as [_ Hrequired].
    pose proof (construct_path taskSchema (taskData (withUser u rq) u e) e
                  "createdBy" f taskSchema_NoDup Hpath) as Hfield.
    rewrite taskData_createdBy in Hfield.
    unfold setValue, castValue, castScalar in Hfield. 
    cbn [ftype f req path] in Hfield.
    destruct (convert TObjectId (VStr (userId u))) as [v|].
    + cbn [mbind result_bind] in Hfield.
      rewrite applySetters_plain in Hfield by reflexivity.
      eexists _, v. rewrite Hst. cbn [tasks setTasks]. auto.
    + cbn [mbind result_bind] in Hfield. rewrite Hfield in Hrequired.
      discriminate Hrequired.
Qed.

(** Every route body runs inside [tryCatch]: it answers, and never passes
    an error on. *)
Lemma tryCatch_responds (body : action response) (msg : string) (st : store) :
  exists r st', tryCatch body msg st = (Respond r, st').
Proof. unfold tryCatch. destruct (body st) as [[r|err] st']; eauto. Qed.

(** C3, what the code does.  A task creation whose body has no title
    raises a ValidationError naming the path; [errorHandler] maps that
    error to 400, but the route's own [catch] answers 500 with a generic
    message and the error never reaches [errorHandler]. *)
Theorem create_task_validation_error_swallowed `{P : Platform} (rq : request)
    (e : env) (st : store) (u : claims) :
  user rq = Some u -> body rq !! "title" = None ->
  app createTask rq e st = (errorJson 500 "Failed to create task", st)
  /\ exists errs,
       save taskSchema (tasks st) (construct taskSchema (taskData rq u e) e)
       = Throw (ValidationError errs)
       /\ In ("title", Required) errs
       /\ status (errorHandler (ValidationError errs)) = 400%nat.
Proof.
  intros Huser Htitle.
  set (task := construct taskSchema (taskData rq u e) e).
  pose (f := trimmed (req (path TString))).
  assert (Hpath : lookupPath taskSchema "title" = Some f) by reflexivity.
  assert (Hdata : taskData rq u e !! "title" = None).
  { unfold taskData. now rewrite !lookup_insert_ne by done. }
  assert (Hfield : fields task !! "title" = None).
  { unfold task. rewrite (construct_path _ _ _ _ f taskSchema_NoDup Hpath), Hdata.
    reflexivity. }
  assert (Hcast : inb "title" (castErrors task) = false).
  { destruct (inb "title" (castErrors task)) eqn:Hin; [|reflexivity].
    apply inb_In, construct_castErrors in Hin as [v Hv]. congruence. }
  assert (Hreport : In ("title", Required) (validate taskSchema task)).
  { apply (validate_reports _ _ _ f); [now apply lookupPath_In | assumption |].
    rewrite Hfield. reflexivity. }
  assert (Hsave : save taskSchema (tasks st) task
                  = Throw (ValidationError (validate taskSchema task))).
  { unfold save. destruct (validate taskSchema task); [destruct Hreport | reflexivity]. }
  split.
  - unfold app, createTask, tryCatch. rewrite Huser.
    unfold mbind, action_bind, writeTasks. cbv beta zeta. fold task.
    rewrite Hsave. reflexivity.
  - exists (validate taskSchema task). auto.
Qed.

(** *** Task update *)

Section Updating.
Context `{P : Platform}.





Lemma replaceById_none (coll : list doc) (id : value) (d' : doc) :
  head (List.filter (matches (All [Equals "_id" id])) coll) = None ->
  replaceById coll id d' = coll.
Proof.
  induction coll as [|x coll IH]; cbn [List.filter replaceById]; [reflexivity|].
  destruct (matches (All [Equals "_id" id]) x); [discriminate|].
  intros Hhead. now rewrite IH.
Qed.

Lemma findByIdAndUpdate_ok (sch : Schema) (coll l : list doc) (id : string)
    (upd : doc) (e : env) (o : option doc) :
  findByIdAndUpdate sch coll id upd e = Ok (o, l) ->
  exists idv u',
    castScalar TObjectId "_id" (VStr id) = Ok idv
    /\ castUpdate sch upd e = Ok u'
    /\ validateUpdate sch u' = []
    /\ match head (List.filter (matches (All [Equals "_id" idv])) coll) with
       | None => o = None /\ l = coll
       | Some d => o = Some (u' ∪ d) /\ l = replaceById coll idv (u' ∪ d)
       end.
Proof.
  unfold findByIdAndUpdate.
  destruct (castScalar TObjectId "_id" (VStr id)) as [idv|]; [|discriminate].
  cbn [mbind result_bind].
  destruct (castUpdate sch upd e) as [u'|]; [|discriminate].
  cbn [mbind result_bind].
  destruct (validateUpdate sch u') eqn:Hvalid; [|discriminate].
  intros Hrun. exists idv, u'. repeat split; try assumption.
  destruct (head (List.filter (matches (All [Equals "_id" idv])) coll)) as [d|].
  - destruct (match u' !! "_id" with
              | Some v => negb (value_eqb v idv)
              | None => false
              end); [discriminate|].
    now injection Hrun as <- <-.
  - now injection Hrun as <- <-.
Qed.

(** Without a match nothing is written, whatever the update is. *)
Lemma findByIdAndUpdate_keeps (sch : Schema) (coll l : list doc) (id : string)
    (upd : doc) (e : env) :
  findByIdAndUpdate sch coll id upd e = Ok (None, l) -> l = coll.
Proof.
  intros Hrun. apply findByIdAndUpdate_ok in Hrun as (idv & u' & _ & _ & _ & Hhead).
  destruct (head (List.filter (matches (All [Equals "_id" idv])) coll));
    destruct Hhead as [Ho Hl]; congruence.
Qed.

End Updating.

Lemma setTasks_same (st : store) : setTasks (tasks st) st = st.
Proof. now destruct st. Qed.

(** PUT /api/tasks/:id in terms of [findByIdAndUpdate]. *)
Lemma updateTask_run `{P : Platform} (rq : request) (e : env) (st : store) :
  updateTask rq e st
  = match findByIdAndUpdate taskSchema (tasks st) (params_id rq)
            (<["updatedAt" := VDate (now e)]> (body rq)) e with
    | Ok (Some d, l) =>
        (Respond {| status := 200;
                    json := Document (Some (populate (users st) "createdBy" display
                                              (populate (users st) "assignedTo" display d))) |},
         setTasks l st)
    | Ok (None, l) => (Respond (errorJson 404 "Task not found"), setTasks l st)
    | Throw _ => (Respond (errorJson 500 "Failed to update task"), st)
    end.
Proof.
  unfold updateTask, tryCatch, mbind, action_bind, writeTasks, await.
  generalize (findByIdAndUpdate taskSchema (tasks st) (params_id rq)
                (<["updatedAt" := VDate (now e)]> (body rq)) e).
  intros [[[d|] l]|err]; reflexivity.
Qed.

Lemma taskSchema_updatedAt :
  lookupPath taskSchema "updatedAt" = Some (withDefault DefaultNow (path TDate)).
Proof. vm_compute. reflexivity. Qed.

Lemma setValue_date `{P : Platform} (p : string) (t : Z) (e : env) :
  setValue (withDefault DefaultNow (path TDate)) p (VDate t) e = Ok (VDate t).
Proof. reflexivity. Qed.




(** *** Task listing *)

Lemma asCount_integer (z : Z) : (0 <= z)%Z -> asCount (Some (z # 1)) = Ok (Z.to_nat z).
Proof.
  intros Hz. unfold asCount.
  rewrite Qcanon.Qred_identity by (cbn [Qnum Qden]; apply Z.gcd_1_r).
  cbn [Qnum Qden]. apply Z.leb_le in Hz. now rewrite Hz.
Qed.

Lemma toNumber_digits `{P : Platform} (s : string) (n : nat) :
  digitsToNumber s = Some n -> toNumber s = Some (Z.of_nat n # 1).
Proof. intros H. unfold toNumber. now rewrite H. Qed.

Lemma In_insertSorted (x y : doc) (l : list doc) :
  In y (insertSorted x l) -> y = x \/ In y l.
Proof.
  induction l as [|z l IH]; simpl; [intuition|].
  destruct (notOlder z x); simpl; intuition.
Qed.

Lemma In_sortNewestFirst (y : doc) (l : list doc) :
  In y (sortNewestFirst l) -> In y l.
Proof.
  induction l as [|x l IH]; simpl; [tauto|].
  intros H. apply In_insertSorted in H as [->|H]; [now left | right; now apply IH].
Qed.

Lemma length_insertSorted (x : doc) (l : list doc) :
  List.length (insertSorted x l) = S (List.length l).
Proof.
  induction l as [|z l IH]; simpl; [reflexivity|].
  destruct (notOlder z x); simpl; now rewrite ?IH.
Qed.

Lemma length_sortNewestFirst (l : list doc) :
  List.length (sortNewestFirst l) = List.length l.
Proof.
  induction l as [|x l IH]; simpl; [reflexivity|].
  now rewrite length_insertSorted, IH.
Qed.

Lemma populate_other (us : list doc) (p q : string) (names : list string) (d : doc) :
  p <> q -> populate us p names d !! q = d !! q.
Proof.
  intros Hne. unfold populate. destruct (d !! p); [|reflexivity].
  now apply lookup_insert_ne.
Qed.

Lemma populateEach_other (us : list doc) (arr key q : string) (names : list string)
    (d : doc) :
  arr <> q -> populateEach us arr key names d !! q = d !! q.
Proof.
  intros Hne. unfold populateEach. destruct (d !! arr) as [[]|]; try reflexivity.
  now apply lookup_insert_ne.
Qed.




Lemma value_eqb_str (v : value) (s : string) :
  value_eqb v (VStr s) = true -> v = VStr s.
Proof.
  destruct v; simpl; try discriminate. intros H. apply String.eqb_eq in H. now subst.
Qed.


Lemma matches_status (s : string) (d : doc) :
  matches (All [Equals "status" (VStr s)]) d = hasStatus s d.
Proof.
  unfold hasStatus. cbn [matches forallb matchesCond].
  destruct (d !! "status"); [apply andb_true_r | reflexivity].
Qed.

Lemma castFilter_status `{P : Platform} (s : string) :
  castFilter taskSchema (All [Equals "status" (VStr s)])
  = Ok (All [Equals "status" (VStr s)]).
Proof. reflexivity. Qed.

Lemma find_status `{P : Platform} (coll : list doc) (s : string) :
  find taskSchema coll (All [Equals "status" (VStr s)])
  = Ok (List.filter (hasStatus s) coll).
Proof.
  unfold find. rewrite castFilter_status. cbn [mbind result_bind]. f_equal.
  induction coll as [|d coll IH]; [reflexivity|].
  cbn [List.filter]. now rewrite matches_status, IH.
Qed.


(** *** The analytics summary *)

(** [toFixed]'s choice of digits: the integer nearest to the scaled value,
    the larger one when two are equally near. *)
Lemma roundHalfUp_nearest (q : Q) :
  (inject_Z (roundHalfUp q) - (1 # 2) <= q < inject_Z (roundHalfUp q) + (1 # 2))%Q.
Proof.
  unfold roundHalfUp.
  pose proof (Qfloor_le (q + (1 # 2))) as Hle.
  pose proof (Qlt_floor (q + (1 # 2))) as Hlt.
  rewrite inject_Z_plus in Hlt. change (inject_Z 1) with 1%Q in Hlt.
  split; lra.
Qed.

Lemma find_all `{P : Platform} (sch : Schema) (coll : list doc) :
  find sch coll (All []) = Ok coll.
Proof.
  unfold find. cbn [castFilter castConds mbind result_bind]. f_equal.
  induction coll as [|d coll IH]; [reflexivity|].
  cbn [List.filter matches forallb]. now rewrite IH.
Qed.

Lemma count_all `{P : Platform} (sch : Schema) (coll : list doc) :
  countDocuments sch coll (All []) = Ok (List.length coll).
Proof. unfold countDocuments. now rewrite find_all. Qed.

Lemma count_task_status `{P : Platform} (coll : list doc) (s : string) :
  countDocuments taskSchema coll (All [Equals "status" (VStr s)])
  = Ok (List.length (List.filter (hasStatus s) coll)).
Proof. unfold countDocuments. now rewrite find_status. Qed.

Lemma castFilter_project_status `{P : Platform} (s : string) :
  castFilter projectSchema (All [Equals "status" (VStr s)])
  = Ok (All [Equals "status" (VStr s)]).
Proof. reflexivity. Qed.

Lemma count_project_status `{P : Platform} (coll : list doc) (s : string) :
  countDocuments projectSchema coll (All [Equals "status" (VStr s)])
  = Ok (List.length (List.filter (hasStatus s) coll)).
Proof.
  unfold countDocuments, find. rewrite castFilter_project_status.
  cbn [mbind result_bind]. do 2 f_equal.
  induction coll as [|d coll IH]; [reflexivity|].
  cbn [List.filter]. now rewrite matches_status, IH.
Qed.

(** GET /api/analytics/dashboard answers 200 with the counts of the store. *)
Lemma dashboard_run `{P : Platform} (rq : request) (e : env) (st : store) :
  let total := List.length (tasks st) in
  let completed := List.length (List.filter (hasStatus "completed") (tasks st)) in
  dashboard rq e st
  = (Respond
       {| status := 200;
          json := Dashboard
                    {| totalTasks := total;
                       completedTasks := completed;
                       totalProjects := List.length (projects st);
                       activeProjects :=
                         List.length (List.filter (hasStatus "active") (projects st));
                       completionRate := completionRateOf completed total |}
                    (groupCount "status" (tasks st))
                    (groupCount "priority" (tasks st))
                    (map (populate (users st) "assignedTo" ["firstName"; "lastName"])
                       (limit 5 (sortNewestFirst (tasks st)))) |}, st).
Proof.
  cbv zeta. unfold dashboard, tryCatch, mbind, action_bind, await.
  rewrite !count_all, count_task_status, count_project_status, find_all.
  reflexivity.
Qed.

(** C4, as the code has it.  The dashboard answers 200 with [totalTasks]
    the number of stored tasks and [completedTasks] the number of those whose
    status is "completed".  With no task, [completionRate] is the number 0.
    Otherwise it is the string [toFixed(1)] makes of the double
    [completedTasks / totalTasks * 100]: when that double is finite with
    value [x], the string writes [n] tenths, [n] being the integer nearest to
    [10 x], the larger one on a tie. *)
Theorem dashboard_completion_rate `{P : Platform} (rq : request) (e : env)
    (st : store) :
  exists s byStatus byPriority recent,
    dashboard rq e st
    = (Respond {| status := 200; json := Dashboard s byStatus byPriority recent |}, st)
    /\ totalTasks s = List.length (tasks st)
    /\ completedTasks s = List.length (List.filter (hasStatus "completed") (tasks st))
    /\ (totalTasks s = 0%nat -> completionRate s = VNum 0)
    /\ ((0 < totalTasks s)%nat ->
          completionRate s
          = VStr (toFixed1 (percentage (completedTasks s) (totalTasks s)))
          /\ forall x,
               toQ (percentage (completedTasks s) (totalTasks s)) = Some x ->
               exists n,
                 completionRate s = VStr (tenthsString n)
                 /\ (inject_Z n - (1 # 2) <= x * 10 < inject_Z n + (1 # 2))%Q).
Proof.
  do 4 eexists. split; [apply dashboard_run|]. cbn [totalTasks completedTasks completionRate].
  split; [reflexivity|]. split; [reflexivity|].
  set (total := List.length (tasks st)).
  set (completed := List.length (List.filter (hasStatus "completed") (tasks st))).
  unfold completionRateOf. fold (percentage completed total). split.
  - intros ->. reflexivity.
  - intros Hpos. apply Nat.ltb_lt in Hpos. rewrite Hpos. split; [reflexivity|].
    intros x Hx. exists (roundHalfUp (x * 10)). unfold toFixed1. rewrite Hx.
    split; [reflexivity | apply roundHalfUp_nearest].
Qed.

(** C4 as stated fails.  With 23 of 80 tasks completed the exact rate is
    28.75, which rounds to 28.8 (ties upward or to even), and the code
    answers "28.7"; with 1 of 16 the exact rate is 6.25, which rounds to 6.2
    when ties go downward, and the code answers "6.3".  So no tie rule makes
    the rounding of the exact quotient agree with the code. *)
Lemma completion_rate_not_exact_rounding :
  completionRateOf 23 80 = VStr "28.7"
  /\ exactRate roundHalfUp 23 80 = "28.8"
  /\ exactRate roundHalfEven 23 80 = "28.8"
  /\ completionRateOf 1 16 = VStr "6.3"
  /\ exactRate roundHalfDown 1 16 = "6.2".
Proof. vm_compute. repeat split; reflexivity. Qed.

(** *** The properties on the scenario *)

Section Run.
#[local] Existing Instance refPlatform.

(** C1 on the scenario: Bob's task, sent with Carol's id as [createdBy],
    is stored with Bob's id. *)
Lemma create_task_creator_witness :
  status (theResponse (protected createTask newTask env3 afterBob))
  = 201%nat
  /\ exists d v,
       convert TObjectId (VStr (userId bobClaims)) = Some v
       /\ tasks withTask = (tasks afterBob ++ [d])%list
       /\ d !! "createdBy" = Some v.
Proof.
  split; [vm_compute; reflexivity|].
  refine (proj2 (create_task_creator newTask env3 afterBob
                   bobToken bobClaims _ _ _)
            (theResponse (protected createTask newTask env3 afterBob))
            withTask _ _).
  - vm_compute; reflexivity.
  - discriminate.
  - vm_compute; reflexivity.
  - vm_compute; reflexivity.
  - vm_compute; reflexivity.
Defined.


(** C3 on the scenario: Bob posts an empty body. *)
Lemma create_task_validation_error_swallowed_witness :
  app createTask (withUser bobClaims (asBob "" [] [])) env3 afterBob
  = (errorJson 500 "Failed to create task", afterBob).
Proof.
  refine (proj1 (create_task_validation_error_swallowed
                   (withUser bobClaims (asBob "" [] [])) env3 afterBob bobClaims _ _)).
  - reflexivity.
  - vm_compute; reflexivity.
Defined.

(** C10 on the scenario: a registration without e-mail. *)
Lemma register_rejects_incomplete_witness :
  exists r,
    register {| reg_username := Some "dave"; reg_email := None;
                reg_password := Some "dave-secret"; reg_firstName := Some "Dave";
                reg_lastName := Some "Brown" |} env3 afterBob
    = (Respond r, afterBob)
    /\ status r = 400%nat.
Proof.
  refine (register_rejects_incomplete _ env3 afterBob _).
  right. left. reflexivity.
Defined.

(** C9 on the scenario: Carol, switched off, logs in with her password. *)
Lemma login_rejects_inactive_witness :
  login {| login_username := Some "carol@example.com";
           login_password := Some "carol-secret" |} env3 carolInactive
  = (Respond (errorJson 401 "Invalid credentials"), carolInactive).
Proof.
  refine (login_rejects_inactive _ env3 carolInactive "carol@example.com" "carol-secret"
            (default ∅ (head (users carolInactive))) _ _ _ _ _ _).
  - reflexivity.
  - discriminate.
  - reflexivity.
  - discriminate.
  - vm_compute; reflexivity.
  - vm_compute; reflexivity.
Defined.

(** C6 on the scenario: Bob's registration. *)
Lemma register_password_not_exposed_witness :
  exists pw token shown d,
    reg_password bob = Some pw
    /\ json (theResponse (register bob env2 afterCarol))
       = Json (VObj [("message", VStr "User created successfully");
                     ("token", VStr token); ("user", VObj shown)])
    /\ map fst shown = ["id"; "username"; "email"; "firstName"; "lastName"; "role"]
    /\ users afterBob = (users afterCarol ++ [d])%list
    /\ d !! "password" = Some (VStr (bcrypt_hash pw 12 (salt env2)))
    /\ (d !! "password" = Some (VStr pw) -> bcrypt_hash pw 12 (salt env2) = pw).
Proof.
  refine (register_password_not_exposed bob env2 afterCarol afterBob
            (theResponse (register bob env2 afterCarol)) _ _).
  - vm_compute; reflexivity.
  - vm_compute; reflexivity.
Defined.





End Run.

(** ** Further properties of the routes *)

(** *** Lists, ids and unique indexes *)


Lemma head_filter_split {A} (f : A -> bool) (l : list A) (x : A) :
  head (List.filter f l) = Some x ->
  exists before after,
    l = (before ++ x :: after)%list /\ f x = true
    /\ (forall y, In y before -> f y = false).
Proof.
  induction l as [|a l IH]; [discriminate|].
  cbn [List.filter]. destruct (f a) eqn:Ha.
  - intros [= ->]. exists [], l. repeat split; [assumption|]. intros y [].
  - intros H. destruct (IH H) as (before & after & -> & Hx & Hb).
    exists (a :: before), after. repeat split; [assumption|].
    intros y [<-|Hy]; [assumption|]. now apply Hb.
Qed.

Lemma head_filter_none {A} (f : A -> bool) (l : list A) :
  head (List.filter f l) = None -> forall y, In y l -> f y = false.
Proof.
  induction l as [|a l IH]; [intros _ y []|].
  cbn [List.filter]. destruct (f a) eqn:Ha; [discriminate|].
  intros H y [<-|Hy]; [assumption|]. now apply IH.
Qed.

Lemma head_filter_last {A} (f : A -> bool) (l : list A) (x : A) :
  (forall y, In y l -> f y = false) -> f x = true ->
  head (List.filter f (l ++ [x])) = Some x.
Proof.
  intros Hl Hx. rewrite List.filter_app, (filter_none _ _ Hl).
  cbn [List.app List.filter]. now rewrite Hx.
Qed.

Lemma filter_ext_eq {A} (f g : A -> bool) (l : list A) :
  (forall x, f x = g x) -> List.filter f l = List.filter g l.
Proof.
  intros H. induction l as [|a l IH]; [reflexivity|].
  cbn [List.filter]. now rewrite H, IH.
Qed.

Lemma filter_length_le {A} (f : A -> bool) (l : list A) :
  (List.length (List.filter f l) <= List.length l)%nat.
Proof.
  induction l as [|a l IH]; [reflexivity|].
  cbn [List.filter]. destruct (f a); cbn [List.length]; lia.
Qed.


Lemma value_eqb_id (v : value) (h : string) :
  value_eqb v (VId h) = true -> v = VId h.
Proof.
  destruct v; cbn [value_eqb]; try discriminate.
  intros H. apply String.eqb_eq in H. now subst.
Qed.

Lemma value_eqb_str_l (s : string) (v : value) :
  value_eqb (VStr s) v = true -> v = VStr s.
Proof.
  destruct v; cbn [value_eqb]; try discriminate.
  intros H. apply String.eqb_eq in H. now subst.
Qed.

Lemma value_eqb_str_refl (s : string) : value_eqb (VStr s) (VStr s) = true.
Proof. cbn [value_eqb]. apply String.eqb_refl. Qed.

(** A document matches [{ _id: ObjectId(h) }] exactly when that is its
    [_id]. *)
Lemma matches_id (d : doc) (h : string) :
  matches (All [Equals "_id" (VId h)]) d = true <-> d !! "_id" = Some (VId h).
Proof.
  unfold matches, forallb, matchesCond. rewrite andb_true_r. split.
  - destruct (d !! "_id") as [v|]; [|discriminate].
    intros H. now rewrite (value_eqb_id _ _ H).
  - intros ->. cbn [value_eqb]. apply String.eqb_refl.
Qed.


Lemma castScalar_objectId `{P : Platform} (s : string) (idv : value) :
  objectIdCast -> castScalar TObjectId "_id" (VStr s) = Ok idv ->
  exists h, idv = VId h.
Proof.
  intros Hlaw. cbn [castScalar].
  destruct (convert TObjectId (VStr s)) as [v|] eqn:Hc; [|discriminate].
  intros [= <-]. now apply (Hlaw (VStr s)).
Qed.

Lemma sameKey_none (k : option value) : sameKey k None = false.
Proof. now destruct k. Qed.


Lemma distinct_later (before after : list (option value)) (k : option value) :
  distinct (before ++ k :: after) = true ->
  forall k', In k' after -> sameKey k k' = false.
Proof.
  induction before as [|a before IH].
  - cbn [List.app distinct]. intros H. apply andb_true_iff in H.
    destruct H as [Hk _]. apply negb_true_iff in Hk. intros k' Hk'.
    destruct (sameKey k k') eqn:Hs; [|reflexivity].
    assert (existsb (sameKey k) after = true) by (apply existsb_exists; eauto).
    congruence.
  - cbn [List.app distinct]. intros H. apply andb_true_iff in H. now apply IH.
Qed.



(** What [save] checked of the unique indexes. *)
Lemma duplicateKey_none (sch : Schema) (coll : list doc) (d : doc) :
  duplicateKey sch coll d = None ->
  forall p f, In (p, f) sch -> unique f = true ->
    existsb (fun d' : doc => sameKey (d' !! p) (d !! p)) coll = false.
Proof.
  induction sch as [|[q g] sch IH]; [intros _ p f []|].
  cbn [duplicateKey]. intros H p f [[= -> ->]|Hin] Hu.
  - rewrite Hu in H. cbn [andb] in H.
    destruct (d !! p) as [v|].
    + destruct (existsb _ coll) eqn:Hex in H; [discriminate|]. exact Hex.
    + clear. induction coll as [|a coll IH]; [reflexivity|].
      cbn [existsb]. now rewrite sameKey_none.
  - destruct (unique g && _); [discriminate|]. now apply (IH H p f).
Qed.

Lemma no_earlier_id (coll : list doc) (d : doc) (h : string) :
  existsb (fun d' : doc => sameKey (d' !! "_id") (d !! "_id")) coll = false ->
  d !! "_id" = Some (VId h) ->
  forall x, In x coll -> matches (All [Equals "_id" (VId h)]) x = false.
Proof.
  intros Hex Hid x Hx.
  destruct (matches (All [Equals "_id" (VId h)]) x) eqn:Hm; [|reflexivity].
  apply matches_id in Hm.
  assert (Hsame : existsb (fun d' : doc => sameKey (d' !! "_id") (d !! "_id")) coll = true).
  { apply existsb_exists. exists x. split; [assumption|].
    rewrite Hm, Hid. cbn [sameKey value_eqb]. apply String.eqb_refl. }
  congruence.
Qed.



Lemma removeById_found (coll : list doc) (id : value) (d : doc) :
  head (List.filter (matches (All [Equals "_id" id])) coll) = Some d ->
  exists before after,
    coll = (before ++ d :: after)%list
    /\ removeById coll id = (Some d, (before ++ after)%list)
    /\ matches (All [Equals "_id" id]) d = true
    /\ (forall x, In x before -> matches (All [Equals "_id" id]) x = false).
Proof.
  induction coll as [|a coll IH]; [discriminate|].
  cbn [List.filter removeById].
  destruct (matches (All [Equals "_id" id]) a) eqn:Ha.
  - intros [= ->]. exists [], coll. repeat apply conj; try reflexivity; [assumption|].
    intros x [].
  - intros H. destruct (IH H) as (before & after & -> & Hrm & Hd & Hb).
    exists (a :: before), after. rewrite Hrm.
    repeat apply conj; try reflexivity; [assumption|].
    intros x [<-|Hx]; [assumption|]. now apply Hb.
Qed.

Lemma removeById_absent (coll : list doc) (id : value) :
  head (List.filter (matches (All [Equals "_id" id])) coll) = None ->
  removeById coll id = (None, coll).
Proof.
  induction coll as [|a coll IH]; [reflexivity|].
  cbn [List.filter removeById].
  destruct (matches (All [Equals "_id" id]) a); [discriminate|].
  intros H. now rewrite (IH H).
Qed.

Lemma taskSchema_id : lookupPath taskSchema "_id" = Some idPath.
Proof. vm_compute. reflexivity. Qed.

Lemma projectSchema_id : lookupPath projectSchema "_id" = Some idPath.
Proof. vm_compute. reflexivity. Qed.

Lemma userSchema_id : lookupPath userSchema "_id" = Some idPath.
Proof. vm_compute. reflexivity. Qed.

Lemma projectSchema_NoDup : NoDup (map fst projectSchema).
Proof. apply (bool_decide_unpack _). vm_compute. exact I. Qed.

(** [findById] casts the id and returns the first document that has it. *)
Lemma findById_cast `{P : Platform} (sch : Schema) (coll : list doc) (id : value) :
  lookupPath sch "_id" = Some idPath ->
  findById sch coll id
  = match castScalar TObjectId "_id" id with
    | Ok idv => Ok (head (List.filter (matches (All [Equals "_id" idv])) coll))
    | Throw err => Throw err
    end.
Proof.
  intros Hpath. unfold findById, findOne, find, castFilter, castConds, castCond.
  rewrite Hpath. cbn [ftype idPath uniq withDefault path].
  unfold mbind, result_bind.
  destruct (castScalar TObjectId "_id" id) as [idv|err]; [|reflexivity].
  now rewrite applySetters_plain by reflexivity.
Qed.

Lemma validDoc_spec (sch : Schema) (d : doc) :
  validDoc sch d = true
  <-> forall p f, In (p, f) sch -> validatePath f (d !! p) = None.
Proof.
  unfold validDoc. rewrite forallb_forall. split.
  - intros H p f Hin. specialize (H (p, f) Hin). cbn [fst snd] in H.
    now destruct (validatePath f (d !! p)).
  - intros H [p f] Hin. cbn [fst snd]. now rewrite (H p f Hin).
Qed.

Lemma validate_validDoc (sch : Schema) (i : instance) :
  validate sch i = [] -> validDoc sch (fields i) = true.
Proof.
  intros Hvalid. apply validDoc_spec. intros p f Hin.
  now destruct (validate_nil sch i Hvalid p f Hin).
Qed.

Lemma save_valid `{P : Platform} (sch : Schema) (coll l : list doc) (i : instance) :
  save sch coll i = Ok l ->
  l = (coll ++ [fields i])%list /\ validate sch i = [] /\ validDoc sch (fields i) = true.
Proof.
  intros H. apply save_ok in H. destruct H as (-> & Hvalid & _).
  repeat apply conj; try assumption || reflexivity. now apply validate_validDoc.
Qed.

(** A document built without an [_id] in its data and saved: it is the
    last of the collection, its [_id] is the generated one, no document
    stored before has this id, and it is the document that [findById] then
    returns. *)
Lemma save_fresh `{P : Platform} (sch : Schema) (coll l : list doc) (data : doc)
    (e : env) :
  NoDup (map fst sch) -> lookupPath sch "_id" = Some idPath ->
  data !! "_id" = None ->
  save sch coll (construct sch data e) = Ok l ->
  let d := fields (construct sch data e) in
  l = (coll ++ [d])%list
  /\ d !! "_id" = Some (VId (freshId e))
  /\ (forall x, In x coll -> matches (All [Equals "_id" (VId (freshId e))]) x = false)
  /\ findById sch l (default VNull (d !! "_id")) = Ok (Some d)
  /\ validDoc sch d = true.
Proof.
  intros Hnodup Hpath Hdata Hsave d.
  apply save_ok in Hsave. destruct Hsave as (-> & Hvalid & Hdup).
  assert (Hid : d !! "_id" = Some (VId (freshId e))).
  { unfold d. rewrite (construct_path sch data e "_id" idPath Hnodup Hpath), Hdata.
    reflexivity. }
  assert (Hold : forall x, In x coll ->
                   matches (All [Equals "_id" (VId (freshId e))]) x = false).
  { apply (no_earlier_id coll d); [|assumption].
    apply (duplicateKey_none sch coll d Hdup "_id" idPath);
      [now apply lookupPath_In | reflexivity]. }
  repeat apply conj; try assumption || reflexivity.
  - rewrite Hid. cbn [default from_option id].
    rewrite (findById_cast sch _ _ Hpath). cbn [castScalar].
    rewrite head_filter_last; [reflexivity|assumption|]. now apply matches_id.
  - now apply validate_validDoc.
Qed.

(** The [_id] of a constructed document is an ObjectId or [null]: it casts
    to itself when [findById] looks it up. *)
Lemma construct_id_casts `{P : Platform} (sch : Schema) (data : doc) (e : env) :
  objectIdCast -> NoDup (map fst sch) -> lookupPath sch "_id" = Some idPath ->
  exists idv,
    castScalar TObjectId "_id" (default VNull (fields (construct sch data e) !! "_id"))
    = Ok idv.
Proof.
  intros Hlaw Hnodup Hpath.
  rewrite (construct_path sch data e "_id" idPath Hnodup Hpath).
  destruct (data !! "_id") as [v|]; [|cbn; eauto].
  unfold setValue. cbn [ftype idPath uniq withDefault path].
  assert (Hcast : castValue TObjectId "_id" v e = castScalar TObjectId "_id" v).
  { now destruct v. }
  rewrite Hcast.
  destruct v; cbn [castScalar mbind result_bind applySetters default from_option id];
    eauto;
    match goal with
    | |- context [convert TObjectId ?v] =>
        destruct (convert TObjectId v) as [v'|] eqn:Hc;
        [destruct (Hlaw _ _ Hc) as [h ->]|]; cbn; eauto
    end.
Qed.



(** *** Sorting *)

Lemma string_leb_trans (a b c : string) :
  String.leb a b = true -> String.leb b c = true -> String.leb a c = true.
Proof.
  unfold String.leb. revert b c.
  induction a as [|x a IH]; intros [|y b] [|z c]; cbn [String.compare];
    try reflexivity; try discriminate.
  unfold Ascii.compare.
  destruct (N.compare_spec (N_of_ascii x) (N_of_ascii y)) as [Hxy|Hxy|Hxy];
    destruct (N.compare_spec (N_of_ascii y) (N_of_ascii z)) as [Hyz|Hyz|Hyz];
    try discriminate; intros H1 H2.
  - rewrite Hxy, Hyz, N.compare_refl. now apply (IH b c).
  - rewrite Hxy. now rewrite (proj2 (N.compare_lt_iff _ _) Hyz).
  - rewrite <- Hyz. now rewrite (proj2 (N.compare_lt_iff _ _) Hxy).
  - now rewrite (proj2 (N.compare_lt_iff _ _) (N.lt_trans _ _ _ Hxy Hyz)).
Qed.

Lemma notAfter_total (key : string) (a b : doc) :
  notAfter key a b = false -> notAfter key b a = true.
Proof.
  unfold notAfter. destruct (stringAt key a) as [x|], (stringAt key b) as [y|];
    try reflexivity; try discriminate.
  intros H. destruct (String.leb_total x y); congruence.
Qed.

Lemma notAfter_trans (key : string) (a b c : doc) :
  notAfter key a b = true -> notAfter key b c = true -> notAfter key a c = true.
Proof.
  unfold notAfter. destruct (stringAt key a) as [x|], (stringAt key b) as [y|],
    (stringAt key c) as [z|]; try reflexivity; try discriminate.
  apply string_leb_trans.
Qed.

Lemma notOlder_total (a b : doc) : notOlder a b = false -> notOlder b a = true.
Proof.
  unfold notOlder. destruct (createdAt a) as [x|], (createdAt b) as [y|];
    try reflexivity; try discriminate.
  intros H. apply Z.leb_gt in H. apply Z.leb_le. lia.
Qed.

Lemma notOlder_trans (a b c : doc) :
  notOlder a b = true -> notOlder b c = true -> notOlder a c = true.
Proof.
  unfold notOlder. destruct (createdAt a) as [x|], (createdAt b) as [y|],
    (createdAt c) as [z|]; try reflexivity; try discriminate.
  intros H1 H2. apply Z.leb_le in H1, H2. apply Z.leb_le. lia.
Qed.

Section Sorting.
Variable le : doc -> doc -> bool.
Hypothesis le_total : forall a b, le a b = false -> le b a = true.
Hypothesis le_trans : forall a b c, le a b = true -> le b c = true -> le a c = true.

Lemma insertBy_perm (x : doc) (l : list doc) : Permutation (x :: l) (insertBy le x l).
Proof.
  induction l as [|y l IH]; cbn [insertBy]; [reflexivity|].
  destruct (le x y); [reflexivity|].
  rewrite perm_swap. now apply perm_skip.
Qed.

Lemma sortBy_perm (l : list doc) : Permutation l (sortBy le l).
Proof.
  induction l as [|x l IH]; cbn [sortBy]; [reflexivity|].
  rewrite <- insertBy_perm. now apply perm_skip.
Qed.

Lemma insertBy_sorted (x : doc) (l : list doc) :
  StronglySorted (fun a b => le a b = true) l ->
  StronglySorted (fun a b => le a b = true) (insertBy le x l).
Proof.
  induction l as [|y l IH]; cbn [insertBy]; intros Hs.
  - repeat constructor.
  - apply StronglySorted_inv in Hs. destruct Hs as [Hl Hy].
    destruct (le x y) eqn:Hxy.
    + constructor; [now constructor|]. constructor; [assumption|].
      eapply List.Forall_impl; [|exact Hy]. intros z Hz. now apply (le_trans x y z).
    + constructor; [now apply IH|].
      rewrite <- insertBy_perm. constructor; [now apply le_total | assumption].
Qed.

Lemma sortBy_sorted (l : list doc) :
  StronglySorted (fun a b => le a b = true) (sortBy le l).
Proof.
  induction l as [|x l IH]; cbn [sortBy]; [constructor|]. now apply insertBy_sorted.
Qed.

End Sorting.

Lemma insertSorted_perm (x : doc) (l : list doc) :
  Permutation (x :: l) (insertSorted x l).
Proof.
  induction l as [|y l IH]; cbn [insertSorted]; [reflexivity|].
  destruct (notOlder y x); [|reflexivity].
  rewrite perm_swap. now apply perm_skip.
Qed.

Lemma sortNewestFirst_perm (l : list doc) : Permutation l (sortNewestFirst l).
Proof.
  induction l as [|x l IH]; cbn [sortNewestFirst]; [reflexivity|].
  rewrite <- insertSorted_perm. now apply perm_skip.
Qed.

Lemma insertSorted_sorted (x : doc) (l : list doc) :
  StronglySorted newerFirst l -> StronglySorted newerFirst (insertSorted x l).
Proof.
  induction l as [|y l IH]; cbn [insertSorted]; intros Hs.
  - repeat constructor.
  - apply StronglySorted_inv in Hs. destruct Hs as [Hl Hy].
    destruct (notOlder y x) eqn:Hyx.
    + constructor; [now apply IH|].
      rewrite <- insertSorted_perm. now constructor.
    + constructor; [now constructor|]. constructor; [now apply notOlder_total|].
      eapply List.Forall_impl; [|exact Hy]. intros z Hz.
      apply (notOlder_trans x y z); [now apply notOlder_total | exact Hz].
Qed.

Lemma sortNewestFirst_sorted (l : list doc) :
  StronglySorted newerFirst (sortNewestFirst l).
Proof.
  induction l as [|x l IH]; cbn [sortNewestFirst]; [constructor|].
  now apply insertSorted_sorted.
Qed.

Lemma StronglySorted_skipn {A} (R : A -> A -> Prop) (n : nat) (l : list A) :
  StronglySorted R l -> StronglySorted R (skipn n l).
Proof.
  revert l. induction n as [|n IH]; intros [|x l] Hs; cbn [skipn]; try assumption.
  apply IH. now apply StronglySorted_inv in Hs.
Qed.

Lemma StronglySorted_firstn {A} (R : A -> A -> Prop) (n : nat) (l : list A) :
  StronglySorted R l -> StronglySorted R (firstn n l).
Proof.
  revert l. induction n as [|n IH]; intros [|x l] Hs; cbn [firstn]; try constructor.
  - apply IH. now apply StronglySorted_inv in Hs.
  - apply StronglySorted_inv in Hs. destruct Hs as [_ Hx].
    apply List.Forall_forall. intros y Hy.
    rewrite List.Forall_forall in Hx. apply Hx.
    rewrite <- (firstn_skipn n l). apply in_or_app. now left.
Qed.

Lemma StronglySorted_limit (R : doc -> doc -> Prop) (n : nat) (l : list doc) :
  StronglySorted R l -> StronglySorted R (limit n l).
Proof. destruct n; [trivial|]. apply StronglySorted_firstn. Qed.

Lemma StronglySorted_map {A B} (f : A -> B) (R : A -> A -> Prop) (S : B -> B -> Prop)
    (l : list A) :
  (forall a b, R a b -> S (f a) (f b)) ->
  StronglySorted R l -> StronglySorted S (map f l).
Proof.
  intros Hf. induction 1 as [|x l Hl IH Hx]; cbn [map]; constructor; [assumption|].
  apply List.Forall_forall. intros y Hy. apply in_map_iff in Hy.
  destruct Hy as (z & <- & Hz). apply Hf. rewrite List.Forall_forall in Hx. now apply Hx.
Qed.

Lemma populateAll_other (us : list doc) (p q : string) (names : list string) (d : doc) :
  p <> q -> populateAll us p names d !! q = d !! q.
Proof.
  intros Hne. unfold populateAll. destruct (d !! p) as [[]|];
    try reflexivity; now rewrite lookup_insert_ne.
Qed.

Lemma createdAt_expandedProject (us : list doc) (d : doc) :
  createdAt (expandedProject us d) = createdAt d.
Proof.
  unfold createdAt, expandedProject.
  now rewrite populateAll_other, populate_other by discriminate.
Qed.

Lemma createdAt_expanded (us : list doc) (d : doc) :
  createdAt (expanded us d) = createdAt d.
Proof.
  unfold createdAt, expanded.
  now rewrite populateEach_other, !populate_other by discriminate.
Qed.

(** *** Registration *)

Lemma castFilter_register `{P : Platform} (username email : string) :
  castFilter userSchema
    (Any [Equals "email" (VStr email); Equals "username" (VStr username)])
  = Ok (registerFilter username email).
Proof. vm_compute. reflexivity. Qed.







Lemma register_missing `{P : Platform} (b : registerBody) (e : env) (st : store) :
  negb (truthyStr (reg_username b)) || negb (truthyStr (reg_email b))
  || negb (truthyStr (reg_password b)) || negb (truthyStr (reg_firstName b))
  || negb (truthyStr (reg_lastName b)) = true ->
  register b e st = (Respond (errorJson 400 "All fields are required"), st).
Proof. intros H. unfold register, tryCatch. now rewrite H. Qed.

Lemma register_complete (b : registerBody) :
  negb (truthyStr (reg_username b)) || negb (truthyStr (reg_email b))
  || negb (truthyStr (reg_password b)) || negb (truthyStr (reg_firstName b))
  || negb (truthyStr (reg_lastName b)) = false ->
  exists username email password firstName lastName,
    b = {| reg_username := Some username; reg_email := Some email;
           reg_password := Some password; reg_firstName := Some firstName;
           reg_lastName := Some lastName |}
    /\ username <> "" /\ email <> "" /\ password <> "" /\ firstName <> ""
    /\ lastName <> "".
Proof.
  intros Hmissing.
  repeat (apply orb_false_elim in Hmissing; destruct Hmissing as [Hmissing ?]).
  repeat match goal with
         | H : negb (truthyStr _) = false |- _ =>
             apply negb_false_iff, truthyStr_true in H; destruct H as (? & H & ?)
         end.
  destruct b as [bu be bp bf bl]. cbn [reg_username reg_email reg_password
    reg_firstName reg_lastName] in *. subst bu be bp bf bl.
  do 5 eexists. repeat apply conj; try reflexivity; assumption.
Qed.

Lemma register_short `{P : Platform} (username email password firstName lastName : string)
    (e : env) (st : store) :
  username <> "" -> email <> "" -> password <> "" -> firstName <> "" ->
  lastName <> "" -> (String.length password < 6)%nat ->
  register {| reg_username := Some username; reg_email := Some email;
              reg_password := Some password; reg_firstName := Some firstName;
              reg_lastName := Some lastName |} e st
  = (Respond (errorJson 400 "Password must be at least 6 characters"), st).
Proof.
  intros Hu He Hp Hf Hl Hlen. unfold register, tryCatch.
  cbn [reg_username reg_email reg_password reg_firstName reg_lastName].
  rewrite !truthyStr_some by assumption.
  step. apply Nat.ltb_lt in Hlen. now rewrite Hlen.
Qed.

(** A registration whose five fields are filled in and whose password has
    six characters or more: the lookup, then the insertion. *)
Lemma register_run `{P : Platform} (username email password firstName lastName : string)
    (e : env) (st : store) :
  username <> "" -> email <> "" -> password <> "" -> firstName <> "" ->
  lastName <> "" -> (6 <= String.length password)%nat ->
  let d := newUser username email (bcrypt_hash password 12 (salt e))
             firstName lastName e in
  register {| reg_username := Some username; reg_email := Some email;
              reg_password := Some password; reg_firstName := Some firstName;
              reg_lastName := Some lastName |} e st
  = match head (List.filter (matches (registerFilter username email)) (users st)) with
    | Some _ => (Respond (errorJson 400 "User already exists"), st)
    | None =>
        match save userSchema (users st) {| fields := d; castErrors := [] |} with
        | Ok l => (Respond (registerAnswer username email firstName lastName e),
                   setUsers l st)
        | Throw _ => (Respond (errorJson 500 "Registration failed"), st)
        end
    end.
Proof.
  intros Hu He Hp Hf Hl Hlen d.
  unfold register, tryCatch.
  cbn [reg_username reg_email reg_password reg_firstName reg_lastName].
  rewrite !truthyStr_some by assumption.
  step.
  destruct (String.length password <? 6)%nat eqn:Hshort.
  { apply Nat.ltb_lt in Hshort. lia. }
  unfold mbind, action_bind, await, findOne, find.
  rewrite castFilter_register.
  unfold mbind, result_bind.
  destruct (head (List.filter (matches (registerFilter username email)) (users st))).
  { reflexivity. }
  rewrite construct_user. unfold writeUsers.
  fold d.
  destruct (save userSchema (users st) {| fields := d; castErrors := [] |}).
  2:{ reflexivity. }
  cbn [fields]. unfold d, registerAnswer.
  rewrite claimsOf_newUser, publicUser_newUser. reflexivity.
Qed.

(** The five ways a registration ends. *)
Lemma register_cases `{P : Platform} (b : registerBody) (e : env) (st : store) :
  register b e st = (Respond (errorJson 400 "All fields are required"), st)
  \/ register b e st
     = (Respond (errorJson 400 "Password must be at least 6 characters"), st)
  \/ register b e st = (Respond (errorJson 400 "User already exists"), st)
  \/ register b e st = (Respond (errorJson 500 "Registration failed"), st)
  \/ exists username email password firstName lastName,
       let d := newUser username email (bcrypt_hash password 12 (salt e))
                  firstName lastName e in
       b = {| reg_username := Some username; reg_email := Some email;
              reg_password := Some password; reg_firstName := Some firstName;
              reg_lastName := Some lastName |}
       /\ (username <> "" /\ email <> "" /\ password <> "")
       /\ (forall x, In x (users st) ->
             matches (registerFilter username email) x = false)
       /\ save userSchema (users st) {| fields := d; castErrors := [] |}
          = Ok (users st ++ [d])%list
       /\ register b e st
          = (Respond (registerAnswer username email firstName lastName e),
             setUsers (users st ++ [d])%list st).
Proof.
  destruct (negb (truthyStr (reg_username b)) || negb (truthyStr (reg_email b))
            || negb (truthyStr (reg_password b)) || negb (truthyStr (reg_firstName b))
            || negb (truthyStr (reg_lastName b))) eqn:Hmissing.
  { left. now apply register_missing. }
  destruct (register_complete b Hmissing)
    as (username & email & password & firstName & lastName & -> & Hu & He & Hp & Hf & Hl).
  destruct (Nat.lt_ge_cases (String.length password) 6) as [Hlen|Hlen].
  { right. left. now apply register_short. }
  rewrite register_run by assumption. cbv zeta.
  destruct (head (List.filter (matches (registerFilter username email)) (users st)))
    eqn:Hhead.
  { right. right. left. reflexivity. }
  destruct (save userSchema (users st) _) as [l|err] eqn:Hsave.
  2:{ right. right. right. left. reflexivity. }
  right. right. right. right.
  exists username, email, password, firstName, lastName. cbv zeta.
  pose proof (save_ok _ _ _ _ Hsave) as (Hl' & _ & _). cbn [fields] in Hl'. subst l.
  repeat apply conj; try assumption || reflexivity.
  now apply head_filter_none.
Qed.




(** *** Login *)

Lemma login_missing `{P : Platform} (b : loginBody) (e : env) (st : store) :
  negb (truthyStr (login_username b)) || negb (truthyStr (login_password b)) = true ->
  login b e st = (Respond (errorJson 400 "Username and password required"), st).
Proof. intros H. unfold login, tryCatch. now rewrite H. Qed.

(** A login with both fields filled in: the lookup, the three refusals,
    then the update of [lastLogin]. *)
Lemma login_run `{P : Platform} (name pw : string) (e : env) (st : store) :
  name <> "" -> pw <> "" ->
  login {| login_username := Some name; login_password := Some pw |} e st
  = match head (List.filter (matches (loginFilter name)) (users st)) with
    | None => (Respond (errorJson 401 "Invalid credentials"), st)
    | Some u =>
        if negb (truthy (isActive u))
        then (Respond (errorJson 401 "Invalid credentials"), st)
        else match u !! "password" with
             | Some (VStr hash) =>
                 if negb (bcrypt_compare pw hash)
                 then (Respond (errorJson 401 "Invalid credentials"), st)
                 else
                   let u' := <["lastLogin" := VDate (now e)]> u in
                   match saveLoaded userSchema (users st) ["lastLogin"] u' with
                   | Ok l => (Respond (loginAnswer u' e), setUsers l st)
                   | Throw _ => (Respond (errorJson 500 "Login failed"), st)
                   end
             | _ => (Respond (errorJson 500 "Login failed"), st)
             end
    end.
Proof.
  intros Hn Hp. unfold login, tryCatch.
  cbn [login_username login_password].
  rewrite !truthyStr_some by assumption.
  step. unfold mbind, action_bind, await, findOne, find.
  rewrite castFilter_login. unfold mbind, result_bind.
  destruct (head (List.filter (matches (loginFilter name)) (users st))) as [u|];
    [|reflexivity].
  destruct (truthy (isActive u)); [|reflexivity].
  step.
  destruct (u !! "password") as [[| | |hash| | | |]|]; try reflexivity.
  destruct (bcrypt_compare pw hash); [|reflexivity].
  step. unfold writeUsers.
  destruct (saveLoaded userSchema (users st) ["lastLogin"]
              (<["lastLogin" := VDate (now e)]> u)); reflexivity.
Qed.

(** A login answered 200, taken apart. *)
Lemma login_ok `{P : Platform} (b : loginBody) (e : env) (st st' : store)
    (r : response) :
  login b e st = (Respond r, st') -> status r = 200%nat ->
  exists name pw u hash l,
    b = {| login_username := Some name; login_password := Some pw |}
    /\ name <> "" /\ pw <> ""
    /\ head (List.filter (matches (loginFilter name)) (users st)) = Some u
    /\ truthy (isActive u) = true
    /\ u !! "password" = Some (VStr hash)
    /\ bcrypt_compare pw hash = true
    /\ saveLoaded userSchema (users st) ["lastLogin"]
         (<["lastLogin" := VDate (now e)]> u) = Ok l
    /\ r = loginAnswer (<["lastLogin" := VDate (now e)]> u) e
    /\ st' = setUsers l st.
Proof.
  intros Hrun Hstatus.
  assert (Hm : negb (truthyStr (login_username b))
               || negb (truthyStr (login_password b)) = false).
  { destruct (negb (truthyStr (login_username b))
              || negb (truthyStr (login_password b))) eqn:Hm; [|reflexivity].
    exfalso. rewrite (login_missing b e st Hm) in Hrun.
    injection Hrun as Hr _. rewrite <- Hr in Hstatus. discriminate Hstatus. }
  apply orb_false_elim in Hm. destruct Hm as [Hn Hp].
  apply negb_false_iff, truthyStr_true in Hn, Hp.
  destruct Hn as (name & Hbn & Hn). destruct Hp as (pw & Hbp & Hp).
  destruct b as [bn bp]. cbn [login_username login_password] in Hbn, Hbp.
  subst bn bp.
  revert Hrun Hstatus. rewrite login_run by assumption.
  destruct (head (List.filter (matches (loginFilter name)) (users st))) as [u|] eqn:Hfind;
    [|reject].
  destruct (truthy (isActive u)) eqn:Hact; [|reject].
  cbn [negb].
  destruct (u !! "password") as [[| | |hash| | | |]|] eqn:Hpw; try reject.
  destruct (bcrypt_compare pw hash) eqn:Hcmp; [|reject].
  cbn [negb]. cbv zeta.
  destruct (saveLoaded userSchema (users st) ["lastLogin"]
              (<["lastLogin" := VDate (now e)]> u)) as [l|err] eqn:Hsave; [|reject].
  intros Hrun _. injection Hrun as <- <-.
  exists name, pw, u, hash, l. repeat apply conj; assumption || reflexivity.
Qed.

Lemma props_keys (l : list (string * option value)) :
  incl (map fst (props l)) (map fst l).
Proof.
  induction l as [|[k [v|]] l IH]; cbn [props map fst].
  - apply incl_refl.
  - apply incl_cons; [now left|]. now apply incl_tl.
  - now apply incl_tl.
Qed.

Lemma claimsOf_lastLogin (u : doc) (v : value) :
  claimsOf (<["lastLogin" := v]> u) = claimsOf u.
Proof. unfold claimsOf. now rewrite !lookup_insert_ne by discriminate. Qed.



(** X5.  The answer of a login answered 200 holds a message, a token and a
    user object.  The token is signed for the [_id] and the user name of a
    stored user; the user object has no other keys than id, username, email,
    firstName, lastName, role and lastLogin, so it has no password. *)
Theorem login_answer_public `{P : Platform} (b : loginBody) (e : env)
    (st st' : store) (r : response) :
  login b e st = (Respond r, st') -> status r = 200%nat ->
  exists u token shown,
    In u (users st)
    /\ json r = Json (VObj [("message", VStr "Login successful");
                            ("token", VStr token); ("user", VObj shown)])
    /\ token = jwt_sign (claimsOf u) JWT_SECRET (now e)
    /\ incl (map fst shown)
         ["id"; "username"; "email"; "firstName"; "lastName"; "role"; "lastLogin"]
    /\ ~ In "password" (map fst shown).
Proof.
  intros Hrun Hstatus.
  destruct (login_ok b e st st' r Hrun Hstatus)
    as (name & pw & u & hash & l & _ & _ & _ & Hfind & _ & _ & _ & _ & -> & _).
  apply head_filter_split in Hfind.
  destruct Hfind as (before & after & Hcoll & _ & _).
  set (u' := <["lastLogin" := VDate (now e)]> u).
  exists u, (jwt_sign (claimsOf u') JWT_SECRET (now e)),
    (props [("id", u' !! "_id"); ("username", u' !! "username");
            ("email", u' !! "email"); ("firstName", u' !! "firstName");
            ("lastName", u' !! "lastName"); ("role", u' !! "role");
            ("lastLogin", u' !! "lastLogin")]).
  assert (Hkeys : incl (map fst (props [("id", u' !! "_id"); ("username", u' !! "username");
            ("email", u' !! "email"); ("firstName", u' !! "firstName");
            ("lastName", u' !! "lastName"); ("role", u' !! "role");
            ("lastLogin", u' !! "lastLogin")]))
         ["id"; "username"; "email"; "firstName"; "lastName"; "role"; "lastLogin"]).
  { apply (props_keys [("id", u' !! "_id"); ("username", u' !! "username");
            ("email", u' !! "email"); ("firstName", u' !! "firstName");
            ("lastName", u' !! "lastName"); ("role", u' !! "role");
            ("lastLogin", u' !! "lastLogin")]). }
  repeat apply conj.
  - rewrite Hcoll. apply in_or_app. right. now left.
  - reflexivity.
  - unfold u'. now rewrite claimsOf_lastLogin.
  - exact Hkeys.
  - intros Hin. apply Hkeys in Hin. cbn [In] in Hin.
    repeat (destruct Hin as [Hin|Hin]; [discriminate Hin|]). exact Hin.
Qed.


(** *** The token on its way from the client to a handler *)

Lemma split_noBlank (s : string) : noBlank s = true -> split " " s = [s].
Proof.
  induction s as [|c s IH]; [reflexivity|].
  cbn [noBlank split]. intros H. apply andb_true_iff in H. destruct H as [Hc Hs].
  apply negb_true_iff in Hc. rewrite Hc, (IH Hs). reflexivity.
Qed.

Lemma split_scheme (scheme t : string) :
  noBlank scheme = true -> split " " (scheme ++ String " " t) = scheme :: split " " t.
Proof.
  induction scheme as [|c scheme IH]; [reflexivity|].
  cbn [noBlank]. intros H. apply andb_true_iff in H. destruct H as [Hc Hs].
  apply negb_true_iff in Hc.
  change (String c scheme ++ String " " t) with (String c (scheme ++ String " " t)).
  cbn [split]. rewrite Hc, (IH Hs). reflexivity.
Qed.

Lemma bearerToken_call (t pid : string) (q : gmap string string) (b : gmap string value) :
  t <> "" -> noBlank t = true -> bearerToken (call (Some t) pid q b) = Some t.
Proof.
  intros Hne Hblank. unfold bearerToken, call, authorizationHeader.
  cbn [authorization]. rewrite (truthyStr_some _ Hne).
  cbn [default from_option id authorization].
  change (truthyStr (Some ("Bearer " ++ t))) with true. cbv iota.
  change (split " " ("Bearer " ++ t)) with ("Bearer" :: split " " t).
  now rewrite (split_noBlank _ Hblank).
Qed.

(** X7.  The middleware does not look at the scheme of the authorization
    header: whatever word stands before the blank, the token is what
    follows it, and when that token verifies the handler runs with its
    claims. *)
Theorem scheme_not_checked `{P : Platform} (h : handler) (rq : request) (e : env)
    (st : store) (scheme t : string) (u : claims) :
  authorization rq = Some (scheme ++ String " " t) ->
  noBlank scheme = true -> noBlank t = true -> t <> "" ->
  jwt_verify t JWT_SECRET (now e) = Some u ->
  bearerToken rq = Some t
  /\ protected h rq e st = h (withUser u rq) e st.
Proof.
  intros Hauth Hscheme Ht Hne Hverify.
  assert (Htok : bearerToken rq = Some t).
  { unfold bearerToken. rewrite Hauth.
    rewrite truthyStr_some by (now destruct scheme).
    now rewrite (split_scheme _ _ Hscheme), (split_noBlank _ Ht). }
  split; [assumption|]. now apply (protected_authenticated h rq e st t u).
Qed.

(** X8.  A call of the client that holds a non-empty token without a blank
    reaches the handler of a protected route with the claims the token
    verifies to: the header the client writes is the header the middleware
    reads.  A call of a client that holds no token, or an empty one, is
    answered 401. *)
Theorem client_token_accepted `{P : Platform} (h : handler) (t pid : string)
    (q : gmap string string) (b : gmap string value) (e : env) (st : store)
    (u : claims) :
  t <> "" -> noBlank t = true -> jwt_verify t JWT_SECRET (now e) = Some u ->
  protected h (call (Some t) pid q b) e st = h (withUser u (call (Some t) pid q b)) e st
  /\ protected h (call None pid q b) e st
     = (Respond (errorJson 401 "Access token required"), st)
  /\ protected h (call (Some "") pid q b) e st
     = (Respond (errorJson 401 "Access token required"), st).
Proof.
  intros Hne Hblank Hverify. repeat apply conj.
  - apply (protected_authenticated h _ e st t u); [|assumption|assumption].
    now apply bearerToken_call.
  - unfold protected. now rewrite authenticateToken_none.
  - unfold protected. now rewrite authenticateToken_none.
Qed.

(** *** Users *)

Lemma exclude_lookup (p q : string) (d : doc) :
  exclude p d !! q = if String.eqb p q then None else d !! q.
Proof.
  unfold exclude. destruct (String.eqb_spec p q) as [->|Hne].
  - apply lookup_delete_eq.
  - now apply lookup_delete_ne.
Qed.

Lemma docJson_keys (d : doc) (k : string) :
  In k (keysOf (docJson d)) <-> is_Some (d !! k).
Proof.
  unfold docJson, keysOf. rewrite in_map_iff. split.
  - intros ([k' v] & <- & Hin). apply list_elem_of_In in Hin.
    apply elem_of_map_to_list in Hin. cbn [fst]. now exists v.
  - intros [v Hv]. exists (k, v). split; [reflexivity|].
    apply list_elem_of_In. now apply elem_of_map_to_list.
Qed.

Lemma getProfile_run `{P : Platform} (rq : request) (e : env) (st : store) :
  getProfile rq e st
  = match user rq with
    | None => (Respond (errorJson 500 "Failed to fetch profile"), st)
    | Some u =>
        match castScalar TObjectId "_id" (VStr (userId u)) with
        | Ok idv =>
            match head (List.filter (matches (All [Equals "_id" idv])) (users st)) with
            | Some d =>
                (Respond {| status := 200;
                            json := Document (Some (exclude "password" d)) |}, st)
            | None => (Respond (errorJson 404 "User not found"), st)
            end
        | Throw _ => (Respond (errorJson 500 "Failed to fetch profile"), st)
        end
    end.
Proof.
  unfold getProfile, tryCatch. destruct (user rq) as [u|]; [|reflexivity].
  unfold mbind, action_bind, await. rewrite (findById_cast _ _ _ userSchema_id).
  destruct (castScalar TObjectId "_id" (VStr (userId u))) as [idv|err]; [|reflexivity].
  destruct (head (List.filter (matches (All [Equals "_id" idv])) (users st)));
    reflexivity.
Qed.


(** X10.  GET /api/users/profile never changes the store.  When it answers
    200, the document it returns is a stored user whose [_id] is the one
    the token's [userId] casts to, without its [password] and otherwise
    unchanged; when no stored user has that id it answers 404. *)
Theorem profile_outcome `{P : Platform} (rq : request) (e : env) (st st' : store)
    (r : response) :
  getProfile rq e st = (Respond r, st') ->
  st' = st
  /\ (status r = 200%nat ->
        exists u idv d shown,
          user rq = Some u
          /\ castScalar TObjectId "_id" (VStr (userId u)) = Ok idv
          /\ In d (users st)
          /\ matches (All [Equals "_id" idv]) d = true
          /\ json r = Document (Some shown)
          /\ shown !! "password" = None
          /\ (forall p, p <> "password" -> shown !! p = d !! p))
  /\ (forall u idv,
        user rq = Some u ->
        castScalar TObjectId "_id" (VStr (userId u)) = Ok idv ->
        (forall d, In d (users st) -> matches (All [Equals "_id" idv]) d = false) ->
        r = errorJson 404 "User not found").
Proof.
  rewrite getProfile_run.
  destruct (user rq) as [u|].
  2:{ intros [= <- <-]. repeat apply conj;
       [reflexivity|intros H; discriminate H|intros ? ? H; discriminate H]. }
  destruct (castScalar TObjectId "_id" (VStr (userId u))) as [idv|err] eqn:Hcast.
  2:{ intros [= <- <-]. repeat apply conj;
       [reflexivity|intros H; discriminate H|intros ? ? [= <-] H; congruence]. }
  destruct (head (List.filter (matches (All [Equals "_id" idv])) (users st)))
    as [d|] eqn:Hhead.
  - destruct (head_filter_split _ _ _ Hhead) as (before & after & Hcoll & Hd & _).
    intros [= <- <-]. repeat apply conj; [reflexivity| |].
    + intros _. exists u, idv, d, (exclude "password" d).
      repeat apply conj; try assumption || reflexivity.
      * rewrite Hcoll. apply in_or_app. right. now left.
      * now rewrite exclude_lookup.
      * intros p Hp. rewrite exclude_lookup.
        destruct (String.eqb_spec "password" p); congruence.
    + intros u' idv' [= <-] Hcast' Hnone.
      rewrite Hcast in Hcast'. injection Hcast' as <-.
      rewrite (filter_none _ _ Hnone) in Hhead. discriminate Hhead.
  - intros [= <- <-]. repeat apply conj;
      [reflexivity|intros H; discriminate H|reflexivity].
Qed.

Lemma matches_active (d : doc) :
  matches (All [Equals "isActive" (VBool true)]) d = active d.
Proof.
  unfold matches, forallb, matchesCond, active. rewrite andb_true_r.
  destruct (d !! "isActive") as [[| [|] | | | | | |]|]; reflexivity.
Qed.

Lemma castFilter_active `{P : Platform} :
  castFilter userSchema (All [Equals "isActive" (VBool true)])
  = Ok (All [Equals "isActive" (VBool true)]).
Proof. reflexivity. Qed.

Lemma getUsers_run `{P : Platform} (rq : request) (e : env) (st : store) :
  getUsers rq e st
  = (Respond {| status := 200;
                json := Json (VArr (map docJson
                          (sortBy (notAfter "firstName")
                             (map (exclude "password")
                                (List.filter active (users st)))))) |}, st).
Proof.
  unfold getUsers, tryCatch, mbind, action_bind, await, find.
  rewrite castFilter_active. unfold mbind, result_bind.
  now rewrite (filter_ext_eq _ _ _ matches_active).
Qed.

(** X11.  GET /api/users answers 200 and leaves the store as it was.  The
    array it returns holds, once each, the stored users whose [isActive] is
    true, every one without its password, in ascending order of
    [firstName]; no object of the array has a key [password]. *)
Theorem users_listing `{P : Platform} (rq : request) (e : env) (st : store) :
  exists l,
    getUsers rq e st
    = (Respond {| status := 200; json := Json (VArr (map docJson l)) |}, st)
    /\ Permutation l (map (exclude "password") (List.filter active (users st)))
    /\ StronglySorted (fun a b => notAfter "firstName" a b = true) l
    /\ Forall (fun d : doc => d !! "isActive" = Some (VBool true)) l
    /\ Forall (fun v => ~ In "password" (keysOf v)) (map docJson l).
Proof.
  rewrite getUsers_run.
  set (shown := map (exclude "password") (List.filter active (users st))).
  assert (Hperm : Permutation (sortBy (notAfter "firstName") shown) shown).
  { symmetry. apply sortBy_perm. }
  assert (Hshown : forall d, In d (sortBy (notAfter "firstName") shown) ->
            d !! "isActive" = Some (VBool true) /\ d !! "password" = None).
  { intros d Hd. apply (Permutation_in _ Hperm) in Hd. unfold shown in Hd.
    apply in_map_iff in Hd. destruct Hd as (d0 & <- & Hd0).
    apply List.filter_In in Hd0. destruct Hd0 as [_ Hact].
    rewrite !exclude_lookup. cbn. split; [|reflexivity].
    unfold active in Hact.
    destruct (d0 !! "isActive") as [[| [|] | | | | | |]|]; try discriminate.
    reflexivity. }
  exists (sortBy (notAfter "firstName") shown). repeat apply conj.
  - reflexivity.
  - exact Hperm.
  - apply sortBy_sorted; [apply notAfter_total | apply notAfter_trans].
  - apply List.Forall_forall. intros d Hd. now apply Hshown.
  - apply List.Forall_forall. intros v Hv. apply in_map_iff in Hv.
    destruct Hv as (d & <- & Hd). intros Hin. apply docJson_keys in Hin.
    destruct (Hshown d Hd) as [_ Hpw]. rewrite Hpw in Hin. now destruct Hin.
Qed.

(** *** Tasks: creation and deletion *)

Lemma createTask_run `{P : Platform} (rq : request) (e : env) (st : store) :
  createTask rq e st
  = match user rq with
    | None => (Respond (errorJson 500 "Failed to create task"), st)
    | Some u =>
        let task := construct taskSchema (taskData rq u e) e in
        match save taskSchema (tasks st) task with
        | Ok l =>
            match findById taskSchema l (default VNull (fields task !! "_id")) with
            | Ok d =>
                (Respond {| status := 201;
                            json := Document
                              (populate (users st) "createdBy" display
                                 <$> (populate (users st) "assignedTo" display <$> d)) |},
                 setTasks l st)
            | Throw _ => (Respond (errorJson 500 "Failed to create task"), setTasks l st)
            end
        | Throw _ => (Respond (errorJson 500 "Failed to create task"), st)
        end
    end.
Proof.
  unfold createTask, tryCatch. destruct (user rq) as [u|]; [|reflexivity].
  unfold mbind, action_bind, writeTasks, await. cbv beta zeta.
  generalize (construct taskSchema (taskData rq u e) e). intros task.
  destruct (save taskSchema (tasks st) task) as [l|err]; [|reflexivity].
  cbn [users tasks setTasks].
  destruct (findById taskSchema l (default VNull (fields task !! "_id")));
    reflexivity.
Qed.

Lemma taskData_other (rq : request) (u : claims) (e : env) (p : string) :
  p <> "updatedAt" -> p <> "createdBy" -> taskData rq u e !! p = body rq !! p.
Proof.
  intros H1 H2. unfold taskData. now rewrite !lookup_insert_ne by congruence.
Qed.

Lemma taskData_updatedAt (rq : request) (u : claims) (e : env) :
  taskData rq u e !! "updatedAt" = Some (VDate (now e)).
Proof. unfold taskData. now rewrite lookup_insert_eq. Qed.

(** X12.  A task created (201) from a body without [_id] is appended to the
    tasks as the last one, and the answer shows this stored task with its
    [createdBy] and [assignedTo] expanded.  The stored task has the
    generated [_id], [updatedAt] at the time of the request whatever the
    body says, the defaults "todo", "medium" and the time of the request
    for a [status], [priority] and [createdAt] the body leaves out, no field
    outside the schema, and it passes every validator of the schema. *)
Theorem created_task_stored `{P : Platform} (rq : request) (e : env)
    (st st' : store) (u : claims) (r : response) :
  user rq = Some u -> body rq !! "_id" = None ->
  createTask rq e st = (Respond r, st') -> status r = 201%nat ->
  exists d,
    st' = setTasks (tasks st ++ [d])%list st
    /\ json r = Document (Some (populate (users st) "createdBy" display
                                  (populate (users st) "assignedTo" display d)))
    /\ d !! "_id" = Some (VId (freshId e))
    /\ d !! "updatedAt" = Some (VDate (now e))
    /\ (body rq !! "status" = None -> d !! "status" = Some (VStr "todo"))
    /\ (body rq !! "priority" = None -> d !! "priority" = Some (VStr "medium"))
    /\ (body rq !! "createdAt" = None -> d !! "createdAt" = Some (VDate (now e)))
    /\ (forall p, lookupPath taskSchema p = None -> d !! p = None)
    /\ validDoc taskSchema d = true.
Proof.
  intros Huser Hbody. rewrite createTask_run, Huser. cbv zeta.
  assert (Hdata : taskData rq u e !! "_id" = None).
  { now rewrite taskData_other by discriminate. }
  pose proof (fun p f => construct_path taskSchema (taskData rq u e) e p f
                           taskSchema_NoDup) as Hfield.
  pose proof (construct_strict taskSchema (taskData rq u e) e) as Hstrict.
  pose proof (save_fresh taskSchema (tasks st)) as Hfresh.
  specialize (fun l => Hfresh l (taskData rq u e) e taskSchema_NoDup taskSchema_id Hdata).
  cbv zeta in Hfresh.
  revert Hfield Hstrict Hfresh.
  generalize (construct taskSchema (taskData rq u e) e). intros task Hfield Hstrict Hfresh.
  destruct (save taskSchema (tasks st) task) as [l|err]; [|reject].
  destruct (Hfresh l eq_refl) as (-> & Hid & _ & -> & Hvalid).
  intros Hrun _. injection Hrun as <- <-.
  exists (fields task). repeat apply conj; try assumption || reflexivity.
  - rewrite (Hfield "updatedAt" _ taskSchema_updatedAt), taskData_updatedAt.
    now rewrite setValue_date.
  - intros Hnone. rewrite (Hfield "status" _ eq_refl).
    rewrite taskData_other by discriminate. now rewrite Hnone.
  - intros Hnone. rewrite (Hfield "priority" _ eq_refl).
    rewrite taskData_other by discriminate. now rewrite Hnone.
  - intros Hnone. rewrite (Hfield "createdAt" _ eq_refl).
    rewrite taskData_other by discriminate. now rewrite Hnone.
Qed.

Lemma deleteTask_run `{P : Platform} (rq : request) (e : env) (st : store) :
  deleteTask rq e st
  = match castScalar TObjectId "_id" (VStr (params_id rq)) with
    | Ok idv =>
        match head (List.filter (matches (All [Equals "_id" idv])) (tasks st)) with
        | Some _ =>
            (Respond {| status := 200;
                        json := Json (VObj [("message",
                                             VStr "Task deleted successfully")]) |},
             setTasks (snd (removeById (tasks st) idv)) st)
        | None => (Respond (errorJson 404 "Task not found"), st)
        end
    | Throw _ => (Respond (errorJson 500 "Failed to delete task"), st)
    end.
Proof.
  unfold deleteTask, tryCatch, mbind, action_bind, writeTasks, findByIdAndDelete.
  unfold mbind, result_bind.
  destruct (castScalar TObjectId "_id" (VStr (params_id rq))) as [idv|err];
    [|reflexivity].
  destruct (head (List.filter (matches (All [Equals "_id" idv])) (tasks st)))
    as [d|] eqn:Hhead.
  - destruct (removeById_found _ _ _ Hhead) as (before & after & _ & -> & _).
    reflexivity.
  - rewrite (removeById_absent _ _ Hhead). cbn [snd]. now rewrite setTasks_same.
Qed.

(** X13.  DELETE /api/tasks/:id.  Answered 200, it has taken out of the
    tasks exactly one document, the first whose [_id] is the id of the
    request, and kept the others in their order; answered otherwise, it has
    left the store as it was.  When no task has the id it answers 404
    "Task not found", and when the id does not cast to an ObjectId it
    answers 500. *)
Theorem delete_task_outcome `{P : Platform} (rq : request) (e : env)
    (st st' : store) (r : response) :
  deleteTask rq e st = (Respond r, st') ->
  (status r = 200%nat ->
     exists idv before d after,
       castScalar TObjectId "_id" (VStr (params_id rq)) = Ok idv
       /\ tasks st = (before ++ d :: after)%list
       /\ matches (All [Equals "_id" idv]) d = true
       /\ (forall x, In x before -> matches (All [Equals "_id" idv]) x = false)
       /\ st' = setTasks (before ++ after)%list st)
  /\ (status r <> 200%nat -> st' = st)
  /\ (forall idv,
        castScalar TObjectId "_id" (VStr (params_id rq)) = Ok idv ->
        (forall x, In x (tasks st) -> matches (All [Equals "_id" idv]) x = false) ->
        r = errorJson 404 "Task not found")
  /\ (forall err,
        castScalar TObjectId "_id" (VStr (params_id rq)) = Throw err ->
        r = errorJson 500 "Failed to delete task").
Proof.
  rewrite deleteTask_run.
  destruct (castScalar TObjectId "_id" (VStr (params_id rq))) as [idv|err].
  - destruct (head (List.filter (matches (All [Equals "_id" idv])) (tasks st)))
      as [d|] eqn:Hhead.
    + destruct (removeById_found _ _ _ Hhead) as (before & after & Hcoll & Hrm & Hd & Hb).
      rewrite Hrm. cbn [snd]. intros [= <- <-]. repeat apply conj.
      * intros _. exists idv, before, d, after. now repeat apply conj.
      * intros Hs. now contradiction Hs.
      * intros idv' [= <-] Hnone. rewrite (filter_none _ _ Hnone) in Hhead.
        discriminate Hhead.
      * intros err' [=].
    + intros [= <- <-]. repeat apply conj.
      * intros [=].
      * reflexivity.
      * reflexivity.
      * intros err' [=].
  - intros [= <- <-]. repeat apply conj.
    + intros [=].
    + reflexivity.
    + intros idv [=].
    + reflexivity.
Qed.

(** X14.  Creation then deletion is the identity on the store: after a
    task is created (201) from a body without [_id], deleting the task
    whose id is the generated one is answered 200 and gives back the store
    from before the creation.  The hexadecimal string of the generated id
    is taken to cast back to it. *)
Theorem delete_created_task `{P : Platform} (rq rq2 : request) (e e2 : env)
    (st st' : store) (u : claims) (r : response) :
  user rq = Some u -> body rq !! "_id" = None ->
  createTask rq e st = (Respond r, st') -> status r = 201%nat ->
  convert TObjectId (VStr (freshId e)) = Some (VId (freshId e)) ->
  params_id rq2 = freshId e ->
  deleteTask rq2 e2 st'
  = (Respond {| status := 200;
                json := Json (VObj [("message", VStr "Task deleted successfully")]) |},
     st).
Proof.
  intros Huser Hbody Hrun Hstatus Hcast Hparam.
  rewrite deleteTask_run, Hparam. cbn [castScalar]. rewrite Hcast.
  revert Hrun Hstatus. rewrite createTask_run, Huser. cbv zeta.
  assert (Hdata : taskData rq u e !! "_id" = None).
  { now rewrite taskData_other by discriminate. }
  pose proof (save_fresh taskSchema (tasks st)) as Hfresh.
  specialize (fun l => Hfresh l (taskData rq u e) e taskSchema_NoDup taskSchema_id Hdata).
  cbv zeta in Hfresh. revert Hfresh.
  generalize (construct taskSchema (taskData rq u e) e). intros task Hfresh.
  destruct (save taskSchema (tasks st) task) as [l|err]; [|reject].
  destruct (Hfresh l eq_refl) as (-> & Hid & Hold & -> & _).
  intros Hrun _. injection Hrun as _ <-. cbn [tasks setTasks].
  assert (Hd : matches (All [Equals "_id" (VId (freshId e))]) (fields task) = true).
  { now apply matches_id. }
  rewrite (head_filter_last _ _ _ Hold Hd).
  destruct (removeById_found _ _ _ (head_filter_last _ _ _ Hold Hd))
    as (before & after & Hsplit & -> & _ & Hbefore).
  cbn [snd]. f_equal.
  assert (Hafter : after = []).
  { destruct after as [|a after]; [reflexivity|]. exfalso.
    change (before ++ fields task :: a :: after)%list
      with (before ++ [fields task] ++ a :: after)%list in Hsplit.
    rewrite app_assoc in Hsplit.
    destruct (exists_last (l := a :: after)) as (after' & z & Hlast); [discriminate|].
    rewrite Hlast, app_assoc in Hsplit.
    apply app_inj_tail in Hsplit. destruct Hsplit as [Hcoll _].
    assert (Hin : In (fields task) (tasks st)).
    { rewrite Hcoll. apply in_or_app. left. apply in_or_app. right. now left. }
    rewrite (Hold _ Hin) in Hd. discriminate Hd. }
  subst after. apply app_inj_tail in Hsplit. destruct Hsplit as [<- _].
  rewrite app_nil_r. cbn [setTasks users tasks projects]. now destruct st.
Qed.

(** X15.  Deleting twice: when no two tasks have the same [_id] and
    casting to ObjectId yields ObjectIds, a deletion answered 200 followed
    by the same request is answered 404 "Task not found", the store as the
    first deletion left it. *)
Theorem delete_twice_not_found `{P : Platform} (rq : request) (e e2 : env)
    (st st' : store) (r : response) :
  objectIdCast -> uniqueOn "_id" (tasks st) = true ->
  deleteTask rq e st = (Respond r, st') -> status r = 200%nat ->
  deleteTask rq e2 st' = (Respond (errorJson 404 "Task not found"), st').
Proof.
  intros Hlaw Huniq. rewrite !deleteTask_run.
  destruct (castScalar TObjectId "_id" (VStr (params_id rq))) as [idv|err] eqn:Hcast;
    [|reject].
  destruct (castScalar_objectId _ _ Hlaw Hcast) as [h ->].
  destruct (head (List.filter (matches (All [Equals "_id" (VId h)])) (tasks st)))
    as [d|] eqn:Hhead; [|reject].
  destruct (removeById_found _ _ _ Hhead) as (before & after & Hcoll & -> & Hd & Hb).
  cbn [snd]. intros Hrun _. injection Hrun as _ <-. cbn [tasks setTasks].
  rewrite filter_none; [reflexivity|].
  intros x Hx. apply in_app_or in Hx. destruct Hx as [Hx|Hx]; [now apply Hb|].
  destruct (matches (All [Equals "_id" (VId h)]) x) eqn:Hm; [|reflexivity].
  apply matches_id in Hm, Hd. unfold uniqueOn in Huniq. rewrite Hcoll, map_app in Huniq.
  cbn [map] in Huniq.
  pose proof (distinct_later _ _ _ Huniq (x !! "_id")
                (in_map (fun d : doc => d !! "_id") _ _ Hx)) as Hk.
  rewrite Hm, Hd in Hk. cbn [sameKey value_eqb] in Hk.
  now rewrite String.eqb_refl in Hk.
Qed.

(** *** Tasks: listing *)

Lemma getTasks_run `{P : Platform} (rq : request) (e : env) (st : store) :
  getTasks rq e st
  = match asCount (limitOf rq), asCount (offsetOf rq),
          find taskSchema (tasks st) (taskFilter rq) with
    | Ok n, Ok k, Ok l =>
        (Respond {| status := 200;
                    json := TaskPage
                              (map (expanded (users st))
                                 (limit n (skip k (sortNewestFirst l))))
                              (totalPagesOf (List.length l) (limitOf rq))
                              (currentPageOf rq) (List.length l) |}, st)
    | _, _, _ => (Respond (errorJson 500 "Failed to fetch tasks"), st)
    end.
Proof.
  unfold getTasks, tryCatch, mbind, action_bind, await, countDocuments.
  fold (pageOf rq) (limitOf rq) (currentPageOf rq). cbv zeta.
  fold (offsetOf rq).
  unfold mbind, result_bind.
  destruct (asCount (limitOf rq)) as [n|]; [|reflexivity].
  destruct (asCount (offsetOf rq)) as [k|]; [|reflexivity].
  destruct (find taskSchema (tasks st) (taskFilter rq)) as [l|]; reflexivity.
Qed.

Lemma In_limit (d : doc) (n : nat) (l : list doc) : In d (limit n l) -> In d l.
Proof.
  destruct n; [trivial|]. unfold limit. intros H.
  rewrite <- (firstn_skipn (S n) l). apply in_or_app. now left.
Qed.

Lemma In_skip (d : doc) (k : nat) (l : list doc) : In d (skip k l) -> In d l.
Proof.
  unfold skip. intros H. rewrite <- (firstn_skipn k l). apply in_or_app. now right.
Qed.

Lemma length_limit (n : nat) (l : list doc) : (List.length (limit n l) <= List.length l)%nat.
Proof. destruct n; [reflexivity|]. unfold limit. rewrite length_firstn. lia. Qed.

Lemma length_skip (k : nat) (l : list doc) : (List.length (skip k l) <= List.length l)%nat.
Proof. unfold skip. rewrite length_skipn. lia. Qed.

(** X16.  GET /api/tasks never changes the store.  Answered 200, for any
    query, it returns [total] as the number of tasks that match the filter,
    and a list, no longer than [total], of such tasks with their references
    expanded, in order of [createdAt], newest first. *)
Theorem task_listing_sorted `{P : Platform} (rq : request) (e : env)
    (st st' : store) (r : response) :
  getTasks rq e st = (Respond r, st') ->
  st' = st
  /\ (status r = 200%nat ->
        exists l found,
          find taskSchema (tasks st) (taskFilter rq) = Ok l
          /\ json r = TaskPage found (totalPagesOf (List.length l) (limitOf rq))
                        (currentPageOf rq) (List.length l)
          /\ StronglySorted newerFirst found
          /\ (List.length found <= List.length l)%nat
          /\ (forall d, In d found ->
                exists d0, In d0 l /\ d = expanded (users st) d0)).
Proof.
  rewrite getTasks_run.
  destruct (asCount (limitOf rq)) as [n|];
    [|intros [= <- <-]; split; [reflexivity|intros H; discriminate H]].
  destruct (asCount (offsetOf rq)) as [k|];
    [|intros [= <- <-]; split; [reflexivity|intros H; discriminate H]].
  destruct (find taskSchema (tasks st) (taskFilter rq)) as [l|];
    [|intros [= <- <-]; split; [reflexivity|intros H; discriminate H]].
  intros [= <- <-]. split; [reflexivity|]. intros _.
  exists l, (map (expanded (users st)) (limit n (skip k (sortNewestFirst l)))).
  repeat apply conj; try reflexivity.
  - apply (StronglySorted_map _ newerFirst).
    + intros a b. unfold newerFirst, notOlder. now rewrite !createdAt_expanded.
    + apply StronglySorted_limit. unfold skip. apply StronglySorted_skipn.
      apply sortNewestFirst_sorted.
  - rewrite length_map.
    pose proof (length_limit n (skip k (sortNewestFirst l))).
    pose proof (length_skip k (sortNewestFirst l)).
    rewrite length_sortNewestFirst in *. lia.
  - intros d Hd. apply in_map_iff in Hd. destruct Hd as (d0 & <- & Hd0).
    exists d0. split; [|reflexivity].
    apply In_sortNewestFirst. eapply In_skip, In_limit, Hd0.
Qed.


Lemma asCount_negative (z : Z) :
  (z < 0)%Z -> exists err, asCount (Some (z # 1)) = Throw err.
Proof.
  intros Hz. unfold asCount.
  rewrite Qcanon.Qred_identity by (cbn [Qnum Qden]; apply Z.gcd_1_r).
  cbn [Qnum Qden]. apply Z.leb_gt in Hz. rewrite Hz, andb_false_r. eauto.
Qed.

(** X18.  Page 0 is an error: with [page] a numeral of value 0 and [limit]
    a numeral of value at least 1 the offset is negative, the store refuses
    it, and the answer is 500 "Failed to fetch tasks". *)
Theorem page_zero_fails `{P : Platform} (rq : request) (e : env) (st : store)
    (sp sl : string) (l : nat) :
  query rq !! "page" = Some sp -> digitsToNumber sp = Some 0%nat ->
  query rq !! "limit" = Some sl -> digitsToNumber sl = Some l -> (1 <= l)%nat ->
  getTasks rq e st = (Respond (errorJson 500 "Failed to fetch tasks"), st).
Proof.
  intros Hpage Hp Hlimit Hl Hl1. rewrite getTasks_run.
  unfold offsetOf, pageOf, limitOf.
  rewrite Hpage, Hlimit, (toNumber_digits _ _ Hp), (toNumber_digits _ _ Hl).
  rewrite (asCount_integer (Z.of_nat l)) by lia.
  replace ((Z.of_nat 0 # 1) - 1)%Q with (-1 # 1) by reflexivity.
  replace ((-1 # 1) * (Z.of_nat l # 1))%Q with (- Z.of_nat l # 1)
    by (unfold Qmult; cbn [Qnum Qden]; f_equal; lia).
  destruct (asCount_negative (- Z.of_nat l)) as [err ->]; [lia|]. reflexivity.
Qed.

(** X19.  A limit of 0 switches paging off: with [limit] a numeral of
    value 0 and [page] any numeral, the answer is 200 with every matching
    task, newest first, and [totalPages] is null. *)
Theorem limit_zero_lists_all `{P : Platform} (rq : request) (e : env) (st : store)
    (sp sl : string) (p : nat) (matching : list doc) :
  query rq !! "page" = Some sp -> digitsToNumber sp = Some p ->
  query rq !! "limit" = Some sl -> digitsToNumber sl = Some 0%nat ->
  find taskSchema (tasks st) (taskFilter rq) = Ok matching ->
  getTasks rq e st
  = (Respond {| status := 200;
                json := TaskPage (map (expanded (users st)) (sortNewestFirst matching))
                          None (VStr sp) (List.length matching) |}, st).
Proof.
  intros Hpage Hp Hlimit Hl Hfind. rewrite getTasks_run.
  unfold offsetOf, pageOf, limitOf, currentPageOf, totalPagesOf.
  rewrite Hpage, Hlimit, (toNumber_digits _ _ Hp), (toNumber_digits _ _ Hl), Hfind.
  rewrite (asCount_integer (Z.of_nat 0)) by lia.
  replace (((Z.of_nat p # 1) - 1) * (Z.of_nat 0 # 1))%Q with (0 # 1)
    by (unfold Qmult, Qminus, Qplus, Qopp; cbn [Qnum Qden]; f_equal; lia).
  rewrite (asCount_integer 0) by lia. reflexivity.
Qed.

(** *** Expanded references *)

Lemma selectFields_keys (names : list string) (u : doc) :
  incl (map fst (selectFields names u)) names.
Proof.
  induction names as [|n names IH]; cbn [selectFields]; [apply incl_refl|].
  destruct (u !! n); cbn [map fst].
  - apply incl_cons; [now left|]. now apply incl_tl.
  - now apply incl_tl.
Qed.

Lemma selectFields_values (names : list string) (u : doc) (k : string) (v : value) :
  In (k, v) (selectFields names u) -> u !! k = Some v.
Proof.
  induction names as [|n names IH]; cbn [selectFields]; [intros []|].
  destruct (u !! n) eqn:Hn; [|exact IH].
  intros [[= <- <-]|Hin]; [assumption|]. now apply IH.
Qed.

Lemma populateRef_id (us : list doc) (names : list string) (h : string) :
  shownOf us names h (populateRef us names (VId h)).
Proof.
  unfold populateRef, shownOf.
  destruct (head (List.filter (matches (All [Equals "_id" (VId h)])) us)) as [u|] eqn:Hhead.
  - right. destruct (head_filter_split _ _ _ Hhead) as (before & after & -> & Hu & _).
    exists u, (selectFields ("_id" :: names) u). repeat apply conj.
    + apply in_or_app. right. now left.
    + now apply matches_id.
    + reflexivity.
    + apply selectFields_keys.
    + apply selectFields_values.
  - left. split; [reflexivity|]. intros u Hu Hid.
    apply matches_id in Hid. rewrite (head_filter_none _ _ Hhead u Hu) in Hid.
    discriminate Hid.
Qed.

Lemma shownOf_keys (us : list doc) (h : string) (v : value) :
  shownOf us display h v ->
  incl (keysOf v) ["_id"; "firstName"; "lastName"; "username"]
  /\ ~ In "password" (keysOf v).
Proof.
  intros [[-> _]|(u & kv & _ & _ & -> & Hkeys & _)]; cbn [keysOf].
  - split; [intros x []|intros []].
  - split; [exact Hkeys|]. intros Hin. apply Hkeys in Hin. unfold display in Hin.
    cbn [In] in Hin. repeat (destruct Hin as [Hin|Hin]; [discriminate Hin|]). exact Hin.
Qed.

Lemma populate_same (us : list doc) (p : string) (names : list string) (d : doc)
    (v : value) :
  d !! p = Some v -> populate us p names d !! p = Some (populateRef us names v).
Proof. intros H. unfold populate. rewrite H. apply lookup_insert_eq. Qed.

(** X20.  In a listed task, a [createdBy] or [assignedTo] that is stored as
    an ObjectId is shown as null when no user has this id, and otherwise as
    an object made of fields of a user with this id, with no other keys
    than [_id], [firstName], [lastName] and [username]: never a password. *)
Theorem task_references_hide_password (us : list doc) (d : doc) (p h : string) :
  p = "createdBy" \/ p = "assignedTo" ->
  d !! p = Some (VId h) ->
  exists v,
    expanded us d !! p = Some v
    /\ shownOf us display h v
    /\ incl (keysOf v) ["_id"; "firstName"; "lastName"; "username"]
    /\ ~ In "password" (keysOf v).
Proof.
  intros Hp Hd. exists (populateRef us display (VId h)).
  pose proof (populateRef_id us display h) as Hshown.
  destruct (shownOf_keys us h _ Hshown) as [Hkeys Hpw].
  repeat apply conj; try assumption.
  unfold expanded. destruct Hp as [-> | ->].
  - rewrite populateEach_other by discriminate. apply populate_same.
    now rewrite populate_other by discriminate.
  - rewrite populateEach_other, populate_other by discriminate.
    now apply populate_same.
Qed.

(** *** Projects *)

Lemma createProject_run `{P : Platform} (rq : request) (e : env) (st : store) :
  createProject rq e st
  = match user rq with
    | None => (Respond (errorJson 500 "Failed to create project"), st)
    | Some u =>
        let project := construct projectSchema (projectData rq u e) e in
        match save projectSchema (projects st) project with
        | Ok l =>
            match findById projectSchema l (default VNull (fields project !! "_id")) with
            | Ok d =>
                (Respond {| status := 201;
                            json := Document (expandedProject (users st) <$> d) |},
                 setProjects l st)
            | Throw _ =>
                (Respond (errorJson 500 "Failed to create project"), setProjects l st)
            end
        | Throw _ => (Respond (errorJson 500 "Failed to create project"), st)
        end
    end.
Proof.
  unfold createProject, tryCatch. destruct (user rq) as [u|]; [|reflexivity].
  unfold mbind, action_bind, writeProjects, await. cbv beta zeta.
  generalize (construct projectSchema (projectData rq u e) e). intros project.
  destruct (save projectSchema (projects st) project) as [l|err]; [|reflexivity].
  cbn [users projects setProjects].
  destruct (findById projectSchema l (default VNull (fields project !! "_id")));
    reflexivity.
Qed.

Lemma projectData_ignores_owner (rq : request) (u : claims) (e : env) (x : value) :
  projectData (withBody (<["owner" := x]> (body rq)) rq) u e = projectData rq u e.
Proof. unfold projectData, withBody. cbn [body]. now rewrite insert_insert_eq. Qed.

(** X21.  On POST /api/projects for the authenticated identity [u]: an
    [owner] in the request body has no effect at all on what the route
    does, and when the project is created (201) it is appended to the
    projects with, as [owner], the ObjectId that the token's [userId]
    denotes and, as [updatedAt], the time of the request; it passes every
    validator of the schema, and users and tasks stay as they were. *)
Theorem create_project_owner `{P : Platform} (rq : request) (e : env) (st : store)
    (u : claims) :
  user rq = Some u ->
  (forall x, createProject (withBody (<["owner" := x]> (body rq)) rq) e st
             = createProject rq e st)
  /\ (forall r st',
        createProject rq e st = (Respond r, st') -> status r = 201%nat ->
        exists d v,
          convert TObjectId (VStr (userId u)) = Some v
          /\ st' = setProjects (projects st ++ [d])%list st
          /\ d !! "owner" = Some v
          /\ d !! "updatedAt" = Some (VDate (now e))
          /\ validDoc projectSchema d = true).
Proof.
  intros Huser. split.
  - intros x. rewrite !createProject_run. cbn [user withBody]. rewrite Huser.
    now rewrite projectData_ignores_owner.
  - intros r st'. rewrite createProject_run, Huser. cbv zeta.
    pose proof (fun p f => construct_path projectSchema (projectData rq u e) e p f
                             projectSchema_NoDup) as Hfield.
    pose proof (save_valid projectSchema (projects st)) as Hsaved.
    revert Hfield Hsaved.
    generalize (construct projectSchema (projectData rq u e) e).
    intros project Hfield Hsaved.
    destruct (save projectSchema (projects st) project) as [l|err] eqn:Hsave; [|reject].
    destruct (Hsaved l project Hsave) as (-> & Hvalid & Hok).
    destruct (findById projectSchema _ _); [|reject].
    intros Hrun _. injection Hrun as _ <-.
    pose (f := req (path TObjectId)).
    assert (Hpath : lookupPath projectSchema "owner" = Some f) by reflexivity.
    destruct (validate_nil _ _ Hvalid "owner" f (lookupPath_In _ _ _ Hpath))
      as [_ Hrequired].
    pose proof (Hfield "owner" f Hpath) as Howner.
    unfold projectData in Howner.
    rewrite lookup_insert_ne, lookup_insert_eq in Howner by discriminate.
    unfold setValue, castValue, castScalar in Howner.
    cbn [ftype f req path] in Howner.
    destruct (convert TObjectId (VStr (userId u))) as [v|].
    + cbn [mbind result_bind] in Howner.
      rewrite applySetters_plain in Howner by reflexivity.
      exists (fields project), v. repeat apply conj; try assumption || reflexivity.
      rewrite (Hfield "updatedAt" (withDefault DefaultNow (path TDate)) eq_refl).
      unfold projectData. rewrite lookup_insert_eq. now rewrite setValue_date.
    + cbn [mbind result_bind] in Howner. rewrite Howner in Hrequired.
      discriminate Hrequired.
Qed.

Lemma getProjects_run `{P : Platform} (rq : request) (e : env) (st : store) :
  getProjects rq e st
  = (Respond {| status := 200;
                json := Json (VArr (map docJson
                          (map (expandedProject (users st))
                             (sortNewestFirst (projects st))))) |}, st).
Proof.
  unfold getProjects, tryCatch, mbind, action_bind, await.
  now rewrite find_all.
Qed.

(** X22.  GET /api/projects answers 200 and leaves the store as it was.
    The array it returns holds every stored project once, with [owner] and
    [team] expanded, in order of [createdAt], newest first. *)
Theorem projects_listing `{P : Platform} (rq : request) (e : env) (st : store) :
  exists l,
    getProjects rq e st
    = (Respond {| status := 200;
                  json := Json (VArr (map docJson
                                        (map (expandedProject (users st)) l))) |}, st)
    /\ Permutation l (projects st)
    /\ StronglySorted newerFirst l
    /\ StronglySorted newerFirst (map (expandedProject (users st)) l).
Proof.
  rewrite getProjects_run. exists (sortNewestFirst (projects st)).
  repeat apply conj.
  - reflexivity.
  - symmetry. apply sortNewestFirst_perm.
  - apply sortNewestFirst_sorted.
  - apply (StronglySorted_map _ newerFirst); [|apply sortNewestFirst_sorted].
    intros a b. unfold newerFirst, notOlder. now rewrite !createdAt_expandedProject.
Qed.

Lemma populateAll_array (us : list doc) (p : string) (names : list string) (d : doc)
    (l : list value) :
  d !! p = Some (VArr l) ->
  populateAll us p names d !! p
  = Some (VArr (flat_map (fun v => match populateRef us names v with
                                   | VNull => []
                                   | v' => [v']
                                   end) l)).
Proof. intros H. unfold populateAll. rewrite H. apply lookup_insert_eq. Qed.

(** X23.  In a listed or created project, an [owner] stored as an ObjectId
    is shown as null or as fields of a user with this id among [_id],
    [firstName], [lastName] and [username].  A [team] stored as an array of
    ObjectIds is shown as an array that is no longer, each element of which
    stands for one of those ids and is such an object: members whose user
    is missing are dropped, and no element has a key [password]. *)
Theorem project_references_hide_password (us : list doc) (d : doc) :
  (forall h, d !! "owner" = Some (VId h) ->
     exists v, expandedProject us d !! "owner" = Some v
               /\ shownOf us display h v
               /\ ~ In "password" (keysOf v))
  /\ (forall l, d !! "team" = Some (VArr l) -> forallb isId l = true ->
        exists shown,
          expandedProject us d !! "team" = Some (VArr shown)
          /\ (List.length shown <= List.length l)%nat
          /\ Forall (fun v => exists h, In (VId h) l /\ shownOf us display h v
                                        /\ v <> VNull
                                        /\ ~ In "password" (keysOf v)) shown).
Proof.
  split.
  - intros h Hd. exists (populateRef us display (VId h)).
    pose proof (populateRef_id us display h) as Hshown.
    destruct (shownOf_keys us h _ Hshown) as [_ Hpw].
    repeat apply conj; try assumption.
    unfold expandedProject. rewrite populateAll_other by discriminate.
    now apply populate_same.
  - intros l Hd Hids. eexists. split.
    + unfold expandedProject. apply (populateAll_array us "team" display _ l).
      rewrite populate_other by discriminate. exact Hd.
    + clear Hd. induction l as [|x l IH]; cbn [flat_map].
      * split; [reflexivity|constructor].
      * cbn [forallb] in Hids. apply andb_true_iff in Hids. destruct Hids as [Hx Hl].
        destruct (IH Hl) as [Hlen Hall].
        assert (Hall' : Forall (fun v => exists h, In (VId h) (x :: l)
                          /\ shownOf us display h v /\ v <> VNull
                          /\ ~ In "password" (keysOf v))
                   (flat_map (fun v => match populateRef us display v with
                                       | VNull => []
                                       | v' => [v']
                                       end) l)).
        { eapply List.Forall_impl; [|exact Hall].
          intros v (h & Hin & Hrest). exists h. split; [now right|exact Hrest]. }
        destruct x as [| | | | |h| |]; try discriminate Hx.
        pose proof (populateRef_id us display h) as Hshown.
        destruct (shownOf_keys us h _ Hshown) as [_ Hpw].
        rewrite length_app. cbn [List.length] in *.
        destruct (populateRef us display (VId h)) eqn:Hv; cbn [List.app List.length];
          (split; [lia|]); try exact Hall';
          (constructor; [|exact Hall']); exists h;
          (repeat apply conj; [now left|exact Hshown|discriminate|exact Hpw]).
Qed.

(** *** The dashboard *)

Lemma totalOf_bump (k : value) (groups : list (value * nat)) :
  totalOf (bump k groups) = S (totalOf groups).
Proof.
  induction groups as [|[k' n] groups IH]; [reflexivity|].
  cbn [bump]. destruct (value_eqb k' k); cbn [totalOf fold_right snd] in *.
  - lia.
  - fold (totalOf (bump k groups)). fold (totalOf groups). rewrite IH. lia.
Qed.

Lemma countFor_bump (s : string) (k : value) (groups : list (value * nat)) :
  countFor (VStr s) (bump k groups)
  = (countFor (VStr s) groups + if value_eqb k (VStr s) then 1 else 0)%nat.
Proof.
  induction groups as [|[k' n] groups IH].
  - cbn [bump countFor]. destruct (value_eqb k (VStr s)); reflexivity.
  - cbn [bump]. destruct (value_eqb k' k) eqn:Hk; cbn [countFor];
      destruct (value_eqb k' (VStr s)) eqn:Hs.
    + apply value_eqb_str in Hs. subst k'. apply value_eqb_str_l in Hk. subst k.
      rewrite value_eqb_str_refl. lia.
    + destruct (value_eqb k (VStr s)) eqn:Hks; [|lia].
      apply value_eqb_str in Hks. subst k. congruence.
    + apply value_eqb_str in Hs. subst k'.
      destruct (value_eqb k (VStr s)) eqn:Hks; [|lia].
      apply value_eqb_str in Hks. subst k. rewrite value_eqb_str_refl in Hk.
      discriminate Hk.
    + exact IH.
Qed.

Lemma groupCount_fold (key : string) (coll : list doc) (acc : list (value * nat)) :
  let groups := fold_left (fun acc d => bump (default VNull (d !! key)) acc) coll acc in
  totalOf groups = (totalOf acc + List.length coll)%nat
  /\ forall s, countFor (VStr s) groups
               = (countFor (VStr s) acc
                  + List.length (List.filter
                      (fun d => value_eqb (default VNull (d !! key)) (VStr s)) coll))%nat.
Proof.
  cbv zeta. revert acc. induction coll as [|d coll IH]; intros acc.
  - cbn [fold_left List.length List.filter]. split; [lia|]. intros s. lia.
  - cbn [fold_left List.length List.filter].
    destruct (IH (bump (default VNull (d !! key)) acc)) as [Htotal Hcount].
    split.
    + rewrite Htotal, totalOf_bump. lia.
    + intros s. rewrite Hcount, countFor_bump.
      destruct (value_eqb (default VNull (d !! key)) (VStr s)); cbn [List.length]; lia.
Qed.

Lemma hasStatus_key (s : string) (d : doc) :
  value_eqb (default VNull (d !! "status")) (VStr s) = hasStatus s d.
Proof. unfold hasStatus. now destruct (d !! "status"). Qed.

(** X24.  The figures of the dashboard agree with each other.  The counts
    of the two groupings each add up to [totalTasks]; the count the status
    grouping shows for a status is the number of tasks with this status, so
    the count for "completed" is [completedTasks]; [completedTasks] is at
    most [totalTasks] and [activeProjects] at most [totalProjects]; and
    [recentTasks] holds five tasks, or all of them when there are fewer,
    newest first. *)
Theorem dashboard_counts_consistent `{P : Platform} (rq : request) (e : env)
    (st : store) :
  exists s byStatus byPriority recent,
    dashboard rq e st
    = (Respond {| status := 200; json := Dashboard s byStatus byPriority recent |}, st)
    /\ totalOf byStatus = totalTasks s
    /\ totalOf byPriority = totalTasks s
    /\ (forall x, countFor (VStr x) byStatus
                  = List.length (List.filter (hasStatus x) (tasks st)))
    /\ countFor (VStr "completed") byStatus = completedTasks s
    /\ (completedTasks s <= totalTasks s)%nat
    /\ (activeProjects s <= totalProjects s)%nat
    /\ List.length recent = Nat.min 5 (totalTasks s)
    /\ StronglySorted newerFirst recent.
Proof.
  rewrite dashboard_run. cbv zeta. do 4 eexists. split; [reflexivity|].
  cbn [totalTasks completedTasks totalProjects activeProjects].
  destruct (groupCount_fold "status" (tasks st) []) as [Htotal Hcount].
  destruct (groupCount_fold "priority" (tasks st) []) as [Htotal' _].
  cbv zeta in Htotal, Hcount, Htotal'. fold (groupCount "status" (tasks st)) in *.
  fold (groupCount "priority" (tasks st)) in *.
  assert (Hstatus : forall x, countFor (VStr x) (groupCount "status" (tasks st))
                    = List.length (List.filter (hasStatus x) (tasks st))).
  { intros x. rewrite Hcount. cbn [countFor].
    now rewrite (filter_ext_eq _ (hasStatus x) _ (hasStatus_key x)). }
  repeat apply conj.
  - exact Htotal.
  - exact Htotal'.
  - exact Hstatus.
  - apply Hstatus.
  - apply filter_length_le.
  - apply filter_length_le.
  - rewrite length_map. unfold limit. rewrite length_firstn, length_sortNewestFirst.
    reflexivity.
  - apply (StronglySorted_map _ newerFirst).
    + intros a b. unfold newerFirst, notOlder, createdAt.
      now rewrite !populate_other by discriminate.
    + apply StronglySorted_limit, sortNewestFirst_sorted.
Qed.

(** *** Every route *)

Lemma protected_cases `{P : Platform} (h : handler) (rq : request) (e : env)
    (st : store) :
  protected h rq e st = (Respond (errorJson 401 "Access token required"), st)
  \/ protected h rq e st = (Respond (errorJson 403 "Invalid or expired token"), st)
  \/ exists u, protected h rq e st = h (withUser u rq) e st.
Proof.
  unfold protected, authenticateToken.
  destruct (negb (truthyStr (bearerToken rq))); [now left|].
  destruct (jwt_verify _ _ _) as [u|]; [|now right; left].
  right. right. now exists u.
Qed.

Tactic Notation "answer" integer(n) :=
  let H200 := fresh in let H201 := fresh in
  eexists _, _; split; [reflexivity|]; split;
  [cbn [status errorJson]; do n right; now left
  |cbn [status errorJson]; intros H200 H201;
   first [ now contradiction H200
         | now contradiction H201
         | split; [reflexivity|];
           eexists; split; [|reflexivity]; discriminate ]].

Lemma behaves_health `{P : Platform} : behaves [200%nat] health.
Proof. intros rq e st. unfold health. answer 0. Qed.

Lemma behaves_register `{P : Platform} (b : registerBody) :
  behaves [201; 400; 500]%nat (fun _ e => register b e).
Proof.
  intros rq e st. cbv beta.
  destruct (register_cases b e st) as [H|[H|[H|[H|H]]]]; try rewrite H.
  - answer 1.
  - answer 1.
  - answer 1.
  - answer 2.
  - destruct H as (? & ? & ? & ? & ? & _ & _ & _ & _ & ->). unfold registerAnswer.
    answer 0.
Qed.

Lemma behaves_login `{P : Platform} (b : loginBody) :
  behaves [200; 400; 401; 500]%nat (fun _ e => login b e).
Proof.
  intros rq e st. cbv beta.
  destruct (negb (truthyStr (login_username b))
            || negb (truthyStr (login_password b))) eqn:Hm.
  { rewrite (login_missing b e st Hm). answer 1. }
  apply orb_false_elim in Hm. destruct Hm as [Hn Hp].
  apply negb_false_iff, truthyStr_true in Hn, Hp.
  destruct Hn as (name & Hbn & Hn). destruct Hp as (pw & Hbp & Hp).
  destruct b as [bn bp]. cbn [login_username login_password] in Hbn, Hbp.
  subst bn bp. rewrite login_run by assumption.
  destruct (head _) as [u|]; [|answer 2].
  destruct (negb (truthy (isActive u))); [answer 2|].
  destruct (u !! "password") as [[| | |hash| | | |]|]; try answer 3.
  destruct (negb (bcrypt_compare pw hash)); [answer 2|].
  cbv zeta. destruct (saveLoaded _ _ _ _); [|answer 3].
  unfold loginAnswer. answer 0.
Qed.

Lemma behaves_getProfile `{P : Platform} : behaves [200; 404; 500]%nat getProfile.
Proof.
  intros rq e st. rewrite getProfile_run.
  destruct (user rq) as [u|]; [|answer 2].
  destruct (castScalar _ _ _); [|answer 2].
  destruct (head _); [answer 0|answer 1].
Qed.

Lemma behaves_getUsers `{P : Platform} : behaves [200; 500]%nat getUsers.
Proof. intros rq e st. rewrite getUsers_run. answer 0. Qed.

Lemma behaves_getProjects `{P : Platform} : behaves [200; 500]%nat getProjects.
Proof. intros rq e st. rewrite getProjects_run. answer 0. Qed.

Lemma behaves_dashboard `{P : Platform} : behaves [200; 500]%nat dashboard.
Proof. intros rq e st. rewrite dashboard_run. cbv zeta. answer 0. Qed.

Lemma behaves_getTasks `{P : Platform} : behaves [200; 500]%nat getTasks.
Proof.
  intros rq e st. rewrite getTasks_run.
  destruct (asCount (limitOf rq)); [|answer 1].
  destruct (asCount (offsetOf rq)); [|answer 1].
  destruct (find _ _ _); [answer 0|answer 1].
Qed.

Lemma behaves_deleteTask `{P : Platform} : behaves [200; 404; 500]%nat deleteTask.
Proof.
  intros rq e st. rewrite deleteTask_run.
  destruct (castScalar _ _ _); [|answer 2].
  destruct (head _); [answer 0|answer 1].
Qed.

Lemma behaves_updateTask `{P : Platform} : behaves [200; 404; 500]%nat updateTask.
Proof.
  intros rq e st. rewrite updateTask_run.
  destruct (findByIdAndUpdate _ _ _ _ _) as [[[d|] l]|err] eqn:Hrun.
  - answer 0.
  - apply findByIdAndUpdate_keeps in Hrun. subst l. rewrite setTasks_same.
    answer 1.
  - answer 2.
Qed.

Lemma behaves_answers (codes : list nat) (h : handler) :
  behaves codes h -> answers codes h.
Proof.
  intros Hh rq e st. destruct (Hh rq e st) as (r & st' & Hrun & Hcode & _). eauto.
Qed.

Lemma behaves_keeps (codes : list nat) (h : handler) :
  behaves codes h -> keepsOnFailure h.
Proof.
  intros Hh rq e st r st' Hrun H200 H201.
  destruct (Hh rq e st) as (r0 & st0 & Hrun0 & _ & Hframe).
  rewrite Hrun in Hrun0. injection Hrun0 as <- <-. now apply Hframe.
Qed.

Lemma behaves_plain (codes : list nat) (h : handler) :
  behaves codes h -> plainErrors h.
Proof.
  intros Hh rq e st r st' Hrun H200 H201.
  destruct (Hh rq e st) as (r0 & st0 & Hrun0 & _ & Hframe).
  rewrite Hrun in Hrun0. injection Hrun0 as <- <-. now apply Hframe.
Qed.

Lemma plainErrors_protected `{P : Platform} (h : handler) :
  plainErrors h -> plainErrors (protected h).
Proof.
  intros Hh rq e st r st'.
  destruct (protected_cases h rq e st) as [H|[H|[u H]]]; rewrite H.
  - intros [= <- <-] _ _. eexists. split; [|reflexivity]. discriminate.
  - intros [= <- <-] _ _. eexists. split; [|reflexivity]. discriminate.
  - apply Hh.
Qed.

Lemma plain_createTask `{P : Platform} : plainErrors createTask.
Proof.
  intros rq e st r st'. rewrite createTask_run.
  assert (Hfail : forall st0,
            (Respond (errorJson 500 "Failed to create task"), st0) = (Respond r, st') ->
            exists msg, msg <> "" /\ r = errorJson (status r) msg).
  { intros st0 [= <- <-]. eexists. split; [|reflexivity]. discriminate. }
  destruct (user rq) as [u|]; [|intros Hr _ _; now apply (Hfail st)].
  cbv zeta. destruct (save _ _ _) as [l|]; [|intros Hr _ _; now apply (Hfail st)].
  destruct (findById _ _ _); [|intros Hr _ _; now apply (Hfail (setTasks l st))].
  intros [= <- <-] _ H201. now contradiction H201.
Qed.

Lemma plain_createProject `{P : Platform} : plainErrors createProject.
Proof.
  intros rq e st r st'. rewrite createProject_run.
  assert (Hfail : forall st0,
            (Respond (errorJson 500 "Failed to create project"), st0) = (Respond r, st') ->
            exists msg, msg <> "" /\ r = errorJson (status r) msg).
  { intros st0 [= <- <-]. eexists. split; [|reflexivity]. discriminate. }
  destruct (user rq) as [u|]; [|intros Hr _ _; now apply (Hfail st)].
  cbv zeta. destruct (save _ _ _) as [l|]; [|intros Hr _ _; now apply (Hfail st)].
  destruct (findById _ _ _); [|intros Hr _ _; now apply (Hfail (setProjects l st))].
  intros [= <- <-] _ H201. now contradiction H201.
Qed.

Lemma answers_protected `{P : Platform} (codes : list nat) (h : handler) :
  answers codes h -> answers (401%nat :: 403%nat :: codes) (protected h).
Proof.
  intros Hh rq e st.
  destruct (protected_cases h rq e st) as [H|[H|[u H]]]; rewrite H.
  - eexists _, _. split; [reflexivity|]. now left.
  - eexists _, _. split; [reflexivity|]. now right; left.
  - destruct (Hh (withUser u rq) e st) as (r & st' & Hrun & Hcode).
    exists r, st'. split; [assumption|]. now right; right.
Qed.

Lemma keepsOnFailure_protected `{P : Platform} (h : handler) :
  keepsOnFailure h -> keepsOnFailure (protected h).
Proof.
  intros Hh rq e st r st'.
  destruct (protected_cases h rq e st) as [H|[H|[u H]]]; rewrite H.
  - now intros [= <- <-].
  - now intros [= <- <-].
  - apply Hh.
Qed.

Lemma answers_createTask `{P : Platform} : answers [201; 500]%nat createTask.
Proof.
  intros rq e st. rewrite createTask_run.
  destruct (user rq) as [u|]; [|eexists _, _; split; [reflexivity|now right; left]].
  cbv zeta. destruct (save _ _ _); [|eexists _, _; split; [reflexivity|now right; left]].
  destruct (findById _ _ _); eexists _, _; (split; [reflexivity|]);
    [now left|now right; left].
Qed.

Lemma answers_createProject `{P : Platform} : answers [201; 500]%nat createProject.
Proof.
  intros rq e st. rewrite createProject_run.
  destruct (user rq) as [u|]; [|eexists _, _; split; [reflexivity|now right; left]].
  cbv zeta. destruct (save _ _ _); [|eexists _, _; split; [reflexivity|now right; left]].
  destruct (findById _ _ _); eexists _, _; (split; [reflexivity|]);
    [now left|now right; left].
Qed.

Lemma keeps_createTask `{P : Platform} : objectIdCast -> keepsOnFailure createTask.
Proof.
  intros Hlaw rq e st r st'. rewrite createTask_run.
  destruct (user rq) as [u|]; [|now intros [= <- <-]].
  cbv zeta.
  pose proof (construct_id_casts taskSchema (taskData rq u e) e Hlaw taskSchema_NoDup
                taskSchema_id) as [idv Hid].
  revert Hid. generalize (construct taskSchema (taskData rq u e) e). intros task Hid.
  destruct (save _ _ _) as [l|]; [|now intros [= <- <-]].
  rewrite (findById_cast _ _ _ taskSchema_id), Hid.
  intros [= <- <-] _ H201. now contradiction H201.
Qed.

Lemma keeps_createProject `{P : Platform} : objectIdCast -> keepsOnFailure createProject.
Proof.
  intros Hlaw rq e st r st'. rewrite createProject_run.
  destruct (user rq) as [u|]; [|now intros [= <- <-]].
  cbv zeta.
  pose proof (construct_id_casts projectSchema (projectData rq u e) e Hlaw
                projectSchema_NoDup projectSchema_id) as [idv Hid].
  revert Hid. generalize (construct projectSchema (projectData rq u e) e).
  intros project Hid.
  destruct (save _ _ _) as [l|]; [|now intros [= <- <-]].
  rewrite (findById_cast _ _ _ projectSchema_id), Hid.
  intros [= <- <-] _ H201. now contradiction H201.
Qed.

Lemma answers_incl (codes codes' : list nat) (h : handler) :
  incl codes codes' -> answers codes h -> answers codes' h.
Proof.
  intros Hincl Hh rq e st. destruct (Hh rq e st) as (r & st' & Hrun & Hcode).
  exists r, st'. split; [assumption|]. now apply Hincl.
Qed.

Ltac among :=
  let x := fresh in let H := fresh in
  intros x H; cbn [In] in H |- *;
  repeat (destruct H as [H|H]; [subst x; tauto|]); contradiction.

Lemma routes_status `{P : Platform} (ep : endpoint) : answers (statuses ep) (route ep).
Proof.
  destruct ep; cbn [route statuses].
  - apply (behaves_answers _ _ behaves_health).
  - apply (behaves_answers _ _ (behaves_register b)).
  - apply (behaves_answers _ _ (behaves_login b)).
  - apply (answers_incl (401 :: 403 :: [200; 404; 500])%nat); [among|].
    apply answers_protected, (behaves_answers _ _ behaves_getProfile).
  - apply (answers_incl (401 :: 403 :: [200; 500])%nat); [among|].
    apply answers_protected, (behaves_answers _ _ behaves_getUsers).
  - apply (answers_incl (401 :: 403 :: [200; 500])%nat); [among|].
    apply answers_protected, (behaves_answers _ _ behaves_getTasks).
  - apply (answers_incl (401 :: 403 :: [201; 500])%nat); [among|].
    apply answers_protected, answers_createTask.
  - apply (answers_incl (401 :: 403 :: [200; 404; 500])%nat); [among|].
    apply answers_protected, (behaves_answers _ _ behaves_updateTask).
  - apply (answers_incl (401 :: 403 :: [200; 404; 500])%nat); [among|].
    apply answers_protected, (behaves_answers _ _ behaves_deleteTask).
  - apply (answers_incl (401 :: 403 :: [200; 500])%nat); [among|].
    apply answers_protected, (behaves_answers _ _ behaves_getProjects).
  - apply (answers_incl (401 :: 403 :: [201; 500])%nat); [among|].
    apply answers_protected, answers_createProject.
  - apply (answers_incl (401 :: 403 :: [200; 500])%nat); [among|].
    apply answers_protected, (behaves_answers _ _ behaves_dashboard).
Qed.

(** X25.  Every route of the routing table answers every request itself,
    with a status code of its own list: no route passes an error on to
    [errorHandler] or the request on to the 404 handler.  In particular the
    task and project routes never answer 400. *)
Theorem routes_answer `{P : Platform} (ep : endpoint) (rq : request) (e : env)
    (st : store) :
  exists r st',
    route ep rq e st = (Respond r, st')
    /\ In (status r) (statuses ep)
    /\ app (route ep) rq e st = (r, st').
Proof.
  destruct (routes_status ep rq e st) as (r & st' & Hrun & Hcode).
  exists r, st'. repeat apply conj; try assumption.
  unfold app. now rewrite Hrun.
Qed.

Lemma readOnly_protected `{P : Platform} (h : handler) :
  readOnly h -> readOnly (protected h).
Proof.
  intros Hh rq e st.
  destruct (protected_cases h rq e st) as [H|[H|[u H]]]; rewrite H;
    [reflexivity|reflexivity|apply Hh].
Qed.

Lemma readOnly_getProfile `{P : Platform} : readOnly getProfile.
Proof.
  intros rq e st. rewrite getProfile_run.
  destruct (user rq); [|reflexivity].
  destruct (castScalar _ _ _); [|reflexivity].
  now destruct (head _).
Qed.

Lemma readOnly_getTasks `{P : Platform} : readOnly getTasks.
Proof.
  intros rq e st. rewrite getTasks_run.
  destruct (asCount (limitOf rq)); [|reflexivity].
  destruct (asCount (offsetOf rq)); [|reflexivity].
  now destruct (find _ _ _).
Qed.

(** X26.  The GET routes are read-only: whatever the request and whatever
    they answer, the store is afterwards what it was. *)
Theorem get_routes_read_only `{P : Platform} (ep : endpoint) (rq : request)
    (e : env) (st : store) :
  method ep = GET -> snd (route ep rq e st) = st.
Proof.
  destruct ep; cbn [method route]; try discriminate; intros _.
  - reflexivity.
  - apply readOnly_protected, readOnly_getProfile.
  - apply readOnly_protected. intros rq' e' st'. now rewrite getUsers_run.
  - apply readOnly_protected, readOnly_getTasks.
  - apply readOnly_protected. intros rq' e' st'. now rewrite getProjects_run.
  - apply readOnly_protected. intros rq' e' st'. now rewrite dashboard_run.
Qed.

(** X27.  A request that is not answered 200 or 201 leaves the store as it
    was, on every route, provided casting to ObjectId yields ObjectIds. *)
Theorem failed_requests_leave_store `{P : Platform} (ep : endpoint) (rq : request)
    (e : env) (st st' : store) (r : response) :
  objectIdCast ->
  route ep rq e st = (Respond r, st') ->
  status r <> 200%nat -> status r <> 201%nat ->
  st' = st.
Proof.
  intros Hlaw.
  assert (H : keepsOnFailure (route ep)).
  { destruct ep; cbn [route].
    - apply (behaves_keeps _ _ behaves_health).
    - apply (behaves_keeps _ _ (behaves_register b)).
    - apply (behaves_keeps _ _ (behaves_login b)).
    - apply keepsOnFailure_protected, (behaves_keeps _ _ behaves_getProfile).
    - apply keepsOnFailure_protected, (behaves_keeps _ _ behaves_getUsers).
    - apply keepsOnFailure_protected, (behaves_keeps _ _ behaves_getTasks).
    - now apply keepsOnFailure_protected, keeps_createTask.
    - apply keepsOnFailure_protected, (behaves_keeps _ _ behaves_updateTask).
    - apply keepsOnFailure_protected, (behaves_keeps _ _ behaves_deleteTask).
    - apply keepsOnFailure_protected, (behaves_keeps _ _ behaves_getProjects).
    - now apply keepsOnFailure_protected, keeps_createProject.
    - apply keepsOnFailure_protected, (behaves_keeps _ _ behaves_dashboard). }
  apply H.
Qed.

Lemma raised_errorJson (code : nat) (msg : string) :
  ok (errorJson code msg) = false -> msg <> "" ->
  raised (errorJson code msg) = Some (ErrorOf (VStr msg)).
Proof.
  intros Hok Hmsg. unfold raised. rewrite Hok.
  cbn [json errorJson property String.eqb Ascii.eqb Bool.eqb].
  unfold orRequestFailed. cbn [truthy default from_option id].
  apply String.eqb_neq in Hmsg. now rewrite Hmsg.
Qed.

(** X29.  On every route, an answer whose status is not 200 or 201 is the
    object [{ error: msg }] with a message that is not empty, under one of
    the codes 400, 401, 403, 404 and 500.  So what the client's
    [ApiService.request] throws on it is an error with the server's own
    message, never the fallback "Request failed"; and on an answer 200 or
    201 it throws nothing. *)
Theorem error_answers_carry_message `{P : Platform} (ep : endpoint) (rq : request)
    (e : env) (st st' : store) (r : response) :
  route ep rq e st = (Respond r, st') ->
  (status r = 200%nat \/ status r = 201%nat -> raised r = None)
  /\ (status r <> 200%nat -> status r <> 201%nat ->
      exists msg,
        msg <> "" /\ r = errorJson (status r) msg
        /\ In (status r) [400; 401; 403; 404; 500]%nat
        /\ raised r = Some (ErrorOf (VStr msg))).
Proof.
  intros Hrun. split.
  - intros [H|H]; unfold raised, ok; now rewrite H.
  - intros H200 H201.
    assert (Hplain : plainErrors (route ep)).
    { destruct ep; cbn [route].
      - apply (behaves_plain _ _ behaves_health).
      - apply (behaves_plain _ _ (behaves_register b)).
      - apply (behaves_plain _ _ (behaves_login b)).
      - apply plainErrors_protected, (behaves_plain _ _ behaves_getProfile).
      - apply plainErrors_protected, (behaves_plain _ _ behaves_getUsers).
      - apply plainErrors_protected, (behaves_plain _ _ behaves_getTasks).
      - apply plainErrors_protected, plain_createTask.
      - apply plainErrors_protected, (behaves_plain _ _ behaves_updateTask).
      - apply plainErrors_protected, (behaves_plain _ _ behaves_deleteTask).
      - apply plainErrors_protected, (behaves_plain _ _ behaves_getProjects).
      - apply plainErrors_protected, plain_createProject.
      - apply plainErrors_protected, (behaves_plain _ _ behaves_dashboard). }
    destruct (Hplain rq e st r st' Hrun H200 H201) as (msg & Hmsg & Hr).
    assert (Hcode : In (status r) [400; 401; 403; 404; 500]%nat).
    { destruct (routes_status ep rq e st) as (r0 & st0 & Hrun0 & Hin).
      rewrite Hrun in Hrun0. injection Hrun0 as <- <-.
      destruct ep; cbn [statuses In] in Hin |- *;
        repeat (destruct Hin as [Hin|Hin]; [try tauto; congruence|]);
        contradiction. }
    exists msg. repeat apply conj; try assumption.
    rewrite Hr. apply raised_errorJson; [|assumption].
    unfold ok. cbn [status errorJson]. cbn [In] in Hcode.
    repeat (destruct Hcode as [Hcode|Hcode]; [rewrite <- Hcode; reflexivity|]).
    contradiction.
Qed.

(** *** The store stays well formed *)
























(** ** The further properties on the scenario *)

Section Examples.
#[local] Existing Instance refPlatform.

(** The reference platform casts to ObjectIds only. *)
Lemma refPlatform_objectIdCast : objectIdCast.
Proof.
  intros v v'. cbn [convert refPlatform]. unfold refConvert.
  destruct v; try discriminate.
  destruct ((String.length s =? 24)%nat && allHex s); [|discriminate].
  intros [= <-]. eauto.
Defined.





(** X5 on the scenario: what Bob's login shows. *)
Lemma login_answer_public_witness :
  exists u token shown,
    In u (users afterBob)
    /\ json (theResponse (login bobLogin env3 afterBob))
       = Json (VObj [("message", VStr "Login successful");
                     ("token", VStr token); ("user", VObj shown)])
    /\ token = jwt_sign (claimsOf u) JWT_SECRET (now env3)
    /\ incl (map fst shown)
         ["id"; "username"; "email"; "firstName"; "lastName"; "role"; "lastLogin"]
    /\ ~ In "password" (map fst shown).
Proof.
  refine (login_answer_public bobLogin env3 afterBob afterLogin
            (theResponse (login bobLogin env3 afterBob)) _ _);
    vm_compute; reflexivity.
Defined.


(** X7 on the scenario: Bob's token sent under the scheme [Token]. *)
Lemma scheme_not_checked_witness :
  bearerToken {| authorization := Some ("Token " ++ bobToken); params_id := "";
                 query := ∅; body := ∅; user := None |}
  = Some bobToken
  /\ protected getUsers
       {| authorization := Some ("Token " ++ bobToken); params_id := "";
          query := ∅; body := ∅; user := None |} env3 afterBob
     = getUsers (withUser bobClaims
                   {| authorization := Some ("Token " ++ bobToken); params_id := "";
                      query := ∅; body := ∅; user := None |}) env3 afterBob.
Proof.
  refine (scheme_not_checked getUsers _ env3 afterBob "Token" bobToken bobClaims
            _ _ _ _ _); try discriminate; vm_compute; reflexivity.
Defined.

(** X8 on the scenario: the client holds Bob's token. *)
Lemma client_token_accepted_witness :
  protected getUsers (call (Some bobToken) "" ∅ ∅) env3 afterBob
  = getUsers (withUser bobClaims (call (Some bobToken) "" ∅ ∅)) env3 afterBob
  /\ protected getUsers (call None "" ∅ ∅) env3 afterBob
     = (Respond (errorJson 401 "Access token required"), afterBob)
  /\ protected getUsers (call (Some "") "" ∅ ∅) env3 afterBob
     = (Respond (errorJson 401 "Access token required"), afterBob).
Proof.
  refine (client_token_accepted getUsers bobToken "" ∅ ∅ env3 afterBob bobClaims
            _ _ _); try discriminate; vm_compute; reflexivity.
Defined.


(** X10 on the scenario: Bob's profile. *)
Lemma profile_outcome_witness :
  snd (getProfile (withUser bobClaims anonymous) env3 afterBob) = afterBob
  /\ exists u idv d shown,
       user (withUser bobClaims anonymous) = Some u
       /\ castScalar TObjectId "_id" (VStr (userId u)) = Ok idv
       /\ In d (users afterBob)
       /\ matches (All [Equals "_id" idv]) d = true
       /\ json (theResponse (getProfile (withUser bobClaims anonymous) env3 afterBob))
          = Document (Some shown)
       /\ shown !! "password" = None
       /\ (forall p, p <> "password" -> shown !! p = d !! p).
Proof.
  pose proof (profile_outcome (withUser bobClaims anonymous) env3 afterBob
                (snd (getProfile (withUser bobClaims anonymous) env3 afterBob))
                (theResponse (getProfile (withUser bobClaims anonymous) env3 afterBob)))
    as H.
  destruct H as (Hst & Hok & _); [vm_compute; reflexivity|].
  split; [exact Hst|]. apply Hok. vm_compute. reflexivity.
Defined.

(** X12 on the scenario: Bob's task. *)
Lemma created_task_stored_witness :
  exists d,
    withTask = setTasks (tasks afterBob ++ [d])%list afterBob
    /\ json (theResponse (createTask (withUser bobClaims newTask) env3 afterBob))
       = Document (Some (populate (users afterBob) "createdBy" display
                           (populate (users afterBob) "assignedTo" display d)))
    /\ d !! "_id" = Some (VId (freshId env3))
    /\ d !! "updatedAt" = Some (VDate (now env3))
    /\ (body (withUser bobClaims newTask) !! "status" = None ->
        d !! "status" = Some (VStr "todo"))
    /\ (body (withUser bobClaims newTask) !! "priority" = None ->
        d !! "priority" = Some (VStr "medium"))
    /\ (body (withUser bobClaims newTask) !! "createdAt" = None ->
        d !! "createdAt" = Some (VDate (now env3)))
    /\ (forall p, lookupPath taskSchema p = None -> d !! p = None)
    /\ validDoc taskSchema d = true.
Proof.
  refine (created_task_stored (withUser bobClaims newTask) env3 afterBob withTask
            bobClaims
            (theResponse (createTask (withUser bobClaims newTask) env3 afterBob))
            _ _ _ _); vm_compute; reflexivity.
Defined.

(** X13 on the scenario: Bob deletes his task. *)
Lemma delete_task_outcome_witness :
  exists idv before d after,
    castScalar TObjectId "_id" (VStr (params_id bobsTask)) = Ok idv
    /\ tasks withTask = (before ++ d :: after)%list
    /\ matches (All [Equals "_id" idv]) d = true
    /\ (forall x, In x before -> matches (All [Equals "_id" idv]) x = false)
    /\ afterDelete = setTasks (before ++ after)%list withTask.
Proof.
  refine (proj1 (delete_task_outcome bobsTask env4 withTask afterDelete
                   (theResponse (deleteTask bobsTask env4 withTask)) _) _);
    vm_compute; reflexivity.
Defined.

(** X14 on the scenario: the store after the deletion is the store before
    the creation. *)
Lemma delete_created_task_witness :
  deleteTask bobsTask env4 withTask
  = (Respond {| status := 200;
                json := Json (VObj [("message", VStr "Task deleted successfully")]) |},
     afterBob).
Proof.
  refine (delete_created_task (withUser bobClaims newTask) bobsTask env3 env4
            afterBob withTask bobClaims
            (theResponse (createTask (withUser bobClaims newTask) env3 afterBob))
            _ _ _ _ _ _); vm_compute; reflexivity.
Defined.

(** X15 on the scenario: Bob deletes his task a second time. *)
Lemma delete_twice_not_found_witness :
  deleteTask bobsTask env4 afterDelete
  = (Respond (errorJson 404 "Task not found"), afterDelete).
Proof.
  refine (delete_twice_not_found bobsTask env4 env4 withTask afterDelete
            (theResponse (deleteTask bobsTask env4 withTask))
            refPlatform_objectIdCast _ _ _); vm_compute; reflexivity.
Defined.

(** X16 on the scenario: the completed tasks. *)
Lemma task_listing_sorted_witness :
  snd (getTasks listCompleted env4 afterUpdate) = afterUpdate
  /\ exists l found,
       find taskSchema (tasks afterUpdate) (taskFilter listCompleted) = Ok l
       /\ json (theResponse (getTasks listCompleted env4 afterUpdate))
          = TaskPage found (totalPagesOf (List.length l) (limitOf listCompleted))
              (currentPageOf listCompleted) (List.length l)
       /\ StronglySorted newerFirst found
       /\ (List.length found <= List.length l)%nat
       /\ (forall d, In d found ->
             exists d0, In d0 l /\ d = expanded (users afterUpdate) d0).
Proof.
  pose proof (task_listing_sorted listCompleted env4 afterUpdate
                (snd (getTasks listCompleted env4 afterUpdate))
                (theResponse (getTasks listCompleted env4 afterUpdate))) as H.
  destruct H as (Hst & Hok); [vm_compute; reflexivity|].
  split; [exact Hst|]. apply Hok. vm_compute. reflexivity.
Defined.


(** X18 on the scenario: page 0. *)
Lemma page_zero_fails_witness :
  getTasks pageZero env4 afterUpdate
  = (Respond (errorJson 500 "Failed to fetch tasks"), afterUpdate).
Proof.
  refine (page_zero_fails pageZero env4 afterUpdate "0" "10" 10 _ _ _ _ _);
    try (vm_compute; reflexivity); vm_compute; lia.
Defined.

(** X19 on the scenario: limit 0. *)
Lemma limit_zero_lists_all_witness :
  getTasks unlimited env4 afterUpdate
  = (Respond {| status := 200;
                json := TaskPage (map (expanded (users afterUpdate))
                                    (sortNewestFirst (tasks afterUpdate)))
                          None (VStr "3") (List.length (tasks afterUpdate)) |},
     afterUpdate).
Proof.
  refine (limit_zero_lists_all unlimited env4 afterUpdate "3" "0" 3
            (tasks afterUpdate) _ _ _ _ _); vm_compute; reflexivity.
Defined.

(** X20 on the scenario: the creator of Bob's task, as listed. *)
Lemma task_references_hide_password_witness :
  exists v,
    expanded (users withTask) (nth 0 (tasks withTask) ∅) !! "createdBy" = Some v
    /\ shownOf (users withTask) display "65a000000000000000000002" v
    /\ incl (keysOf v) ["_id"; "firstName"; "lastName"; "username"]
    /\ ~ In "password" (keysOf v).
Proof.
  refine (task_references_hide_password (users withTask) (nth 0 (tasks withTask) ∅)
            "createdBy" "65a000000000000000000002" _ _).
  - left. reflexivity.
  - vm_compute. reflexivity.
Defined.

(** X21 on the scenario: Bob's project, sent with Carol's id as [owner]. *)
Lemma create_project_owner_witness :
  status (theResponse (createProject newProject env4 withTask)) = 201%nat
  /\ exists d v,
       convert TObjectId (VStr (userId bobClaims)) = Some v
       /\ withProject = setProjects (projects withTask ++ [d])%list withTask
       /\ d !! "owner" = Some v
       /\ d !! "updatedAt" = Some (VDate (now env4))
       /\ validDoc projectSchema d = true.
Proof.
  split; [vm_compute; reflexivity|].
  refine (proj2 (create_project_owner newProject env4 withTask bobClaims _)
            (theResponse (createProject newProject env4 withTask)) withProject _ _);
    vm_compute; reflexivity.
Defined.

(** X23 on the scenario: the team of Bob's project, one of whose members
    is missing. *)
Lemma project_references_hide_password_witness :
  exists shown,
    expandedProject (users withProject) (nth 0 (projects withProject) ∅) !! "team"
    = Some (VArr shown)
    /\ (List.length shown <= 3)%nat
    /\ Forall (fun v => exists h,
                 In (VId h) [VId "65a000000000000000000001";
                             VId "65a000000000000000000002";
                             VId "65a0000000000000000000ff"]
                 /\ shownOf (users withProject) display h v
                 /\ v <> VNull
                 /\ ~ In "password" (keysOf v)) shown.
Proof.
  refine (proj2 (project_references_hide_password (users withProject)
                   (nth 0 (projects withProject) ∅))
            [VId "65a000000000000000000001"; VId "65a000000000000000000002";
             VId "65a0000000000000000000ff"] _ _); vm_compute; reflexivity.
Defined.

(** X26 on the scenario: the listing of Bob's completed task. *)
Lemma get_routes_read_only_witness :
  snd (route GET_tasks listCompleted env4 afterUpdate) = afterUpdate.
Proof.
  refine (get_routes_read_only GET_tasks listCompleted env4 afterUpdate _).
  reflexivity.
Defined.

(** X27 on the scenario: Bob posts an empty body. *)
Lemma failed_requests_leave_store_witness :
  snd (route POST_tasks (asBob "" [] []) env3 afterBob) = afterBob.
Proof.
  refine (failed_requests_leave_store POST_tasks (asBob "" [] []) env3 afterBob
            (snd (route POST_tasks (asBob "" [] []) env3 afterBob))
            (theResponse (route POST_tasks (asBob "" [] []) env3 afterBob))
            refPlatform_objectIdCast _ _ _).
  - vm_compute. reflexivity.
  - vm_compute. discriminate.
  - vm_compute. discriminate.
Defined.

(** X29 on the scenario: Bob posts an empty body; the client throws the
    message of the route. *)
Lemma error_answers_carry_message_witness :
  exists msg,
    msg <> ""
    /\ theResponse (route POST_tasks (asBob "" [] []) env3 afterBob)
       = errorJson (status (theResponse (route POST_tasks (asBob "" [] []) env3
                                           afterBob))) msg
    /\ In (status (theResponse (route POST_tasks (asBob "" [] []) env3 afterBob)))
         [400; 401; 403; 404; 500]%nat
    /\ raised (theResponse (route POST_tasks (asBob "" [] []) env3 afterBob))
       = Some (ErrorOf (VStr msg)).
Proof.
  refine (proj2 (error_answers_carry_message POST_tasks (asBob "" [] []) env3 afterBob
                   (snd (route POST_tasks (asBob "" [] []) env3 afterBob))
                   (theResponse (route POST_tasks (asBob "" [] []) env3 afterBob)) _)
            _ _).
  - vm_compute. reflexivity.
  - vm_compute. discriminate.
  - vm_compute. discriminate.
Defined.


End Examples.
